(** * Session manager (dronm/session): shallow embedding and its properties

    The development follows the Go sources:
    - [session.go]: log levels, [Manager], [NewManager], [SessionStart],
      [StartGC]/[StopGC], [genSessionID], [WriteToLog], [parseTime];
    - [redis/redis.go]: the redis provider and its session handle;
    - the sqlite provider and its session handle.

    Go values are modelled as follows: [int]/[int64] are [Z] (with the
    64-bit wrap-around written out where a product can leave the range),
    [string] is [string] (a byte sequence, [String.length] is Go's [len]),
    [[]byte] is [list Byte.byte], [map[string]interface{}] is a
    [gmap string interface], a nil-able pointer or interface is an [option],
    a [(T, error)] return is a [result T]. *)

From Stdlib Require Import ZArith String Ascii List Lia Floats.
From Stdlib Require Strings.Byte.
From stdpp Require Import gmap strings list pretty.

Open Scope Z_scope.

(* ================================================================== *)
(** * Go runtime vocabulary *)
(* ================================================================== *)

(** Go [error] values.  [EMsg] is [errors.New]; [EUnknownProvider] is the
    [fmt.Errorf] of [NewManager]; [EExternal] is an error handed back by a
    library outside the repository (time, gob, redis, database/sql). *)
Inductive error : Type :=
| EMsg (msg : string)
| EUnknownProvider (name : string)
| EExternal (origin : string).

(** A Go [(T, error)] pair: either the value with a nil error, or the error. *)
Inductive result (A : Type) : Type :=
| Ok (a : A)
| Err (e : error).
Arguments Ok {A} a.
Arguments Err {A} e.

Definition is_Err {A} (r : result A) : bool :=
  match r with Ok _ => false | Err _ => true end.

(** [int64] arithmetic wraps around (two's complement). *)
Definition wrap64 (z : Z) : Z := (z + 2 ^ 63) mod 2 ^ 64 - 2 ^ 63.

Definition bytes : Type := list Byte.byte.

#[global] Instance byte_eq_dec : EqDecision Byte.byte := Byte.byte_eq_dec.

(** ** [time.Time] and [time.Duration] *)

(** A wall-clock instant: [sec] counts the seconds since the start of a day
    boundary in the instant's own location (Go's absolute seconds, which
    [Hour], [Minute] and [Second] reduce modulo the day, hour and minute),
    [nsec] is the nanosecond within the second. *)
Record Time : Type := mkTime { sec : Z; nsec : Z }.

#[global] Instance Time_eq_dec : EqDecision Time.
Proof. solve_decision. Defined.

(** [time.Time{}] *)
Definition zero_Time : Time := mkTime 0 0.

Definition secondsPerMinute : Z := 60.
Definition secondsPerHour : Z := 60 * secondsPerMinute.
Definition secondsPerDay : Z := 24 * secondsPerHour.

Definition Time_Hour (t : Time) : Z := (sec t mod secondsPerDay) / secondsPerHour.
Definition Time_Minute (t : Time) : Z := (sec t mod secondsPerHour) / secondsPerMinute.
Definition Time_Second (t : Time) : Z := sec t mod secondsPerMinute.

(** [t.Truncate(time.Second)] drops the sub-second part. *)
Definition Time_Truncate_Second (t : Time) : Time := mkTime (sec t) 0.

(** [time.Duration] is an [int64] count of nanoseconds. *)
Definition Duration : Type := Z.
Definition time_Second : Duration := 1000000000.

(** [time.Duration(n) * time.Second], an [int64] product. *)
Definition seconds_to_Duration (n : Z) : Duration := wrap64 (n * time_Second).

(** ** [fmt] verbs used by the sources *)

Definition ldigits : string := "0123456789abcdef".

(** [ldigits[i]] *)
Definition ldigit (i : N) : ascii :=
  match String.get (N.to_nat i) ldigits with
  | Some c => c
  | None => "0"%char
  end.

(** [%x] on a byte slice: two lower-case hexadecimal digits per byte,
    [ldigits[c>>4]] then [ldigits[c&0xF]]. *)
Fixpoint fmt_x (b : bytes) : string :=
  match b with
  | [] => ""
  | c :: rest =>
      String (ldigit (N.shiftr (Byte.to_N c) 4))
        (String (ldigit (N.land (Byte.to_N c) 15)) (fmt_x rest))
  end.

(** [%d] on an integer. *)
Definition fmt_d (n : Z) : string := pretty n.

(** The slice expression [b[lo:hi]]. *)
Definition slice {A} (b : list A) (lo hi : nat) : list A := take (hi - lo) (drop lo b).

(** The slice expression [b[lo:]]. *)
Definition slice_from {A} (b : list A) (lo : nat) : list A := drop lo b.

Definition TAB : string := String (ascii_of_nat 9) "".
Definition NL : string := String (ascii_of_nat 10) "".

(** ** [interface{}] values stored in a session *)

(** The dynamic types that the providers and their tests put into a
    session.  A nil interface is [VNil]; a [[]byte] is [None] when the slice
    is nil; a user struct is its type name and its field values. *)
#[warnings="-register-all"]
Inductive interface : Type :=
| VNil
| VBool (b : bool)
| VString (s : string)
| VBytes (b : option bytes)
| VInt (n : Z)
| VInt32 (n : Z)
| VInt64 (n : Z)
| VFloat32 (f : float)
| VFloat64 (f : float)
| VTime (t : Time)
| VStruct (tyname : string) (fields : list interface).

(** Dynamic type tags, as [reflect.TypeOf] tells them apart. *)
Inductive gotype : Type :=
| TNil | TBool | TString | TBytes | TInt | TInt32 | TInt64
| TFloat32 | TFloat64 | TTime | TStruct (tyname : string).

Definition TypeOf (v : interface) : gotype :=
  match v with
  | VNil => TNil
  | VBool _ => TBool
  | VString _ => TString
  | VBytes _ => TBytes
  | VInt _ => TInt
  | VInt32 _ => TInt32
  | VInt64 _ => TInt64
  | VFloat32 _ => TFloat32
  | VFloat64 _ => TFloat64
  | VTime _ => TTime
  | VStruct n _ => TStruct n
  end.

Definition bytes_eqb (a b : bytes) : bool := bool_decide (a = b).

(** [reflect.DeepEqual]: values of different dynamic types are never equal;
    floats compare with [==] (a NaN differs from itself); a nil slice
    differs from an empty one; structs compare field by field. *)
Fixpoint DeepEqual (x y : interface) : bool :=
  match x, y with
  | VNil, VNil => true
  | VBool a, VBool b => Bool.eqb a b
  | VString a, VString b => String.eqb a b
  | VBytes None, VBytes None => true
  | VBytes (Some a), VBytes (Some b) => bytes_eqb a b
  | VInt a, VInt b => a =? b
  | VInt32 a, VInt32 b => a =? b
  | VInt64 a, VInt64 b => a =? b
  | VFloat32 a, VFloat32 b => PrimFloat.eqb a b
  | VFloat64 a, VFloat64 b => PrimFloat.eqb a b
  | VTime a, VTime b => bool_decide (a = b)
  | VStruct n fs, VStruct m gs =>
      String.eqb n m &&
      (fix all2 (l1 l2 : list interface) {struct l1} : bool :=
         match l1, l2 with
         | [], [] => true
         | a :: l1', b :: l2' => DeepEqual a b && all2 l1' l2'
         | _, _ => false
         end) fs gs
  | _, _ => false
  end.

(** ** Libraries outside the repository *)

(** The standard-library functions that the sources call and whose results
    the repository does not determine.  [math/rand]'s [Read] is documented
    to fill the whole slice it is given and to return a nil error. *)
Class GoLib : Type := {
  (** [time.Parse(layout, value)] *)
  time_Parse : string -> string -> result Time;
  (** [t.Format(layout)] *)
  time_Format : Time -> string -> string;
  (** [rand.New(rand.NewSource(seed)).Read(make([]byte, n))] *)
  rand_Read : Z -> nat -> bytes * option error;
  rand_Read_length : forall seed n, length (rand_Read seed n).1 = n;
  rand_Read_error : forall seed n, (rand_Read seed n).2 = None;
}.

(** Seconds from 0001-01-01 to 1970-01-01. *)
Definition unixToInternal : Z := 62135596800.

(** [t.UnixNano()], an [int64]. *)
Definition Time_UnixNano (t : Time) : Z :=
  wrap64 ((sec t - unixToInternal) * 1000000000 + nsec t).

(* ================================================================== *)
(** * session.go *)
(* ================================================================== *)

Module session.

Definition TIME_SEC_LAYOUT : string := "15:04:05".
Definition TIME_MIN_LAYOUT : string := "15:04".
Definition RFC3339 : string := "2006-01-02T15:04:05Z07:00".

Definition log_levels : list string := ["ERROR"; "WARN"; "DEBUG"]%string.

(** [type LogLevel int] *)
Definition LogLevel : Type := Z.

(** [log_levels[lv]]; an index out of range panics ([None]). *)
Definition LogLevel_String (lv : LogLevel) : option string :=
  if lv <? 0 then None else log_levels !! Z.to_nat lv.

Definition LOG_LEVEL_ERROR : LogLevel := 0.
Definition LOG_LEVEL_WARN : LogLevel := 1.
Definition LOG_LEVEL_DEBUG : LogLevel := 2.

(** An [io.Writer] is identified by a number; a nil writer is [None]. *)
Definition Writer : Type := nat.

(** Cancellation contexts made by [context.WithCancel]. *)
Definition ctx_id : Type := nat.

(** Invocations of the [Provider] interface made by the manager. *)
Inductive ProviderCall : Type :=
| CallInitProvider (provParams : list interface)
| CallSessionInit (sid : string)
| CallSessionRead (sid : string)
| CallSessionDestroy (sid : string)
| CallSessionClose (sid : string)
| CallSessionGC (l : option Writer) (logLev : LogLevel)
| CallGetSessionIDLen
| CallSetMaxLifeTime (n : Z)
| CallGetMaxLifeTime
| CallSetMaxIdleTime (n : Z)
| CallGetMaxIdleTime
| CallDestroyAllSessions (l : option Writer) (logLev : LogLevel).

(** What a run of the manager does to the outside, in order. *)
Inductive event : Type :=
| EWrite (w : Writer) (line : string)      (* io.WriteString(w, line) *)
| ECall (provider : string) (c : ProviderCall)
| EAfter (ctx : ctx_id) (d : Duration)     (* select on ctx.Done() and time.After(d) *)
| ESleep (d : Duration).                   (* time.Sleep(d) *)

(** The goroutines that [StartGC] starts, with the variables their closures
    capture.  Both also capture the manager pointer. *)
Inductive Goroutine : Type :=
| KillLoop (ctx : ctx_id) (l : option Writer) (logLev : LogLevel)
| GCLoop (ctx : ctx_id) (sleep_sec : Z) (l : option Writer) (logLev : LogLevel).

Definition goroutine_ctx (g : Goroutine) : ctx_id :=
  match g with
  | KillLoop ctx _ _ => ctx
  | GCLoop ctx _ _ _ => ctx
  end.

(** [type Manager struct]: [provider] points at a registered provider (the
    pointer is the name under which the provider object lives in
    [provides]); [gcCancel] is the cancel function of the context made by
    the latest [StartGC], nil before. *)
Record Manager : Type := mkManager {
  provider : string;
  SessionsKillTime : Time;
  gcCancel : option ctx_id;
}.

(** The part of the [Provider] interface whose results the manager uses.
    [P] is the state of a provider object, [Sess] its session handle.  The
    first argument of the session constructors is the reading of
    [time.Now()]; their result is [None] when the call panics. *)
Class Provider (P Sess : Type) : Type := {
  InitProvider : list interface -> P -> option error * P;
  SessionInit : Time -> string -> P -> option (result Sess * P);
  SessionRead : Time -> string -> P -> option (result Sess * P);
  GetSessionIDLen : P -> Z;
  SetMaxLifeTime : Z -> P -> P;
  GetMaxLifeTime : P -> Z;
  SetMaxIdleTime : Z -> P -> P;
  GetMaxIdleTime : P -> Z;
}.

Section Manager.
Context `{GoLib} {P Sess : Type} `{!Provider P Sess}.

(** The process state that session.go works on: the registered provider
    objects ([var provides]), what has been done to the outside so far
    (oldest first), the contexts made and cancelled, the goroutines
    started. *)
Record World : Type := mkWorld {
  provides : gmap string P;
  trace : list event;
  next_ctx : ctx_id;
  cancelled : gset ctx_id;
  goroutines : list Goroutine;
}.

(** Computations over the process state; [None] is a panic. *)
Definition M (A : Type) : Type := World -> option (A * World).

Definition ret {A} (a : A) : M A := fun w => Some (a, w).

Definition bind {A B} (m : M A) (k : A -> M B) : M B :=
  fun w => match m w with
           | Some (a, w') => k a w'
           | None => None
           end.

Definition panic {A} : M A := fun _ => None.

Definition emit (e : event) : M unit :=
  fun w => Some (tt, mkWorld (provides w) (trace w ++ [e]) (next_ctx w)
                       (cancelled w) (goroutines w)).

Local Notation "'let*' x ':=' m 'in' k" := (bind m (fun x => k))
  (at level 10, x name, m at level 100, k at level 200, only parsing).

(** [go func() { ... }()] *)
Definition go (g : Goroutine) : M unit :=
  fun w => Some (tt, mkWorld (provides w) (trace w) (next_ctx w)
                       (cancelled w) (goroutines w ++ [g])).

(** [context.WithCancel(context.Background())]: a fresh context; its
    cancel function is identified with the context. *)
Definition WithCancel : M ctx_id :=
  fun w => Some (next_ctx w, mkWorld (provides w) (trace w) (S (next_ctx w))
                               (cancelled w) (goroutines w)).

(** Calling the cancel function of context [c]. *)
Definition cancel (c : ctx_id) : M unit :=
  fun w => Some (tt, mkWorld (provides w) (trace w) (next_ctx w)
                       ({[c]} ∪ cancelled w) (goroutines w)).

(** Following a provider pointer; a dangling one panics. *)
Definition get_provider (name : string) : M P :=
  fun w => match provides w !! name with
           | Some p => Some (p, w)
           | None => None
           end.

Definition put_provider (name : string) (p : P) : M unit :=
  fun w => Some (tt, mkWorld (<[name:=p]> (provides w)) (trace w) (next_ctx w)
                       (cancelled w) (goroutines w)).

Definition Register (name : string) (provide : option P) : M unit :=
  match provide with
  | None => panic
  | Some p =>
      fun w => match provides w !! name with
               | Some _ => None
               | None => put_provider name p w
               end
  end.

(** *** Calls through the [Provider] interface *)

Definition provider_SetMaxLifeTime (name : string) (n : Z) : M unit :=
  let* p := get_provider name in
  let* _ := emit (ECall name (CallSetMaxLifeTime n)) in
  put_provider name (SetMaxLifeTime n p).

Definition provider_SetMaxIdleTime (name : string) (n : Z) : M unit :=
  let* p := get_provider name in
  let* _ := emit (ECall name (CallSetMaxIdleTime n)) in
  put_provider name (SetMaxIdleTime n p).

Definition provider_GetMaxLifeTime (name : string) : M Z :=
  let* p := get_provider name in
  let* _ := emit (ECall name CallGetMaxLifeTime) in
  ret (GetMaxLifeTime p).

Definition provider_GetMaxIdleTime (name : string) : M Z :=
  let* p := get_provider name in
  let* _ := emit (ECall name CallGetMaxIdleTime) in
  ret (GetMaxIdleTime p).

Definition provider_GetSessionIDLen (name : string) : M Z :=
  let* p := get_provider name in
  let* _ := emit (ECall name CallGetSessionIDLen) in
  ret (GetSessionIDLen p).

Definition provider_InitProvider (name : string) (provParams : list interface)
  : M (option error) :=
  let* p := get_provider name in
  let* _ := emit (ECall name (CallInitProvider provParams)) in
  let '(err, p') := InitProvider provParams p in
  let* _ := put_provider name p' in
  ret err.

Definition provider_SessionInit (name : string) (now : Time) (sid : string)
  : M (result Sess) :=
  let* p := get_provider name in
  let* _ := emit (ECall name (CallSessionInit sid)) in
  match SessionInit now sid p with
  | None => panic
  | Some (r, p') =>
      let* _ := put_provider name p' in
      ret r
  end.

Definition provider_SessionRead (name : string) (now : Time) (sid : string)
  : M (result Sess) :=
  let* p := get_provider name in
  let* _ := emit (ECall name (CallSessionRead sid)) in
  match SessionRead now sid p with
  | None => panic
  | Some (r, p') =>
      let* _ := put_provider name p' in
      ret r
  end.

(** The sweeps of a provider are not followed into the provider: the
    manager's side of them is the invocation. *)
Definition provider_SessionGC (name : string) (l : option Writer) (logLev : LogLevel)
  : M unit :=
  let* _ := get_provider name in
  emit (ECall name (CallSessionGC l logLev)).

Definition provider_DestroyAllSessions (name : string) (l : option Writer)
  (logLev : LogLevel) : M unit :=
  let* _ := get_provider name in
  emit (ECall name (CallDestroyAllSessions l logLev)).

(** *** Functions of session.go *)

Definition parseTime (timeStr : string) : result Time :=
  if (String.length timeStr =? String.length TIME_SEC_LAYOUT)%nat then
    match time_Parse TIME_SEC_LAYOUT timeStr with
    | Err e => Err e
    | Ok t => Ok t
    end
  else if (String.length timeStr =? String.length TIME_MIN_LAYOUT)%nat then
    match time_Parse TIME_MIN_LAYOUT timeStr with
    | Err e => Err e
    | Ok t => Ok t
    end
  else Err (EMsg "parseTime: unknown layout").

(** The field is assigned whatever [parseTime] returns, the zero time on
    an error. *)
Definition SetSessionsKillTime (manager : Manager) (sessionsKillTime : string)
  : Manager * option error :=
  match parseTime sessionsKillTime with
  | Ok t => (mkManager (provider manager) t (gcCancel manager), None)
  | Err e => (mkManager (provider manager) zero_Time (gcCancel manager), Some e)
  end.

Definition NewManager (providerName : string) (maxLifeTime maxIdleTime : Z)
  (sessionsKillTime : string) (provParams : list interface) : M (result Manager) :=
  fun w =>
    match provides w !! providerName with
    | None => ret (Err (EUnknownProvider providerName)) w
    | Some _ =>
        (let* _ := provider_SetMaxLifeTime providerName maxLifeTime in
         let* _ := provider_SetMaxIdleTime providerName maxIdleTime in
         let manager := mkManager providerName zero_Time None in
         let '(manager, err) :=
           if String.eqb sessionsKillTime "" then (manager, None)
           else SetSessionsKillTime manager sessionsKillTime in
         match err with
         | Some e => ret (Err e)
         | None =>
             let* err := provider_InitProvider (provider manager) provParams in
             match err with
             | Some e => ret (Err e)
             | None => ret (Ok manager)
             end
         end) w
    end.

Definition Manager_SetMaxLifeTime (manager : Manager) (maxLifeTime : Z) : M unit :=
  provider_SetMaxLifeTime (provider manager) maxLifeTime.

Definition Manager_SetMaxIdleTime (manager : Manager) (maxIdleTime : Z) : M unit :=
  provider_SetMaxIdleTime (provider manager) maxIdleTime.

Definition Manager_GetSessionIDLen (manager : Manager) : M Z :=
  provider_GetSessionIDLen (provider manager).

(** [fmt.Sprintf("%x-%x-%x-%x-%x", b[0:4], b[4:6], b[6:8], b[8:10], b[10:])] *)
Definition Sprintf_id (b : bytes) : string :=
  fmt_x (slice b 0 4) +:+ "-" +:+ fmt_x (slice b 4 6) +:+ "-" +:+
  fmt_x (slice b 6 8) +:+ "-" +:+ fmt_x (slice b 8 10) +:+ "-" +:+
  fmt_x (slice_from b 10).

(** [genSessionID]: the generator is seeded with the clock reading and
    fills a slice of 16 bytes. *)
Definition genSessionID (now : Time) : string :=
  let '(b, err) := rand_Read (Time_UnixNano now) 16 in
  match err with
  | Some _ => ""
  | None => Sprintf_id b
  end.

Definition SessionStart (manager : Manager) (now : Time) (sid : string)
  : M (result Sess) :=
  if String.eqb sid "" then
    let sid := genSessionID now in
    provider_SessionInit (provider manager) now sid
  else provider_SessionRead (provider manager) now sid.

Definition Manager_InitProvider (manager : Manager) (provParams : list interface)
  : M (option error) :=
  provider_InitProvider (provider manager) provParams.

Definition Manager_SessionGC (manager : Manager) (l : option Writer)
  (logLev : LogLevel) : M unit :=
  provider_SessionGC (provider manager) l logLev.

Definition Manager_DestroyAllSessions (manager : Manager) (l : option Writer)
  (logLev : LogLevel) : M unit :=
  provider_DestroyAllSessions (provider manager) l logLev.

Definition WriteToLog (now : Time) (w : Writer) (s : string) (logLevel : LogLevel)
  : M unit :=
  match LogLevel_String logLevel with
  | None => panic
  | Some lv =>
      emit (EWrite w ("SessionManager" +:+ TAB +:+ time_Format now RFC3339 +:+ TAB
                        +:+ lv +:+ TAB +:+ s +:+ NL))
  end.

(** [if l != nil && logLev >= level { WriteToLog(l, s, as_level) }] *)
Definition log_if (now : Time) (l : option Writer) (logLev level : LogLevel)
  (s : string) (as_level : LogLevel) : M unit :=
  match l with
  | Some w => if level <=? logLev then WriteToLog now w s as_level else ret tt
  | None => ret tt
  end.

(** What the [select] of a loop iteration receives: the context is done,
    or the timer fires (at the given clock reading). *)
Inductive select_result : Type :=
| CtxDone
| TimerFired (fired : Time).

(** [<-ctx.Done()] can only be received from a cancelled context. *)
Definition select_enabled (w : World) (ctx : ctx_id) (sel : select_result) : Prop :=
  match sel with
  | CtxDone => ctx ∈ cancelled w
  | TimerFired _ => True
  end.

(** Seconds of the day of a wall-clock instant. *)
Definition seconds_of_day (t : Time) : Z :=
  Time_Hour t * 60 * 60 + Time_Minute t * 60 + Time_Second t.

(** The sleep time that an iteration of the kill-time loop computes. *)
Definition kill_sleep_sec (manager : Manager) (now : Time) : Z :=
  let now := Time_Truncate_Second now in
  let now_sec := seconds_of_day now in
  let kill_sec := seconds_of_day (SessionsKillTime manager) in
  let sleep_sec := kill_sec - now_sec in
  if sleep_sec <? 0 then 24 * 60 * 60 + sleep_sec else sleep_sec.

(** One iteration of the first goroutine of [StartGC] (the body of its
    [for]); the result tells whether the loop goes on. [manager] is the
    manager object as the iteration finds it, [now] the clock at the start
    of the iteration. *)
Definition kill_loop_iter (manager : Manager) (ctx : ctx_id) (l : option Writer)
  (logLev : LogLevel) (now : Time) (sel : select_result) : M bool :=
  let sleep_sec := kill_sleep_sec manager now in
  let* _ := log_if now l logLev LOG_LEVEL_WARN
              ("waiting session killer in " +:+ fmt_d sleep_sec +:+ " seconds")
              LOG_LEVEL_WARN in
  let* _ := emit (EAfter ctx (seconds_to_Duration sleep_sec)) in
  match sel with
  | CtxDone => ret false
  | TimerFired fired =>
      let* _ := log_if fired l logLev LOG_LEVEL_DEBUG
                  "calling manager.DestroyAllSessions()" LOG_LEVEL_DEBUG in
      let* _ := Manager_DestroyAllSessions manager l logLev in
      let* _ := emit (ESleep (seconds_to_Duration 1)) in
      ret true
  end.

(** One iteration of the second goroutine of [StartGC]. *)
Definition gc_loop_iter (manager : Manager) (ctx : ctx_id) (sleep_sec : Z)
  (l : option Writer) (logLev : LogLevel) (sel : select_result) : M bool :=
  let* _ := emit (EAfter ctx (seconds_to_Duration sleep_sec)) in
  match sel with
  | CtxDone => ret false
  | TimerFired fired =>
      let* _ := log_if fired l logLev LOG_LEVEL_DEBUG
                  "calling manager.SessionGC()" LOG_LEVEL_DEBUG in
      let* _ := Manager_SessionGC manager l logLev in
      ret true
  end.

Definition loop_iter (manager : Manager) (g : Goroutine) (now : Time)
  (sel : select_result) : M bool :=
  match g with
  | KillLoop ctx l logLev => kill_loop_iter manager ctx l logLev now sel
  | GCLoop ctx sleep_sec l logLev => gc_loop_iter manager ctx sleep_sec l logLev sel
  end.

(** A goroutine run through the given iterations, each with the clock at
    its start and what its [select] receives; the result tells whether the
    loop is still running afterwards. *)
Fixpoint run_loop (manager : Manager) (g : Goroutine)
  (inputs : list (Time * select_result)) : M bool :=
  match inputs with
  | [] => ret true
  | (now, sel) :: rest =>
      let* running := loop_iter manager g now sel in
      if running then run_loop manager g rest else ret false
  end.

(** The interval of the idle/lifetime loop, as [StartGC] chooses it once
    the two policies are not both zero. *)
Definition gc_sleep_sec (life_time idle_time : Z) : Z :=
  if (0 <? idle_time) && (life_time =? 0) then idle_time
  else if (0 <? life_time) && (idle_time =? 0) then life_time
  else if idle_time <? life_time then idle_time
  else life_time.

(** [StartGC]; the manager is returned with its new [gcCancel]. *)
Definition StartGC (manager : Manager) (now : Time) (l : option Writer)
  (logLev : LogLevel) : M Manager :=
  let* ctx := WithCancel in
  let manager := mkManager (provider manager) (SessionsKillTime manager) (Some ctx) in
  let* _ := if bool_decide (SessionsKillTime manager ≠ zero_Time)
            then go (KillLoop ctx l logLev) else ret tt in
  let* life_time := provider_GetMaxLifeTime (provider manager) in
  let* idle_time := provider_GetMaxIdleTime (provider manager) in
  if (life_time =? 0) && (idle_time =? 0) then ret manager
  else
    let sleep_sec := gc_sleep_sec life_time idle_time in
    let* _ := log_if now l logLev LOG_LEVEL_WARN
                ("running garbage collector every " +:+ fmt_d sleep_sec +:+ " seconds")
                LOG_LEVEL_DEBUG in
    let* _ := go (GCLoop ctx sleep_sec l logLev) in
    ret manager.

Definition StopGC (manager : Manager) : M unit :=
  match gcCancel manager with
  | Some c => cancel c
  | None => ret tt
  end.

End Manager.

Arguments World : clear implicits.
Arguments M : clear implicits.

End session.

(* ================================================================== *)
(** * encoding/gob *)
(* ================================================================== *)

(** The gob codec is outside the repository.  [gob_Decode b t] stands for
    [Decode(&v)] with [v] a zeroed variable of type [t]: it yields the value
    stored into [v], or the error that leaves [v] untouched. *)
Class Gob : Type := {
  gob_Encode : interface -> result bytes;
  gob_Decode : bytes -> gotype -> result interface;
  (** the codec applied to a whole [storeValue] map *)
  gob_EncodeMap : gmap string interface -> result bytes;
  gob_DecodeMap : bytes -> result (gmap string interface);
}.

(* ================================================================== *)
(** * redis/redis.go *)
(* ================================================================== *)

Module redis.

Definition EKeyNotFound : error := EMsg "key not found".
Definition PROVIDER : string := "redis".
Definition SESS_ID_LEN : Z := 36.
Definition LOG_PREF : string := "redis provider:".

(** Commands sent to the redis server. *)
Inductive Cmd : Type :=
| CmdPing
| CmdGet (key : string)
| CmdSet (key : string) (val : bytes) (expiration : Duration)
| CmdDel (key : string).

(** A [*redis.Client] together with the server behind it: the keys the
    server holds, whether it answers, and the commands sent so far (oldest
    first).  Expiry of keys with the passing of time is not followed. *)
Record Client : Type := mkClient {
  kv : gmap string bytes;
  online : bool;
  cmds : list Cmd;
}.

(** [redis.ParseURL] and [redis.NewClient]. *)
Class RedisLib : Type := {
  redis_ParseURL : string -> result string;
  redis_NewClient : string -> Client;
}.

(** [type SessionStore struct] *)
Record SessionStore : Type := mkSessionStore { sid : string }.

(** [type Provider struct]; [client] is nil until [InitProvider]. *)
Record Provider : Type := mkProvider {
  client : option Client;
  namespace : string;
  maxLifeTime : Z;
  maxIdleTime : Z;
}.

Definition with_client (pder : Provider) (c : Client) : Provider :=
  mkProvider (Some c) (namespace pder) (maxLifeTime pder) (maxIdleTime pder).

(** *** Client commands.  The outer [option] is [None] when the call
    dereferences a nil client (a panic). *)

(** [pder.client.Set(ctx, key, val, expiration).Err()] *)
Definition client_Set (pder : Provider) (key : string) (val : bytes)
  (expiration : Duration) : option (option error * Provider) :=
  match client pder with
  | None => None
  | Some c =>
      let log := cmds c ++ [CmdSet key val expiration] in
      if online c
      then Some (None, with_client pder (mkClient (<[key:=val]> (kv c)) true log))
      else Some (Some (EExternal "redis"), with_client pder (mkClient (kv c) false log))
  end.

(** [pder.client.Get(ctx, key).Bytes()]; a missing key is the error
    [redis.Nil]. *)
Definition client_Get (pder : Provider) (key : string)
  : option (result bytes * Provider) :=
  match client pder with
  | None => None
  | Some c =>
      let c' := mkClient (kv c) (online c) (cmds c ++ [CmdGet key]) in
      if online c
      then match kv c !! key with
           | Some b => Some (Ok b, with_client pder c')
           | None => Some (Err (EExternal "redis: nil"), with_client pder c')
           end
      else Some (Err (EExternal "redis"), with_client pder c')
  end.

(** [pder.client.Del(ctx, key)] *)
Definition client_Del (pder : Provider) (key : string)
  : option (option error * Provider) :=
  match client pder with
  | None => None
  | Some c =>
      let log := cmds c ++ [CmdDel key] in
      if online c
      then Some (None, with_client pder (mkClient (delete key (kv c)) true log))
      else Some (Some (EExternal "redis"), with_client pder (mkClient (kv c) false log))
  end.

Section Redis.
Context `{Gob} `{RedisLib}.

Definition getPrefixedKey (pder : Provider) (sid key : string) : string :=
  namespace pder +:+ ":" +:+ sid +:+ ":" +:+ key.

Definition setValue (pder : Provider) (sid key : string) (val : interface)
  : option (option error * Provider) :=
  match gob_Encode val with
  | Err e => Some (Some e, pder)
  | Ok b =>
      let prefixed_key := getPrefixedKey pder sid key in
      client_Set pder prefixed_key b (seconds_to_Duration (maxLifeTime pder))
  end.

Definition sessionAccessed (pder : Provider) (now : Time) (sid : string)
  : option (option error * Provider) :=
  setValue pder sid "time_accessed" (VTime now).

Definition getValueForKey (pder : Provider) (redisKey : string) (t : gotype)
  : option (result interface * Provider) :=
  match client_Get pder redisKey with
  | None => None
  | Some (Err e, pder) => Some (Err e, pder)
  | Some (Ok val_b, pder) =>
      if (length val_b =? 0)%nat then Some (Err EKeyNotFound, pder)
      else match gob_Decode val_b t with
           | Err e => Some (Err e, pder)
           | Ok v => Some (Ok v, pder)
           end
  end.

Definition getValue (pder : Provider) (now : Time) (sid key : string) (t : gotype)
  : option (result interface * Provider) :=
  match getValueForKey pder (getPrefixedKey pder sid key) t with
  | None => None
  | Some (Err e, pder) => Some (Err e, pder)
  | Some (Ok v, pder) =>
      match sessionAccessed pder now sid with
      | None => None
      | Some (_, pder) => Some (Ok v, pder)
      end
  end.

(** *** The session handle.  Its methods work on the package variable
    [pder], passed in and out. *)

Definition SessionStore_Flush (st : SessionStore) (now : Time) (pder : Provider)
  : option (option error * Provider) :=
  match sessionAccessed pder now (sid st) with
  | None => None
  | Some (_, pder) => Some (None, pder)
  end.

Definition SessionStore_Set (st : SessionStore) (key : string) (val : interface)
  (pder : Provider) : option (option error * Provider) :=
  match setValue pder (sid st) key val with
  | None => None
  | Some (Some err, pder) => Some (Some err, pder)
  | Some (None, pder) => Some (None, pder)
  end.

Definition SessionStore_Put (st : SessionStore) (now : Time) (key : string)
  (val : interface) (pder : Provider) : option (option error * Provider) :=
  match setValue pder (sid st) key val with
  | None => None
  | Some (Some err, pder) => Some (Some err, pder)
  | Some (None, pder) => SessionStore_Flush st now pder
  end.

(** [Get(key, val)] with [val] a pointer to a variable of type [t]. *)
Definition SessionStore_Get (st : SessionStore) (now : Time) (key : string)
  (t : gotype) (pder : Provider) : option (result interface * Provider) :=
  match getValue pder now (sid st) key t with
  | None => None
  | Some (Err err, pder) => Some (Err err, pder)
  | Some (Ok v, pder) => Some (Ok v, pder)
  end.

(** The typed getters declare a zeroed variable, let [getValue] fill it,
    drop the error and return the variable. *)
Definition SessionStore_GetBool (st : SessionStore) (now : Time) (key : string)
  (pder : Provider) : option (bool * Provider) :=
  match getValue pder now (sid st) key TBool with
  | None => None
  | Some (Ok (VBool v), pder) => Some (v, pder)
  | Some (_, pder) => Some (false, pder)
  end.

Definition SessionStore_GetString (st : SessionStore) (now : Time) (key : string)
  (pder : Provider) : option (string * Provider) :=
  match getValue pder now (sid st) key TString with
  | None => None
  | Some (Ok (VString v), pder) => Some (v, pder)
  | Some (_, pder) => Some (""%string, pder)
  end.

Definition SessionStore_GetInt (st : SessionStore) (now : Time) (key : string)
  (pder : Provider) : option (Z * Provider) :=
  match getValue pder now (sid st) key TInt64 with
  | None => None
  | Some (Ok (VInt64 v), pder) => Some (v, pder)
  | Some (_, pder) => Some (0, pder)
  end.

Definition SessionStore_GetFloat (st : SessionStore) (now : Time) (key : string)
  (pder : Provider) : option (float * Provider) :=
  match getValue pder now (sid st) key TFloat64 with
  | None => None
  | Some (Ok (VFloat64 v), pder) => Some (v, pder)
  | Some (_, pder) => Some (0%float, pder)
  end.

Definition SessionStore_Delete (st : SessionStore) (now : Time) (key : string)
  (pder : Provider) : option (option error * Provider) :=
  match client_Del pder (getPrefixedKey pder (sid st) key) with
  | None => None
  | Some (_, pder) =>
      match sessionAccessed pder now (sid st) with
      | None => None
      | Some (_, pder) => Some (None, pder)
      end
  end.

Definition SessionStore_SessionID (st : SessionStore) : string := sid st.

(** *** The provider *)

Definition Provider_SessionInit (pder : Provider) (sid : string)
  : result SessionStore * Provider :=
  match client pder with
  | None => (Err (EMsg "Provider not initialized"), pder)
  | Some _ =>
      if SESS_ID_LEN <? Z.of_nat (String.length sid)
      then (Err (EMsg "Session key length exceeded max value"), pder)
      else (Ok (mkSessionStore sid), pder)
  end.

Definition Provider_SessionRead (pder : Provider) (sid : string)
  : result SessionStore * Provider :=
  (Ok (mkSessionStore sid), pder).

Definition Provider_SetMaxLifeTime (maxLifeTime : Z) (pder : Provider) : Provider :=
  mkProvider (client pder) (namespace pder) maxLifeTime (maxIdleTime pder).

Definition Provider_GetMaxLifeTime (pder : Provider) : Z := maxLifeTime pder.

Definition Provider_SetMaxIdleTime (maxIdleTime : Z) (pder : Provider) : Provider :=
  mkProvider (client pder) (namespace pder) (maxLifeTime pder) maxIdleTime.

Definition Provider_GetMaxIdleTime (pder : Provider) : Z := maxIdleTime pder.

Definition Provider_GetSessionIDLen (pder : Provider) : Z := SESS_ID_LEN.

(** [InitProvider]: the namespace is stored before the URL is parsed, the
    client before the server is pinged. *)
Definition Provider_InitProvider (provParams : list interface) (pder : Provider)
  : option error * Provider :=
  match provParams with
  | p0 :: p1 :: _ =>
      match p0 with
      | VString conn_url =>
          match p1 with
          | VString ns =>
              let pder := mkProvider (client pder) ns (maxLifeTime pder) (maxIdleTime pder) in
              match redis_ParseURL conn_url with
              | Err err => (Some err, pder)
              | Ok redis_opts =>
                  let c := redis_NewClient redis_opts in
                  let c' := mkClient (kv c) (online c) (cmds c ++ [CmdPing]) in
                  let pder := with_client pder c' in
                  if online c then (None, pder) else (Some (EExternal "redis"), pder)
              end
          | _ =>
              (Some (EMsg "InitProvider redis namespace parameter(1) must be a string"),
               mkProvider (client pder) "" (maxLifeTime pder) (maxIdleTime pder))
          end
      | _ => (Some (EMsg "InitProvider redis connection parameter(0) must be a string"), pder)
      end
  | _ =>
      (Some (EMsg ("InitProvider missing parameters: "
                   +:+ "<redis connection string>, <redis namespace>")),
       pder)
  end.

#[export] Instance redis_Provider : session.Provider Provider SessionStore := {
  session.InitProvider := Provider_InitProvider;
  session.SessionInit := fun _ sid pder => Some (Provider_SessionInit pder sid);
  session.SessionRead := fun _ sid pder => Some (Provider_SessionRead pder sid);
  session.GetSessionIDLen := Provider_GetSessionIDLen;
  session.SetMaxLifeTime := Provider_SetMaxLifeTime;
  session.GetMaxLifeTime := Provider_GetMaxLifeTime;
  session.SetMaxIdleTime := Provider_SetMaxIdleTime;
  session.GetMaxIdleTime := Provider_GetMaxIdleTime;
}.

End Redis.
End redis.

(* ================================================================== *)
(** * The sqlite provider *)
(* ================================================================== *)

Module sqlite.

Definition EKeyNotFound : error := EMsg "key not found".
Definition EValMustBePtr : error := EMsg "value must be of type ptr".
Definition SESS_ID_LEN : Z := 36.
Definition PROVIDER : string := "sqlite3".
Definition LOG_PREF : string := "sqlite provider:".

(** A row of the table [session_vals]. *)
Record Row : Type := mkRow {
  accessed_time : Time;
  create_time : Time;
  val : bytes;
}.

(** The statements that the handle and the session constructors execute. *)
Inductive Stmt : Type :=
| InsertOrIgnore (id : string)
    (* INSERT OR IGNORE INTO session_vals(id) VALUES($1) *)
| UpdateVal (v : bytes) (id : string)
    (* UPDATE session_vals SET val = $1, accessed_time = datetime() WHERE id = $2 *)
| TouchReturning (id : string).
    (* UPDATE session_vals SET accessed_time = datetime() WHERE id = $1 RETURNING ... *)

(** A [*sql.DB] together with the database behind it: the table, whether
    statements succeed, and the statements sent so far (oldest first). *)
Record DB : Type := mkDB {
  rows : gmap string Row;
  usable : bool;
  executed : list Stmt;
}.

(** [sql.Open(driver, dataSourceName)] *)
Class SqlLib : Type := {
  sql_Open : string -> string -> result DB;
}.

(** [type storeValue map[string]interface{}] *)
Abbreviation storeValue := (gmap string interface).

(** [type SessionStore struct] (the mutex is left out). *)
Record SessionStore : Type := mkSessionStore {
  sid : string;
  timeAccessed : Time;
  timeCreated : Time;
  value : storeValue;
  valueModified : bool;
}.

(** [type Provider struct]; [dbConn] is nil until [InitProvider]. *)
Record Provider : Type := mkProvider {
  dbConn : option DB;
  encrkey : string;
  maxLifeTime : Z;
  maxIdleTime : Z;
}.

(** What a statement does to the table; [now] is the database clock. *)
Definition apply_Stmt (now : Time) (q : Stmt) (t : gmap string Row) : gmap string Row :=
  match q with
  | InsertOrIgnore id =>
      match t !! id with
      | Some _ => t
      | None => <[id := mkRow now now []]> t
      end
  | UpdateVal v id =>
      match t !! id with
      | Some r => <[id := mkRow now (create_time r) v]> t
      | None => t
      end
  | TouchReturning id =>
      match t !! id with
      | Some r => <[id := mkRow now (create_time r) (val r)]> t
      | None => t
      end
  end.

Definition with_dbConn (pder : Provider) (db : DB) : Provider :=
  mkProvider (Some db) (encrkey pder) (maxLifeTime pder) (maxIdleTime pder).

(** A statement sent over an open connection. *)
Definition db_Exec (db : DB) (now : Time) (q : Stmt) : option error * DB :=
  let log := executed db ++ [q] in
  if usable db then (None, mkDB (apply_Stmt now q (rows db)) true log)
  else (Some (EExternal "sqlite3"), mkDB (rows db) false log).

(** [pder.dbConn.ExecContext(ctx, q, args...)]; the outer [option] is
    [None] when [dbConn] is nil (a panic). *)
Definition ExecContext (pder : Provider) (now : Time) (q : Stmt)
  : option (option error * Provider) :=
  match dbConn pder with
  | None => None
  | Some db =>
      let '(err, db') := db_Exec db now q in
      Some (err, with_dbConn pder db')
  end.

Section Sqlite.
Context `{Gob} `{SqlLib}.

(** [getForDb] *)
Definition getForDb (strucVal : storeValue) : result bytes :=
  match gob_EncodeMap strucVal with
  | Err err => Err err
  | Ok b => Ok b
  end.

(** [setFromDb]: the map is left as it is when the column is empty. *)
Definition setFromDb (strucVal : storeValue) (dbVal : bytes) : result storeValue :=
  if (length dbVal =? 0)%nat then Ok strucVal
  else match gob_DecodeMap dbVal with
       | Err err => Err err
       | Ok m => Ok m
       end.

(** *** The session handle *)

(** [st.value[key]]: a missing key reads as the nil interface. *)
Definition index (m : storeValue) (key : string) : interface :=
  match m !! key with
  | Some v => v
  | None => VNil
  end.

(** [Set]: nothing is done when the value under the key is deeply equal to
    the new one. *)
Definition SessionStore_Set (st : SessionStore) (now : Time) (key : string)
  (val : interface) : option error * SessionStore :=
  if negb (DeepEqual (index (value st) key) val)
  then (None, mkSessionStore (sid st) now (timeCreated st)
                (<[key := val]> (value st)) true)
  else (None, st).

(** [Flush]: the database is written only when [valueModified] is set. *)
Definition SessionStore_Flush (st : SessionStore) (now : Time) (pder : Provider)
  : option (option error * SessionStore * Provider) :=
  if valueModified st then
    match getForDb (value st) with
    | Err err => Some (Some err, st, pder)
    | Ok v =>
        match ExecContext pder now (UpdateVal v (sid st)) with
        | None => None
        | Some (Some err, pder) => Some (Some err, st, pder)
        | Some (None, pder) =>
            Some (None,
                  mkSessionStore (sid st) (timeAccessed st) (timeCreated st)
                    (value st) false,
                  pder)
        end
    end
  else Some (None, st, pder).

Definition SessionStore_Put (st : SessionStore) (now : Time) (key : string)
  (val : interface) (pder : Provider)
  : option (option error * SessionStore * Provider) :=
  match SessionStore_Set st now key val with
  | (Some err, st) => Some (Some err, st, pder)
  | (None, st) => SessionStore_Flush st now pder
  end.

Definition touch (st : SessionStore) (now : Time) : SessionStore :=
  mkSessionStore (sid st) now (timeCreated st) (value st) (valueModified st).

Definition SessionStore_GetBool (st : SessionStore) (now : Time) (key : string)
  : bool * SessionStore :=
  match value st !! key with
  | None => (false, st)
  | Some v =>
      let st := touch st now in
      match v with
      | VBool v_bool => (v_bool, st)
      | _ => (false, st)
      end
  end.

(** [string(v_str)] on a byte slice. *)
Definition string_of_bytes (b : option bytes) : string :=
  match b with
  | Some l => string_of_list_byte l
  | None => ""
  end.

Definition SessionStore_GetString (st : SessionStore) (now : Time) (key : string)
  : string * SessionStore :=
  match value st !! key with
  | None => (""%string, st)
  | Some v =>
      let st := touch st now in
      match v with
      | VString v_str => (v_str, st)
      | VBytes v_str => (string_of_bytes v_str, st)
      | _ => (""%string, st)
      end
  end.

Definition SessionStore_GetInt (st : SessionStore) (now : Time) (key : string)
  : Z * SessionStore :=
  match value st !! key with
  | None => (0, st)
  | Some v =>
      let st := touch st now in
      match v with
      | VInt64 v_i => (v_i, st)
      | VInt v_i => (v_i, st)
      | _ => (0, st)
      end
  end.

(** A [float32] is held as the double it denotes, so [float64(v_f)] keeps it. *)
Definition SessionStore_GetFloat (st : SessionStore) (now : Time) (key : string)
  : float * SessionStore :=
  match value st !! key with
  | None => (0%float, st)
  | Some v =>
      let st := touch st now in
      match v with
      | VFloat64 v_f => (v_f, st)
      | VFloat32 v_f => (v_f, st)
      | _ => (0%float, st)
      end
  end.

(** [Delete]: the key is taken out of the map and the access time is
    updated; [valueModified] is not touched. *)
Definition SessionStore_Delete (st : SessionStore) (now : Time) (key : string)
  : option error * SessionStore :=
  match value st !! key with
  | None => (None, st)
  | Some _ =>
      (None, mkSessionStore (sid st) now (timeCreated st)
               (delete key (value st)) (valueModified st))
  end.

Definition SessionStore_SessionID (st : SessionStore) : string := sid st.
Definition SessionStore_TimeCreated (st : SessionStore) : Time := timeCreated st.
Definition SessionStore_TimeAccessed (st : SessionStore) : Time := timeAccessed st.

(** *** The provider *)

Definition NewSessionStore (now : Time) (sid : string) : SessionStore :=
  mkSessionStore sid now now ∅ false.

Definition Provider_SessionInit (pder : Provider) (now : Time) (sid : string)
  : result SessionStore * Provider :=
  match dbConn pder with
  | None => (Err (EMsg "Provider not initialized"), pder)
  | Some db =>
      if SESS_ID_LEN <? Z.of_nat (String.length sid)
      then (Err (EMsg "Session key length exceeded max value"), pder)
      else match db_Exec db now (InsertOrIgnore sid) with
           | (Some err, db) => (Err err, with_dbConn pder db)
           | (None, db) => (Ok (NewSessionStore now sid), with_dbConn pder db)
           end
  end.

(** [SessionRead]: a session that has no row is initialised afresh. *)
Definition Provider_SessionRead (pder : Provider) (now : Time) (sid : string)
  : option (result SessionStore * Provider) :=
  let store := NewSessionStore now sid in
  match dbConn pder with
  | None => None
  | Some db =>
      let found := rows db !! sid in
      match db_Exec db now (TouchReturning sid) with
      | (Some err, db) => Some (Err err, with_dbConn pder db)
      | (None, db) =>
          let pder := with_dbConn pder db in
          match found with
          | None => Some (Provider_SessionInit pder now sid)
          | Some r =>
              match setFromDb (value store) (val r) with
              | Err err => Some (Err err, pder)
              | Ok m =>
                  Some (Ok (mkSessionStore sid now (create_time r) m false), pder)
              end
          end
      end
  end.

Definition Provider_SetMaxLifeTime (maxLifeTime : Z) (pder : Provider) : Provider :=
  mkProvider (dbConn pder) (encrkey pder) maxLifeTime (maxIdleTime pder).

Definition Provider_GetMaxLifeTime (pder : Provider) : Z := maxLifeTime pder.

Definition Provider_SetMaxIdleTime (maxIdleTime : Z) (pder : Provider) : Provider :=
  mkProvider (dbConn pder) (encrkey pder) (maxLifeTime pder) maxIdleTime.

Definition Provider_GetMaxIdleTime (pder : Provider) : Z := maxIdleTime pder.

Definition Provider_GetSessionIDLen (pder : Provider) : Z := SESS_ID_LEN.

Definition Provider_InitProvider (provParams : list interface) (pder : Provider)
  : option error * Provider :=
  match provParams with
  | [] => (Some (EMsg "InitProvider missing parameters: path to a database file"), pder)
  | p0 :: _ =>
      match p0 with
      | VString dbFileName =>
          match sql_Open PROVIDER dbFileName with
          | Err err => (Some (EExternal "sql.Open failed"), pder)
          | Ok conn =>
              (None, mkProvider (Some conn) (encrkey pder) (maxLifeTime pder)
                       (maxIdleTime pder))
          end
      | _ => (Some (EMsg "InitProvider path to a database file must be a string"), pder)
      end
  end.

#[export] Instance sqlite_Provider : session.Provider Provider SessionStore := {
  session.InitProvider := Provider_InitProvider;
  session.SessionInit := fun now sid pder => Some (Provider_SessionInit pder now sid);
  session.SessionRead := fun now sid pder => Provider_SessionRead pder now sid;
  session.GetSessionIDLen := Provider_GetSessionIDLen;
  session.SetMaxLifeTime := Provider_SetMaxLifeTime;
  session.GetMaxLifeTime := Provider_GetMaxLifeTime;
  session.SetMaxIdleTime := Provider_SetMaxIdleTime;
  session.GetMaxIdleTime := Provider_GetMaxIdleTime;
}.

End Sqlite.
End sqlite.

(* ================================================================== *)
(** * session.go, redis.go and the sqlite provider: further functions *)
(* ================================================================== *)

Module session_rest.

(** The two methods of the [Provider] interface through which the manager
    ends a session. *)
Class ProviderEnd (P : Type) : Type := {
  SessionClose : string -> P -> option error * P;
  SessionDestroy : string -> P -> option error * P;
}.

Section Manager.
Context {P : Type} `{!ProviderEnd P}.

Definition provider_SessionClose (name sid : string) : session.M P (option error) :=
  session.bind (session.get_provider name) (fun p =>
  session.bind (session.emit (session.ECall name (session.CallSessionClose sid)))
    (fun _ =>
  let '(err, p') := SessionClose sid p in
  session.bind (session.put_provider name p') (fun _ => session.ret err))).

Definition provider_SessionDestroy (name sid : string) : session.M P (option error) :=
  session.bind (session.get_provider name) (fun p =>
  session.bind (session.emit (session.ECall name (session.CallSessionDestroy sid)))
    (fun _ =>
  let '(err, p') := SessionDestroy sid p in
  session.bind (session.put_provider name p') (fun _ => session.ret err))).

(** [SessionClose]: an empty id is not passed on. *)
Definition Manager_SessionClose (manager : session.Manager) (sid : string)
  : session.M P (option error) :=
  if negb (String.eqb sid "")
  then provider_SessionClose (session.provider manager) sid
  else session.ret None.

(** [SessionDestroy]: an empty id is not passed on. *)
Definition Manager_SessionDestroy (manager : session.Manager) (sid : string)
  : session.M P (option error) :=
  if String.eqb sid "" then session.ret None
  else provider_SessionDestroy (session.provider manager) sid.

End Manager.
End session_rest.

Module redis_rest.
Section Redis.
Context `{Gob}.

(** [GetDate] *)
Definition SessionStore_GetDate (st : redis.SessionStore) (now : Time) (key : string)
  (pder : redis.Provider) : option (Time * redis.Provider) :=
  match redis.getValue pder now (redis.sid st) key TTime with
  | None => None
  | Some (Ok (VTime v), pder) => Some (v, pder)
  | Some (_, pder) => Some (zero_Time, pder)
  end.

Definition SessionStore_TimeCreated (st : redis.SessionStore) (now : Time)
  (pder : redis.Provider) : option (Time * redis.Provider) :=
  SessionStore_GetDate st now "time_created" pder.

Definition SessionStore_TimeAccessed (st : redis.SessionStore) (now : Time)
  (pder : redis.Provider) : option (Time * redis.Provider) :=
  SessionStore_GetDate st now "time_accessed" pder.

(** [SessionClose] is a stub. *)
Definition Provider_SessionClose (pder : redis.Provider) (sid : string)
  : option error * redis.Provider :=
  (None, pder).

End Redis.
End redis_rest.

Module sqlite_rest.

#[global] Instance gotype_eq_dec : EqDecision gotype.
Proof. solve_decision. Defined.

(** The second argument of [Get], an [interface{}]: a value of type [t]
    that is not a pointer ([TNil] for the nil interface), a pointer to a
    variable of one of the session's value types, a pointer to an
    [interface{}] variable, or a nil pointer of one of these two kinds of
    pointer type. *)
Inductive target : Type :=
| TargetValue (t : gotype)
| TargetPtr (elem : gotype)
| TargetPtrAny
| TargetNilPtr (elem : gotype)
| TargetNilPtrAny.

(** [reflect.TypeOf(store_val).AssignableTo(val_elem)] *)
Definition AssignableTo (t : gotype) (val : target) : bool :=
  match val with
  | TargetPtr elem | TargetNilPtr elem => bool_decide (t = elem)
  | TargetPtrAny | TargetNilPtrAny => true
  | TargetValue _ => false
  end.

(** [Get]: the value is read from memory and the handle is left alone.
    [reflect.TypeOf] of a nil interface is nil, and a method call on it
    panics ([None]): [Kind] when [val] is nil, [AssignableTo] when the
    stored value is.  [reflect.ValueOf(val).Elem()] of a nil pointer is the
    zero [Value], and [Set] on it panics. *)
Definition SessionStore_Get (st : sqlite.SessionStore) (key : string) (val : target)
  : option (result interface) :=
  match sqlite.value st !! key with
  | None => Some (Err sqlite.EKeyNotFound)
  | Some store_val =>
      match val with
      | TargetValue TNil => None
      | TargetValue _ => Some (Err sqlite.EValMustBePtr)
      | _ =>
          match store_val with
          | VNil => None
          | _ =>
              if AssignableTo (TypeOf store_val) val then
                match val with
                | TargetNilPtr _ | TargetNilPtrAny => None
                | _ => Some (Ok store_val)
                end
              else Some (Err (EMsg "value type mismatch"))
          end
      end
  end.

(** [GetDate] *)
Definition SessionStore_GetDate (st : sqlite.SessionStore) (now : Time) (key : string)
  : Time * sqlite.SessionStore :=
  match sqlite.value st !! key with
  | None => (zero_Time, st)
  | Some v =>
      let st := sqlite.touch st now in
      match v with
      | VTime v_t => (v_t, st)
      | _ => (zero_Time, st)
      end
  end.

Definition Provider_SessionClose (pder : sqlite.Provider) (sid : string)
  : option error * sqlite.Provider :=
  (None, pder).

End sqlite_rest.

(* ================================================================== *)
(** * Vocabulary of the statements *)
(* ================================================================== *)

Definition is_lower_hex (c : ascii) : bool :=
  let n := nat_of_ascii c in
  ((48 <=? n)%nat && (n <=? 57)%nat) || ((97 <=? n)%nat && (n <=? 102)%nat).

(** Every character of [s] is one of [0-9a-f]. *)
Fixpoint all_lower_hex (s : string) : bool :=
  match s with
  | EmptyString => true
  | String c rest => is_lower_hex c && all_lower_hex rest
  end.

(** [s] is five groups of lower-case hexadecimal digits, of the given
    lengths, joined by hyphens. *)
Definition hyphenated_hex (s : string) (n1 n2 n3 n4 n5 : nat) : Prop :=
  exists g1 g2 g3 g4 g5 : string,
    s = g1 +:+ "-" +:+ g2 +:+ "-" +:+ g3 +:+ "-" +:+ g4 +:+ "-" +:+ g5 /\
    String.length g1 = n1 /\ String.length g2 = n2 /\ String.length g3 = n3 /\
    String.length g4 = n4 /\ String.length g5 = n5 /\
    all_lower_hex g1 = true /\ all_lower_hex g2 = true /\ all_lower_hex g3 = true /\
    all_lower_hex g4 = true /\ all_lower_hex g5 = true.

(** The error with which [SessionInit] refuses an id. *)
Definition id_length_error : error := EMsg "Session key length exceeded max value".

(** [e] is an invocation of [InitProvider] on some provider. *)
Definition is_InitProvider_call (e : session.event) : Prop :=
  exists name provParams, e = session.ECall name (session.CallInitProvider provParams).

(** [e] writes to a log sink. *)
Definition is_write (e : session.event) : Prop :=
  exists w line, e = session.EWrite w line.

(** The line that [WriteToLog] builds: component name, timestamp, level name
    and message, separated by tabs and ended by a newline. *)
Definition log_line `{GoLib} (now : Time) (level msg : string) : string :=
  "SessionManager" +:+ TAB +:+ time_Format now session.RFC3339 +:+ TAB +:+ level
    +:+ TAB +:+ msg +:+ NL.

(** The goroutines that a call of [StartGC] starts. *)
Definition started_by (kill : Time) (life_time idle_time : Z)
  (ctx : session.ctx_id) (l : option session.Writer) (logLev : session.LogLevel)
  : list session.Goroutine :=
  (if bool_decide (kill <> zero_Time) then [session.KillLoop ctx l logLev] else []) ++
  (if (life_time =? 0) && (idle_time =? 0) then []
   else [session.GCLoop ctx (session.gc_sleep_sec life_time idle_time) l logLev]).

(** What a call of [StartGC] writes to the log. *)
Definition written_by `{GoLib} (now : Time) (life_time idle_time : Z)
  (l : option session.Writer) (logLev : session.LogLevel) : list session.event :=
  if (life_time =? 0) && (idle_time =? 0) then []
  else match l with
       | Some wr =>
           if session.LOG_LEVEL_WARN <=? logLev
           then [session.EWrite wr
                   (log_line now "DEBUG"
                      ("running garbage collector every "
                       +:+ fmt_d (session.gc_sleep_sec life_time idle_time)
                       +:+ " seconds"))]
           else []
       | None => []
       end.

(** The intervals (in seconds) of the idle/lifetime loops among [gs]. *)
Definition gc_intervals (gs : list session.Goroutine) : list Z :=
  flat_map (fun g => match g with
                     | session.GCLoop _ sleep_sec _ _ => [sleep_sec]
                     | session.KillLoop _ _ _ => []
                     end) gs.

(** How often [SessionGC] is invoked in a trace. *)
Fixpoint count_SessionGC (tr : list session.event) : nat :=
  match tr with
  | [] => 0
  | session.ECall _ (session.CallSessionGC _ _) :: rest => S (count_SessionGC rest)
  | _ :: rest => count_SessionGC rest
  end.

(** Contexts are handed out in order: none that is yet to be made has
    been cancelled. *)
Definition contexts_fresh {P : Type} (w : session.World P) : Prop :=
  forall c : session.ctx_id, c ∈ session.cancelled w -> (c < session.next_ctx w)%nat.

(** The claim that a second [StartGC] stops the loops that the first one
    started. *)
Definition restart_stops_earlier_loops `{GoLib} {P Sess : Type}
  `{!session.Provider P Sess} : Prop :=
  forall (w w1 w2 : session.World P) (m m1 m2 : session.Manager) (now : Time)
         (l : option session.Writer) (logLev : session.LogLevel) (g : session.Goroutine),
    contexts_fresh w ->
    session.StartGC m now l logLev w = Some (m1, w1) ->
    session.StartGC m1 now l logLev w1 = Some (m2, w2) ->
    g ∈ session.goroutines w1 ->
    g ∉ session.goroutines w ->
    session.goroutine_ctx g ∈ session.cancelled w2.

Ltac unfold_M :=
  unfold session.Manager_SessionGC, session.Manager_DestroyAllSessions in *;
  unfold session.provider_SetMaxLifeTime, session.provider_SetMaxIdleTime,
    session.provider_GetMaxLifeTime, session.provider_GetMaxIdleTime,
    session.provider_InitProvider, session.provider_SessionInit,
    session.provider_SessionRead, session.provider_SessionGC,
    session.provider_DestroyAllSessions,
    session.go, session.WithCancel, session.cancel,
    session.bind, session.ret, session.emit, session.panic,
    session.get_provider, session.put_provider in *;
  cbn [session.provides session.trace session.next_ctx session.cancelled
       session.goroutines session.provider session.SessionsKillTime
       session.gcCancel fst snd] in *.

(** The handle [st'] is of the session of [st]: same id, same creation
    time. *)
Definition same_session (st st' : sqlite.SessionStore) : Prop :=
  sqlite.sid st' = sqlite.sid st /\ sqlite.timeCreated st' = sqlite.timeCreated st.

(** The handle [st'] holds what [st] holds, and is dirty when [st] is. *)
Definition same_content (st st' : sqlite.SessionStore) : Prop :=
  sqlite.value st' = sqlite.value st /\
  sqlite.valueModified st' = sqlite.valueModified st.

(** The values on which [reflect.DeepEqual] is identity: no float (a zero
    equals the zero of the other sign), no struct, not the nil interface. *)
Definition plain_value (v : interface) : bool :=
  match v with
  | VBool _ | VString _ | VBytes _ | VInt _ | VInt32 _ | VInt64 _ | VTime _ => true
  | _ => false
  end.

(** The value of a lower-case hexadecimal digit. *)
Definition hex_value (c : ascii) : N :=
  let n := N_of_ascii c in
  if (n <? 58)%N then (n - 48)%N else (n - 87)%N.

(** The byte that two hexadecimal digits spell. *)
Definition byte_of_hex (high low : ascii) : option Byte.byte :=
  Byte.of_N (hex_value high * 16 + hex_value low).

(** No character of [s] is a colon. *)
Fixpoint colon_free (s : string) : bool :=
  match s with
  | EmptyString => true
  | String c rest => negb (Ascii.eqb c ":") && colon_free rest
  end.

(* ================================================================== *)
(** * A concrete environment *)
(* ================================================================== *)

(** Implementations of the library interfaces on which the statements
    below are run on concrete inputs. *)
Module fixture.

Definition digit (c : ascii) : option Z :=
  let n := Z.of_nat (nat_of_ascii c) in
  if (48 <=? n) && (n <=? 57) then Some (n - 48) else None.

Definition two_digits (a b : ascii) : option Z :=
  match digit a, digit b with
  | Some x, Some y => Some (10 * x + y)
  | _, _ => None
  end.

Definition is_colon (c : ascii) : bool := (nat_of_ascii c =? 58)%nat.

(** The clock time [h:m:s] on the first day of year 0, the date that
    [time.Parse] gives to a layout without a date. *)
Definition clock_time (h m s : option Z) : result Time :=
  match h, m, s with
  | Some h, Some m, Some s =>
      if (h <? 24) && (m <? 60) && (s <? 60)
      then Ok (mkTime (h * 3600 + m * 60 + s - 366 * 86400) 0)
      else Err (EExternal "time: out of range")
  | _, _, _ => Err (EExternal "time: cannot parse")
  end.

(** [time.Parse] for the two layouts of session.go. *)
Definition Parse (layout val : string) : result Time :=
  match list_ascii_of_string val with
  | [h1; h2; c1; m1; m2] =>
      if String.eqb layout "15:04" && is_colon c1
      then clock_time (two_digits h1 h2) (two_digits m1 m2) (Some 0)
      else Err (EExternal "time: cannot parse")
  | [h1; h2; c1; m1; m2; c2; s1; s2] =>
      if String.eqb layout "15:04:05" && is_colon c1 && is_colon c2
      then clock_time (two_digits h1 h2) (two_digits m1 m2) (two_digits s1 s2)
      else Err (EExternal "time: cannot parse")
  | _ => Err (EExternal "time: cannot parse")
  end.

Definition pad2 (n : Z) : string :=
  if n <? 10 then "0" +:+ pretty n else pretty n.

Definition pad4 (n : Z) : string :=
  if n <? 10 then "000" +:+ pretty n
  else if n <? 100 then "00" +:+ pretty n
  else if n <? 1000 then "0" +:+ pretty n
  else pretty n.

(** Year, month and day of the [days]-th day after 0001-01-01. *)
Definition civil (days : Z) : Z * Z * Z :=
  let z := days + 306 in
  let era := z / 146097 in
  let doe := z - era * 146097 in
  let yoe := (doe - doe / 1460 + doe / 36524 - doe / 146096) / 365 in
  let doy := doe - (365 * yoe + yoe / 4 - yoe / 100) in
  let mp := (5 * doy + 2) / 153 in
  let d := doy - (153 * mp + 2) / 5 + 1 in
  let m := if mp <? 10 then mp + 3 else mp - 9 in
  let y := yoe + era * 400 + (if m <=? 2 then 1 else 0) in
  (y, m, d).

(** [t.Format(time.RFC3339)] for an instant in UTC. *)
Definition Format (t : Time) (layout : string) : string :=
  let '(y, m, d) := civil (sec t / 86400) in
  pad4 y +:+ "-" +:+ pad2 m +:+ "-" +:+ pad2 d +:+ "T" +:+ pad2 (Time_Hour t) +:+ ":"
    +:+ pad2 (Time_Minute t) +:+ ":" +:+ pad2 (Time_Second t) +:+ "Z".

Definition byte_of_Z (z : Z) : Byte.byte :=
  match Byte.of_N (Z.to_N (z mod 256)) with
  | Some b => b
  | None => Byte.x00
  end.

(** A linear congruential stream of bytes. *)
Fixpoint stream (seed : Z) (n : nat) : bytes :=
  match n with
  | O => []
  | S n' =>
      let next := (seed * 6364136223846793005 + 1442695040888963407) mod 2 ^ 64 in
      byte_of_Z (next / 2 ^ 56) :: stream next n'
  end.

Fixpoint stream_length (seed : Z) (n : nat) : length (stream seed n) = n :=
  match n with
  | O => eq_refl
  | S n' => f_equal S (stream_length _ n')
  end.

#[local] Instance lib : GoLib := {
  time_Parse := Parse;
  time_Format := Format;
  rand_Read := fun seed n => (stream seed n, None);
  rand_Read_length := stream_length;
  rand_Read_error := fun _ _ => eq_refl;
}.

(** A codec that knows booleans and times. *)
#[local] Instance gob : Gob := {
  gob_Encode := fun v =>
    match v with
    | VBool b => Ok [Byte.x03; if b then Byte.x01 else Byte.x00]
    | VTime t => Ok [Byte.x0a; byte_of_Z (sec t)]
    | _ => Err (EExternal "gob: type not registered")
    end;
  gob_Decode := fun b t =>
    match b, t with
    | [tag; x], TBool =>
        if bool_decide (tag = Byte.x03) then Ok (VBool (negb (bool_decide (x = Byte.x00))))
        else Err (EExternal "gob: type mismatch")
    | _, _ => Err (EExternal "gob: type mismatch")
    end;
  gob_EncodeMap := fun m => Ok (replicate (size m) Byte.x01 ++ [Byte.x00]);
  gob_DecodeMap := fun _ => Err (EExternal "gob: cannot decode");
}.

#[local] Instance redis_lib : redis.RedisLib := {
  redis.redis_ParseURL := fun url => Ok url;
  redis.redis_NewClient := fun _ => redis.mkClient ∅ true [];
}.

#[local] Instance sql_lib : sqlite.SqlLib := {
  sqlite.sql_Open := fun _ _ => Ok (sqlite.mkDB ∅ true []);
}.

(** 2024-03-05 12:30:45 UTC, as seconds since 0001-01-01. *)
Definition noon : Time := mkTime 63845238645 0.

(** An initialised redis provider over an empty server. *)
Definition redis_pder (maxLifeTime maxIdleTime : Z) : redis.Provider :=
  redis.mkProvider (Some (redis.mkClient ∅ true [])) "sess" maxLifeTime maxIdleTime.

(** A sqlite session that holds one flushed value. *)
Definition sqlite_store : sqlite.SessionStore :=
  sqlite.mkSessionStore "s1" noon noon {[ "k"%string := VInt64 1 ]} false.

(** A redis session handle. *)
Definition redis_store : redis.SessionStore := redis.mkSessionStore "s1".

(** One minute after [noon]. *)
Definition later : Time := mkTime 63845238705 0.

(** An initialised sqlite provider over an empty table. *)
Definition sqlite_pder (maxLifeTime maxIdleTime : Z) : sqlite.Provider :=
  sqlite.mkProvider (Some (sqlite.mkDB ∅ true [])) "" maxLifeTime maxIdleTime.

Definition redis_Provider : session.Provider redis.Provider redis.SessionStore :=
  redis.redis_Provider.

Definition sqlite_Provider : session.Provider sqlite.Provider sqlite.SessionStore :=
  sqlite.sqlite_Provider.

(** A process in which one provider is registered and nothing has happened. *)
Definition world {P : Type} (name : string) (pder : P) : session.World P :=
  session.mkWorld {[ name := pder ]} [] 0%nat ∅ [].

(** A manager of the redis provider with the kill time 12:31:00. *)
Definition manager : session.Manager :=
  session.mkManager "redis" (mkTime (12 * 3600 + 31 * 60 - 366 * 86400) 0) None.

(** The seconds of an instant as eight bytes, most significant first. *)
Definition bytes_of_sec (z : Z) : bytes :=
  (fun i => byte_of_Z (z / 2 ^ (8 * i))) <$> [7; 6; 5; 4; 3; 2; 1; 0].

Definition sec_of_bytes (b : bytes) : Z :=
  fold_left (fun acc x => acc * 256 + Z.of_N (Byte.to_N x)) b 0.

(** A codec that reads back what it wrote: booleans, instants on a full
    second, and maps that hold at most a flag under the key [k]. *)
Definition flag_gob : Gob := {|
  gob_Encode := fun v =>
    match v with
    | VBool b => Ok [Byte.x03; if b then Byte.x01 else Byte.x00]
    | VTime t => Ok (Byte.x0a :: bytes_of_sec (sec t))
    | _ => Err (EExternal "gob: type not registered")
    end;
  gob_Decode := fun b t =>
    match b, t with
    | [tag; x], TBool =>
        if bool_decide (tag = Byte.x03) then Ok (VBool (negb (bool_decide (x = Byte.x00))))
        else Err (EExternal "gob: type mismatch")
    | tag :: rest, TTime =>
        if bool_decide (tag = Byte.x0a) then Ok (VTime (mkTime (sec_of_bytes rest) 0))
        else Err (EExternal "gob: type mismatch")
    | _, _ => Err (EExternal "gob: type mismatch")
    end;
  gob_EncodeMap := fun m =>
    match m !! "k"%string with
    | Some (VBool b) => Ok [Byte.x01; if b then Byte.x01 else Byte.x00]
    | _ => Ok [Byte.x00]
    end;
  gob_DecodeMap := fun b =>
    match b with
    | [tag; x] =>
        if bool_decide (tag = Byte.x01)
        then Ok {[ "k"%string := VBool (negb (bool_decide (x = Byte.x00))) ]}
        else Err (EExternal "gob: cannot decode")
    | [_] => Ok ∅
    | _ => Err (EExternal "gob: cannot decode")
    end;
|}.

(** The row of a session created at [noon] that holds the flag. *)
Definition flag_row : sqlite.Row :=
  sqlite.mkRow noon noon [Byte.x01; Byte.x01].

(** An initialised sqlite provider whose table holds the session [s1]. *)
Definition sqlite_pder_s1 (val : bytes) : sqlite.Provider :=
  sqlite.mkProvider
    (Some (sqlite.mkDB {[ "s1"%string := sqlite.mkRow noon noon val ]} true []))
    "" 0 0.

(** A provider that only counts its sessions. *)
Definition counter_end : session_rest.ProviderEnd nat := {|
  session_rest.SessionClose := fun _ n => (None, n);
  session_rest.SessionDestroy := fun _ n => (None, Nat.pred n);
|}.

(** A manager of the sqlite provider without a kill time. *)
Definition sqlite_manager : session.Manager :=
  session.mkManager "sqlite3" zero_Time None.

End fixture.

(* ================================================================== *)
(** * Theorems *)
(* ================================================================== *)

(** ** Strings and hexadecimal digits *)

Lemma string_length_app (a b : string) :
  String.length (a +:+ b) = (String.length a + String.length b)%nat.
Proof. induction a as [|c a IH]; simpl; [done | by rewrite IH]. Qed.

Lemma all_lower_hex_app (a b : string) :
  all_lower_hex a = true -> all_lower_hex b = true -> all_lower_hex (a +:+ b) = true.
Proof.
  intros Ha Hb. induction a as [|c a IH]; simpl in *; [done |].
  apply andb_true_iff in Ha as [Hc Ha]. rewrite Hc. simpl. by apply IH.
Qed.

Lemma ldigit_high_hex (c : Byte.byte) :
  is_lower_hex (ldigit (N.shiftr (Byte.to_N c) 4)) = true.
Proof. destruct c; reflexivity. Qed.

Lemma ldigit_low_hex (c : Byte.byte) :
  is_lower_hex (ldigit (N.land (Byte.to_N c) 15)) = true.
Proof. destruct c; reflexivity. Qed.

Lemma fmt_x_length (b : bytes) : String.length (fmt_x b) = (2 * length b)%nat.
Proof. induction b as [|c b IH]; simpl; [done | rewrite IH; lia]. Qed.

Lemma fmt_x_hex (b : bytes) : all_lower_hex (fmt_x b) = true.
Proof.
  induction b as [|c b IH]; simpl; [done |].
  by rewrite ldigit_high_hex, ldigit_low_hex, IH.
Qed.

Lemma slice_length {A} (b : list A) (lo hi : nat) :
  (lo <= hi)%nat -> (hi <= length b)%nat -> length (slice b lo hi) = (hi - lo)%nat.
Proof. intros Hlo Hhi. unfold slice. rewrite length_take, length_drop. lia. Qed.

Lemma slice_from_length {A} (b : list A) (lo : nat) :
  length (slice_from b lo) = (length b - lo)%nat.
Proof. unfold slice_from. by rewrite length_drop. Qed.

(** The layout of an id made from 16 bytes. *)
Lemma Sprintf_id_layout (b : bytes) :
  length b = 16%nat ->
  hyphenated_hex (session.Sprintf_id b) 8 4 4 4 12 /\
  String.length (session.Sprintf_id b) = 36%nat.
Proof.
  intros Hb.
  assert (H1 : String.length (fmt_x (slice b 0 4)) = 8%nat)
    by (rewrite fmt_x_length, slice_length; lia).
  assert (H2 : String.length (fmt_x (slice b 4 6)) = 4%nat)
    by (rewrite fmt_x_length, slice_length; lia).
  assert (H3 : String.length (fmt_x (slice b 6 8)) = 4%nat)
    by (rewrite fmt_x_length, slice_length; lia).
  assert (H4 : String.length (fmt_x (slice b 8 10)) = 4%nat)
    by (rewrite fmt_x_length, slice_length; lia).
  assert (H5 : String.length (fmt_x (slice_from b 10)) = 12%nat)
    by (rewrite fmt_x_length, slice_from_length; lia).
  split.
  - exists (fmt_x (slice b 0 4)), (fmt_x (slice b 4 6)), (fmt_x (slice b 6 8)),
      (fmt_x (slice b 8 10)), (fmt_x (slice_from b 10)).
    repeat split; auto using fmt_x_hex.
  - unfold session.Sprintf_id. rewrite !string_length_app, H1, H2, H3, H4, H5.
    reflexivity.
Qed.

Lemma genSessionID_Sprintf `{GoLib} (now : Time) :
  session.genSessionID now = session.Sprintf_id (rand_Read (Time_UnixNano now) 16).1.
Proof.
  unfold session.genSessionID.
  pose proof (rand_Read_error (Time_UnixNano now) 16) as He.
  destruct (rand_Read (Time_UnixNano now) 16) as [b err]. simpl in *. by subst err.
Qed.

(** C9.  An id is made from the 16 bytes that the random source delivers:
    whatever these bytes are, the id is 36 characters long and consists of
    five groups of 8, 4, 4, 4 and 12 lower-case hexadecimal digits joined by
    four hyphens. *)
Theorem genSessionID_layout `{GoLib} :
  (forall b : bytes, length b = 16%nat ->
     hyphenated_hex (session.Sprintf_id b) 8 4 4 4 12 /\
     String.length (session.Sprintf_id b) = 36%nat) /\
  (forall now : Time,
     length (rand_Read (Time_UnixNano now) 16).1 = 16%nat /\
     session.genSessionID now = session.Sprintf_id (rand_Read (Time_UnixNano now) 16).1 /\
     hyphenated_hex (session.genSessionID now) 8 4 4 4 12 /\
     String.length (session.genSessionID now) = 36%nat).
Proof.
  split; [apply Sprintf_id_layout |].
  intros now. pose proof (rand_Read_length (Time_UnixNano now) 16) as Hlen.
  rewrite genSessionID_Sprintf.
  destruct (Sprintf_id_layout _ Hlen) as [Hh Hl]. auto.
Qed.

Lemma genSessionID_layout_witness :
  String.length (session.Sprintf_id (fixture.stream 7 16)) = 36%nat /\
  session.genSessionID (H := fixture.lib) fixture.noon
    = "53a91efd-745d-6de0-0e50-01cdd60925f0"%string.
Proof.
  split.
  - apply (proj1 (@genSessionID_layout fixture.lib) (fixture.stream 7 16)).
    reflexivity.
  - vm_compute. reflexivity.
Defined.

(** ** The manager *)

Lemma parseTime_unknown_layout `{GoLib} (timeStr : string) :
  String.length timeStr <> 5%nat -> String.length timeStr <> 8%nat ->
  session.parseTime timeStr = Err (EMsg "parseTime: unknown layout").
Proof.
  intros H5 H8. unfold session.parseTime.
  change (String.length session.TIME_SEC_LAYOUT) with 8%nat.
  change (String.length session.TIME_MIN_LAYOUT) with 5%nat.
  destruct (Nat.eqb_spec (String.length timeStr) 8); [done |].
  destruct (Nat.eqb_spec (String.length timeStr) 5); done.
Qed.

Lemma eqb_empty_false (s : string) : s <> ""%string -> String.eqb s "" = false.
Proof. intros Hs. by apply String.eqb_neq. Qed.

(** C6.  A kill time that is not empty and whose length is neither 5
    ("HH:MM") nor 8 ("HH:MM:SS") makes [NewManager] return an error, and
    [InitProvider] is not among the provider calls made on the way: the only
    calls are the two setters when the provider is registered, none when it
    is not. *)
Theorem NewManager_bad_killTime `{GoLib} {P Sess : Type} `{!session.Provider P Sess}
  (w : session.World P) (providerName : string) (maxLifeTime maxIdleTime : Z)
  (sessionsKillTime : string) (provParams : list interface) :
  sessionsKillTime <> ""%string ->
  String.length sessionsKillTime <> 5%nat ->
  String.length sessionsKillTime <> 8%nat ->
  exists (e : error) (w' : session.World P) (evs : list session.event),
    session.NewManager providerName maxLifeTime maxIdleTime sessionsKillTime provParams w
      = Some (Err e, w') /\
    session.trace w' = session.trace w ++ evs /\
    Forall (fun ev => ~ is_InitProvider_call ev) evs /\
    (evs = [] \/
     evs = [session.ECall providerName (session.CallSetMaxLifeTime maxLifeTime);
            session.ECall providerName (session.CallSetMaxIdleTime maxIdleTime)]).
Proof.
  intros Hne H5 H8. unfold session.NewManager.
  destruct (session.provides w !! providerName) as [p|] eqn:Hp.
  - unfold_M. rewrite Hp. cbn. rewrite lookup_insert_eq. cbn.
    rewrite (eqb_empty_false _ Hne). unfold session.SetSessionsKillTime.
    rewrite (parseTime_unknown_layout _ H5 H8). cbn.
    eexists _, _, _. split; [reflexivity |]. cbn. rewrite <- app_assoc. cbn.
    split; [reflexivity |]. split; [| by right].
    repeat constructor; intros (name & ps & Heq); discriminate.
  - unfold_M. eexists _, _, []. split; [reflexivity |].
    rewrite app_nil_r. split; [reflexivity |]. split; [constructor | by left].
Qed.

Lemma NewManager_bad_killTime_witness :
  exists e w',
    session.NewManager (H := fixture.lib) (Provider0 := fixture.redis_Provider)
      "redis" 0 0 "3 o'clock" [VString "redis://localhost:6379/0"; VString "sess"]
      (fixture.world "redis" (redis.mkProvider None "" 0 0))
    = Some (Err e, w').
Proof.
  destruct (@NewManager_bad_killTime fixture.lib _ _ fixture.redis_Provider
              (fixture.world "redis" (redis.mkProvider None "" 0 0))
              "redis" 0 0 "3 o'clock"
              [VString "redis://localhost:6379/0"; VString "sess"])
    as (e & w' & evs & Hrun & _); [done | cbn; lia | cbn; lia |].
  exists e, w'. exact Hrun.
Defined.

Lemma genSessionID_length `{GoLib} (now : Time) :
  String.length (session.genSessionID now) = 36%nat.
Proof.
  rewrite genSessionID_Sprintf.
  apply Sprintf_id_layout, rand_Read_length.
Qed.

Lemma redis_SessionInit_id_length (pder : redis.Provider) (c : redis.Client) (sid : string) :
  redis.client pder = Some c ->
  (redis.Provider_SessionInit pder sid).1 = Err id_length_error <->
  redis.SESS_ID_LEN < Z.of_nat (String.length sid).
Proof.
  intros Hc. unfold redis.Provider_SessionInit. rewrite Hc.
  destruct (Z.ltb_spec redis.SESS_ID_LEN (Z.of_nat (String.length sid))); cbn;
    split; intros; try done; lia.
Qed.

Lemma sqlite_SessionInit_id_length (pder : sqlite.Provider) (db : sqlite.DB)
  (now : Time) (sid : string) :
  sqlite.dbConn pder = Some db ->
  (sqlite.Provider_SessionInit pder now sid).1 = Err id_length_error <->
  sqlite.SESS_ID_LEN < Z.of_nat (String.length sid).
Proof.
  intros Hc. unfold sqlite.Provider_SessionInit. rewrite Hc.
  destruct (Z.ltb_spec sqlite.SESS_ID_LEN (Z.of_nat (String.length sid))); cbn.
  - split; intros; [lia | done].
  - unfold sqlite.db_Exec. destruct (sqlite.usable db); cbn;
      split; intros; try done; lia.
Qed.

(** C10.  Every generated id is 36 characters long, [SESS_ID_LEN] is 36 in
    both providers, [SessionInit] of an initialised provider returns the
    id-length error exactly for ids longer than that, and so [SessionStart]
    with an empty id never returns the id-length error: on redis it
    succeeds, on sqlite it returns what the INSERT returns. *)
Theorem SessionStart_empty_id `{GoLib} `{Gob} `{redis.RedisLib} `{sqlite.SqlLib} :
  (forall now : Time, String.length (session.genSessionID now) = 36%nat) /\
  redis.SESS_ID_LEN = 36 /\ sqlite.SESS_ID_LEN = 36 /\
  (forall pder c sid, redis.client pder = Some c ->
     (redis.Provider_SessionInit pder sid).1 = Err id_length_error <->
     redis.SESS_ID_LEN < Z.of_nat (String.length sid)) /\
  (forall pder db now sid, sqlite.dbConn pder = Some db ->
     (sqlite.Provider_SessionInit pder now sid).1 = Err id_length_error <->
     sqlite.SESS_ID_LEN < Z.of_nat (String.length sid)) /\
  (forall (w : session.World redis.Provider) (manager : session.Manager)
          (now : Time) pder c,
     session.provides w !! session.provider manager = Some pder ->
     redis.client pder = Some c ->
     exists st w',
       session.SessionStart (Provider0 := redis.redis_Provider) manager now "" w
         = Some (Ok st, w') /\
       redis.sid st = session.genSessionID now) /\
  (forall (w : session.World sqlite.Provider) (manager : session.Manager)
          (now : Time) pder db,
     session.provides w !! session.provider manager = Some pder ->
     sqlite.dbConn pder = Some db ->
     exists r w',
       session.SessionStart (Provider0 := sqlite.sqlite_Provider) manager now "" w
         = Some (r, w') /\
       r <> Err id_length_error).
Proof.
  split; [apply genSessionID_length |].
  split; [reflexivity |]. split; [reflexivity |].
  split; [apply redis_SessionInit_id_length |].
  split; [apply sqlite_SessionInit_id_length |].
  split.
  - intros w manager now pder c Hp Hc.
    unfold session.SessionStart. cbn [String.eqb]. unfold_M. rewrite Hp. cbn.
    unfold redis.Provider_SessionInit. rewrite Hc, genSessionID_length. cbn.
    eexists _, _. split; reflexivity.
  - intros w manager now pder db Hp Hc.
    unfold session.SessionStart. cbn [String.eqb]. unfold_M. rewrite Hp. cbn.
    unfold sqlite.Provider_SessionInit. rewrite Hc, genSessionID_length. cbn.
    unfold sqlite.db_Exec. destruct (sqlite.usable db); cbn;
      eexists _, _; (split; [reflexivity | discriminate]).
Qed.

Lemma SessionStart_empty_id_witness :
  exists st w',
    session.SessionStart (H := fixture.lib) (Provider0 := fixture.redis_Provider)
      fixture.manager fixture.noon "" (fixture.world "redis" (fixture.redis_pder 0 0))
    = Some (Ok st, w') /\
    redis.sid st = "53a91efd-745d-6de0-0e50-01cdd60925f0"%string.
Proof.
  pose proof (@SessionStart_empty_id fixture.lib fixture.gob fixture.redis_lib
                fixture.sql_lib) as (_ & _ & _ & _ & _ & Hredis & _).
  destruct (Hredis (fixture.world "redis" (fixture.redis_pder 0 0)) fixture.manager
              fixture.noon (fixture.redis_pder 0 0) (redis.mkClient ∅ true []))
    as (st & w' & Hrun & Hsid); [reflexivity | reflexivity |].
  exists st, w'. split; [exact Hrun |]. rewrite Hsid. vm_compute. reflexivity.
Defined.

(** ** The GC scheduler *)

Lemma StartGC_run `{GoLib} {P Sess : Type} `{!session.Provider P Sess}
  (w : session.World P) (manager : session.Manager) (now : Time)
  (l : option session.Writer) (logLev : session.LogLevel) (p : P) :
  session.provides w !! session.provider manager = Some p ->
  session.StartGC manager now l logLev w =
    Some (session.mkManager (session.provider manager)
            (session.SessionsKillTime manager) (Some (session.next_ctx w)),
          session.mkWorld (session.provides w)
            (session.trace w ++
               [session.ECall (session.provider manager) session.CallGetMaxLifeTime;
                session.ECall (session.provider manager) session.CallGetMaxIdleTime] ++
               written_by now (session.GetMaxLifeTime p) (session.GetMaxIdleTime p) l logLev)
            (S (session.next_ctx w)) (session.cancelled w)
            (session.goroutines w ++
               started_by (session.SessionsKillTime manager) (session.GetMaxLifeTime p)
                 (session.GetMaxIdleTime p) (session.next_ctx w) l logLev)).
Proof.
  intros Hp.
  unfold session.StartGC, started_by, written_by, session.log_if,
    session.WriteToLog, log_line.
  change (session.LogLevel_String session.LOG_LEVEL_DEBUG) with (Some "DEBUG"%string).
  unfold_M.
  destruct (bool_decide (session.SessionsKillTime manager <> zero_Time)); cbn;
    rewrite Hp; cbn; rewrite Hp; cbn;
    destruct ((session.GetMaxLifeTime p =? 0) && (session.GetMaxIdleTime p =? 0)); cbn;
    [| destruct l as [wr|]; cbn; [destruct (session.LOG_LEVEL_WARN <=? logLev); cbn |]
     | | destruct l as [wr|]; cbn; [destruct (session.LOG_LEVEL_WARN <=? logLev); cbn |] ];
    rewrite <- ?app_assoc, ?app_nil_r; cbn; reflexivity.
Qed.

Lemma gc_sleep_sec_cases (life_time idle_time : Z) :
  (idle_time <> 0 -> life_time = 0 ->
   session.gc_sleep_sec life_time idle_time = idle_time) /\
  (life_time <> 0 -> idle_time = 0 ->
   session.gc_sleep_sec life_time idle_time = life_time) /\
  (life_time <> 0 -> idle_time <> 0 ->
   session.gc_sleep_sec life_time idle_time = Z.min idle_time life_time).
Proof.
  unfold session.gc_sleep_sec.
  destruct (Z.ltb_spec 0 idle_time), (Z.eqb_spec life_time 0),
    (Z.ltb_spec 0 life_time), (Z.eqb_spec idle_time 0),
    (Z.ltb_spec idle_time life_time); cbn; repeat split; intros; lia.
Qed.

Lemma wrap64_small (z : Z) : - 2 ^ 63 <= z < 2 ^ 63 -> wrap64 z = z.
Proof. intros Hz. unfold wrap64. rewrite Z.mod_small; lia. Qed.

(** Within 292 years the product [time.Duration(n) * time.Second] does not
    leave the [int64] range. *)
Lemma seconds_to_Duration_exact (n : Z) :
  -9223372036 <= n <= 9223372036 -> seconds_to_Duration n = n * 1000000000.
Proof. intros Hn. unfold seconds_to_Duration, time_Second. apply wrap64_small. lia. Qed.

Lemma wrap64_range (z : Z) : - 2 ^ 63 <= wrap64 z < 2 ^ 63.
Proof.
  unfold wrap64. pose proof (Z.mod_pos_bound (z + 2 ^ 63) (2 ^ 64) ltac:(lia)). lia.
Qed.

(** Beyond 292 years the product is not the number of seconds it was made
    from. *)
Lemma seconds_to_Duration_wrapped (n : Z) :
  seconds_to_Duration n = n * 1000000000 -> -9223372036 <= n <= 9223372036.
Proof.
  intros Heq. pose proof (wrap64_range (n * time_Second)) as Hr.
  unfold seconds_to_Duration in Heq. rewrite Heq in Hr. unfold time_Second in Hr. lia.
Qed.

Lemma gc_intervals_started (kill : Time) (life_time idle_time : Z)
  (ctx : session.ctx_id) (l : option session.Writer) (logLev : session.LogLevel) :
  gc_intervals (started_by kill life_time idle_time ctx l logLev) =
  if (life_time =? 0) && (idle_time =? 0) then []
  else [session.gc_sleep_sec life_time idle_time].
Proof.
  unfold started_by, gc_intervals.
  destruct (bool_decide (kill <> zero_Time)),
    ((life_time =? 0) && (idle_time =? 0)); reflexivity.
Qed.

(** One firing of the idle/lifetime loop: the timer is armed with the
    loop's interval, the log line is written when asked for, [SessionGC]
    is invoked and the loop goes round again. *)
Lemma gc_loop_iter_fired `{GoLib} {P : Type} (manager : session.Manager)
  (ctx : session.ctx_id) (sleep_sec : Z) (l : option session.Writer)
  (logLev : session.LogLevel) (fired : Time) (w : session.World P) (p : P) :
  session.provides w !! session.provider manager = Some p ->
  exists (log : list session.event) (w' : session.World P),
    session.gc_loop_iter manager ctx sleep_sec l logLev (session.TimerFired fired) w
      = Some (true, w') /\
    session.trace w' =
      session.trace w ++ [session.EAfter ctx (seconds_to_Duration sleep_sec)] ++ log ++
        [session.ECall (session.provider manager) (session.CallSessionGC l logLev)] /\
    Forall is_write log /\
    session.provides w' = session.provides w /\
    session.cancelled w' = session.cancelled w.
Proof.
  intros Hp. unfold session.gc_loop_iter, session.log_if, session.WriteToLog.
  change (session.LogLevel_String session.LOG_LEVEL_DEBUG) with (Some "DEBUG"%string).
  unfold_M.
  destruct l as [wr|]; [destruct (session.LOG_LEVEL_DEBUG <=? logLev) |]; cbn;
    rewrite Hp; cbn.
  - eexists [_], _. split; [reflexivity |]. cbn. rewrite <- !app_assoc. cbn.
    repeat split; auto. repeat constructor. by eexists _, _.
  - eexists [], _. split; [reflexivity |]. cbn. rewrite <- !app_assoc. cbn.
    repeat split; auto.
  - eexists [], _. split; [reflexivity |]. cbn. rewrite <- !app_assoc. cbn.
    repeat split; auto.
Qed.

Lemma count_SessionGC_app (a b : list session.event) :
  count_SessionGC (a ++ b) = (count_SessionGC a + count_SessionGC b)%nat.
Proof.
  induction a as [|e a IH]; [done |].
  destruct e as [| name c | |]; cbn; try exact IH.
  destruct c; cbn; rewrite IH; reflexivity.
Qed.

Lemma count_SessionGC_writes (log : list session.event) :
  Forall is_write log -> count_SessionGC log = 0%nat.
Proof.
  induction 1 as [|e log (wr & line & ->) _ IH]; [done | exact IH].
Qed.

(** The loop run through any number of firings invokes [SessionGC] once
    per firing and is still running. *)
Lemma gc_loop_run_fired `{GoLib} {P : Type} (manager : session.Manager)
  (ctx : session.ctx_id) (sleep_sec : Z) (l : option session.Writer)
  (logLev : session.LogLevel) (inputs : list (Time * session.select_result)) :
  Forall (fun i => i.2 <> session.CtxDone) inputs ->
  forall (w : session.World P) (p : P),
    session.provides w !! session.provider manager = Some p ->
    exists w' : session.World P,
      session.run_loop manager (session.GCLoop ctx sleep_sec l logLev) inputs w
        = Some (true, w') /\
      count_SessionGC (session.trace w') =
        (count_SessionGC (session.trace w) + length inputs)%nat.
Proof.
  induction 1 as [|[now sel] inputs Hsel _ IH]; intros w p Hp.
  - exists w. split; [reflexivity | cbn; lia].
  - destruct sel as [|fired]; [done |].
    destruct (gc_loop_iter_fired manager ctx sleep_sec l logLev fired w p Hp)
      as (log & w1 & Hrun & Htr & Hlog & Hprov & _).
    assert (Hp1 : session.provides w1 !! session.provider manager = Some p)
      by (by rewrite Hprov).
    destruct (IH w1 p Hp1) as (w' & Hrest & Hcount).
    exists w'. split.
    + cbn [session.run_loop session.loop_iter]. unfold session.bind at 1.
      rewrite Hrun. exact Hrest.
    + rewrite Hcount, Htr, !count_SessionGC_app, (count_SessionGC_writes log Hlog).
      cbn. lia.
Qed.

(** C1, as the code has it.  [StartGC] reads the two policies of the
    provider.  If both are zero no idle/lifetime loop is started; if exactly
    one is nonzero the loop that is started is given that value as its
    number of seconds; if both are nonzero it is given the smaller of the
    two.  On every round the loop arms its timer with
    [time.Duration(sleep_sec) * time.Second], an [int64] product, and every
    time the timer fires it invokes [SessionGC] and goes round again.  The
    product is the interval of [sleep_sec] seconds exactly when [sleep_sec]
    lies between -9223372036 and 9223372036; for every other value it has
    wrapped around. *)
Theorem StartGC_gc_loop `{GoLib} {P Sess : Type} `{!session.Provider P Sess}
  (w : session.World P) (manager : session.Manager) (now : Time)
  (l : option session.Writer) (logLev : session.LogLevel) (p : P) :
  session.provides w !! session.provider manager = Some p ->
  exists (manager' : session.Manager) (w' : session.World P)
         (started : list session.Goroutine),
    session.StartGC manager now l logLev w = Some (manager', w') /\
    session.goroutines w' = session.goroutines w ++ started /\
    session.provider manager' = session.provider manager /\
    (session.GetMaxLifeTime p = 0 -> session.GetMaxIdleTime p = 0 ->
     gc_intervals started = []) /\
    (session.GetMaxIdleTime p <> 0 -> session.GetMaxLifeTime p = 0 ->
     gc_intervals started = [session.GetMaxIdleTime p]) /\
    (session.GetMaxLifeTime p <> 0 -> session.GetMaxIdleTime p = 0 ->
     gc_intervals started = [session.GetMaxLifeTime p]) /\
    (session.GetMaxLifeTime p <> 0 -> session.GetMaxIdleTime p <> 0 ->
     gc_intervals started =
       [Z.min (session.GetMaxIdleTime p) (session.GetMaxLifeTime p)]) /\
    (forall ctx sleep_sec l' logLev',
       session.GCLoop ctx sleep_sec l' logLev' ∈ started ->
       (forall (fired : Time) (w1 : session.World P) (p1 : P),
          session.provides w1 !! session.provider manager' = Some p1 ->
          exists (log : list session.event) (w2 : session.World P),
            session.loop_iter manager' (session.GCLoop ctx sleep_sec l' logLev') fired
              (session.TimerFired fired) w1 = Some (true, w2) /\
            session.trace w2 =
              session.trace w1 ++ [session.EAfter ctx (seconds_to_Duration sleep_sec)]
                ++ log ++
                [session.ECall (session.provider manager')
                   (session.CallSessionGC l' logLev')] /\
            Forall is_write log) /\
       (forall (inputs : list (Time * session.select_result))
               (w1 : session.World P) (p1 : P),
          Forall (fun i => i.2 <> session.CtxDone) inputs ->
          session.provides w1 !! session.provider manager' = Some p1 ->
          exists w2 : session.World P,
            session.run_loop manager' (session.GCLoop ctx sleep_sec l' logLev') inputs w1
              = Some (true, w2) /\
            count_SessionGC (session.trace w2) =
              (count_SessionGC (session.trace w1) + length inputs)%nat) /\
       (seconds_to_Duration sleep_sec = sleep_sec * 1000000000 <->
        -9223372036 <= sleep_sec <= 9223372036)).
Proof.
  intros Hp. rewrite (StartGC_run w manager now l logLev p Hp).
  eexists _, _, _. split; [reflexivity |]. cbn.
  split; [reflexivity |]. split; [reflexivity |].
  rewrite gc_intervals_started.
  destruct (gc_sleep_sec_cases (session.GetMaxLifeTime p) (session.GetMaxIdleTime p))
    as (Hidle & Hlife & Hboth).
  split; [intros -> ->; reflexivity |].
  split; [intros Hi Hl; rewrite (Hidle Hi Hl), Hl;
          destruct (Z.eqb_spec (session.GetMaxIdleTime p) 0); [done | reflexivity] |].
  split; [intros Hl Hi; rewrite (Hlife Hl Hi);
          destruct (Z.eqb_spec (session.GetMaxLifeTime p) 0); [done | reflexivity] |].
  split; [intros Hl Hi; rewrite (Hboth Hl Hi);
          destruct (Z.eqb_spec (session.GetMaxLifeTime p) 0); [done | reflexivity] |].
  intros ctx sleep_sec l' logLev' _. split; [| split].
  - intros fired w1 p1 Hp1. cbn [session.loop_iter].
    destruct (gc_loop_iter_fired
                (session.mkManager (session.provider manager)
                   (session.SessionsKillTime manager) (Some (session.next_ctx w)))
                ctx sleep_sec l' logLev' fired w1 p1 Hp1)
      as (log & w2 & Hrun & Htr & Hlog & _).
    exists log, w2. auto.
  - intros inputs w1 p1 Hin Hp1.
    eapply gc_loop_run_fired; [exact Hin | exact Hp1].
  - split; [apply seconds_to_Duration_wrapped | apply seconds_to_Duration_exact].
Qed.

Lemma StartGC_gc_loop_witness :
  exists manager' w',
    session.StartGC (H := fixture.lib) (Provider0 := fixture.redis_Provider)
      fixture.manager fixture.noon (Some 0%nat) session.LOG_LEVEL_DEBUG
      (fixture.world "redis" (fixture.redis_pder 600 60)) = Some (manager', w') /\
    gc_intervals (session.goroutines w') = [60].
Proof.
  destruct (@StartGC_gc_loop fixture.lib _ _ fixture.redis_Provider
              (fixture.world "redis" (fixture.redis_pder 600 60)) fixture.manager
              fixture.noon (Some 0%nat) session.LOG_LEVEL_DEBUG
              (fixture.redis_pder 600 60))
    as (manager' & w' & started & Hrun & Hgs & _ & _ & _ & _ & Hboth & _);
    [reflexivity |].
  exists manager', w'. split; [exact Hrun |].
  rewrite Hgs. cbn [fixture.world session.goroutines app].
  apply Hboth; cbn; lia.
Defined.

(** C1 as it is stated fails for the policies of more than 9223372036
    seconds.  With [maxIdleTime] = 10000000000 and [maxLifeTime] = 0 the
    loop is given 10000000000 as its number of seconds, and the timer of
    its round is armed with the wrapped product, a negative duration, not
    with an interval of 10000000000 seconds. *)
Lemma gc_interval_wraps :
  exists (manager' : session.Manager) (w' w2 : session.World redis.Provider),
    session.StartGC (H := fixture.lib) (Provider0 := fixture.redis_Provider)
      (session.mkManager "redis" zero_Time None) fixture.noon None
      session.LOG_LEVEL_ERROR (fixture.world "redis" (fixture.redis_pder 0 10000000000))
      = Some (manager', w') /\
    session.goroutines w' =
      [session.GCLoop 0%nat 10000000000 None session.LOG_LEVEL_ERROR] /\
    session.loop_iter (H := fixture.lib) manager'
      (session.GCLoop 0%nat 10000000000 None session.LOG_LEVEL_ERROR) fixture.later
      (session.TimerFired fixture.later) w' = Some (true, w2) /\
    session.trace w2 =
      session.trace w' ++
        [session.EAfter 0%nat (-8446744073709551616);
         session.ECall "redis" (session.CallSessionGC None session.LOG_LEVEL_ERROR)] /\
    -8446744073709551616 <> 10000000000 * 1000000000.
Proof.
  eexists _, _, _. split; [vm_compute; reflexivity |].
  split; [reflexivity |]. split; [vm_compute; reflexivity |].
  split; [reflexivity | lia].
Qed.

(** ** The daily kill-time loop *)

(** Hour, minute and second put together again give the second of the day. *)
Lemma seconds_of_day_mod (t : Time) :
  session.seconds_of_day t = sec t mod 86400 /\ 0 <= session.seconds_of_day t < 86400.
Proof.
  unfold session.seconds_of_day, Time_Hour, Time_Minute, Time_Second,
    secondsPerDay, secondsPerHour, secondsPerMinute.
  change (24 * (60 * 60)) with 86400. change (60 * 60) with 3600.
  Z.div_mod_to_equations. lia.
Qed.

Lemma kill_sleep_sec_mod (manager : session.Manager) (now : Time) :
  session.kill_sleep_sec manager now =
    (session.seconds_of_day (session.SessionsKillTime manager)
     - session.seconds_of_day now) mod 86400 /\
  0 <= session.kill_sleep_sec manager now < 86400.
Proof.
  unfold session.kill_sleep_sec.
  change (session.seconds_of_day (Time_Truncate_Second now))
    with (session.seconds_of_day now).
  destruct (seconds_of_day_mod (session.SessionsKillTime manager)) as [_ Hk].
  destruct (seconds_of_day_mod now) as [_ Hn].
  set (k := session.seconds_of_day (session.SessionsKillTime manager)) in *.
  set (n := session.seconds_of_day now) in *.
  destruct (Z.ltb_spec (k - n) 0).
  - split; [| lia]. apply (Z.mod_unique _ _ (-1)); lia.
  - split; [| lia]. symmetry. apply Z.mod_small. lia.
Qed.

(** One firing of the kill-time loop. *)
Lemma kill_loop_iter_fired `{GoLib} {P : Type} (manager : session.Manager)
  (ctx : session.ctx_id) (l : option session.Writer) (logLev : session.LogLevel)
  (now fired : Time) (w : session.World P) (p : P) :
  session.provides w !! session.provider manager = Some p ->
  exists (log1 log2 : list session.event) (w' : session.World P),
    session.kill_loop_iter manager ctx l logLev now (session.TimerFired fired) w
      = Some (true, w') /\
    session.trace w' =
      session.trace w ++ log1 ++
        [session.EAfter ctx
           (seconds_to_Duration (session.kill_sleep_sec manager now))] ++ log2 ++
        [session.ECall (session.provider manager)
           (session.CallDestroyAllSessions l logLev);
         session.ESleep 1000000000] /\
    Forall is_write log1 /\ Forall is_write log2 /\
    session.provides w' = session.provides w.
Proof.
  intros Hp. unfold session.kill_loop_iter, session.log_if, session.WriteToLog.
  change (session.LogLevel_String session.LOG_LEVEL_DEBUG) with (Some "DEBUG"%string).
  change (session.LogLevel_String session.LOG_LEVEL_WARN) with (Some "WARN"%string).
  change (seconds_to_Duration 1) with 1000000000.
  unfold_M.
  destruct l as [wr|];
    [destruct (session.LOG_LEVEL_WARN <=? logLev),
       (session.LOG_LEVEL_DEBUG <=? logLev) |]; cbn; rewrite Hp; cbn.
  - eexists [_], [_], _. split; [reflexivity |]. cbn. rewrite <- !app_assoc. cbn.
    repeat split; auto; repeat constructor; by eexists _, _.
  - eexists [_], [], _. split; [reflexivity |]. cbn. rewrite <- !app_assoc. cbn.
    repeat split; auto; repeat constructor; by eexists _, _.
  - eexists [], [_], _. split; [reflexivity |]. cbn. rewrite <- !app_assoc. cbn.
    repeat split; auto; repeat constructor; by eexists _, _.
  - eexists [], [], _. split; [reflexivity |]. cbn. rewrite <- !app_assoc. cbn.
    repeat split; auto.
  - eexists [], [], _. split; [reflexivity |]. cbn. rewrite <- !app_assoc. cbn.
    repeat split; auto.
Qed.

(** C2.  An iteration of the kill-time loop that starts at the clock
    reading [now] sleeps for the kill time's second of the day minus that of
    [now], modulo 86400: a number of seconds in [0, 86400), zero when the
    two coincide, which the timer gets without wrap-around.  When the timer
    fires the loop invokes [DestroyAllSessions], sleeps one second and goes
    round again, computing the sleep time afresh from the next clock
    reading. *)
Theorem kill_loop_schedule `{GoLib} {P : Type} (manager : session.Manager)
  (ctx : session.ctx_id) (l : option session.Writer) (logLev : session.LogLevel)
  (now fired : Time) (w : session.World P) (p : P) :
  session.provides w !! session.provider manager = Some p ->
  let kill_sec := session.seconds_of_day (session.SessionsKillTime manager) in
  let now_sec := session.seconds_of_day now in
  let sleep_sec := session.kill_sleep_sec manager now in
  kill_sec = sec (session.SessionsKillTime manager) mod 86400 /\
  now_sec = sec now mod 86400 /\
  sleep_sec = (kill_sec - now_sec) mod 86400 /\
  0 <= sleep_sec < 86400 /\
  (kill_sec = now_sec -> sleep_sec = 0) /\
  seconds_to_Duration sleep_sec = sleep_sec * 1000000000 /\
  exists (log1 log2 : list session.event) (w' : session.World P),
    session.loop_iter manager (session.KillLoop ctx l logLev) now
      (session.TimerFired fired) w = Some (true, w') /\
    session.trace w' =
      session.trace w ++ log1 ++ [session.EAfter ctx (seconds_to_Duration sleep_sec)]
        ++ log2 ++
        [session.ECall (session.provider manager)
           (session.CallDestroyAllSessions l logLev);
         session.ESleep 1000000000] /\
    Forall is_write log1 /\ Forall is_write log2 /\
    (forall (now' fired' : Time),
       exists w'' : session.World P,
         session.run_loop manager (session.KillLoop ctx l logLev)
           [(now, session.TimerFired fired); (now', session.TimerFired fired')] w
           = Some (true, w'') /\
         session.EAfter ctx
           (seconds_to_Duration (session.kill_sleep_sec manager now'))
           ∈ session.trace w'').
Proof.
  intros Hp kill_sec now_sec sleep_sec.
  destruct (kill_sleep_sec_mod manager now) as [Hmod Hrange].
  split; [apply seconds_of_day_mod |]. split; [apply seconds_of_day_mod |].
  split; [exact Hmod |]. split; [exact Hrange |].
  split; [intros Heq; subst sleep_sec; rewrite Hmod; fold kill_sec now_sec;
          rewrite Heq, Z.sub_diag; reflexivity |].
  split; [apply seconds_to_Duration_exact; subst sleep_sec; lia |].
  destruct (kill_loop_iter_fired manager ctx l logLev now fired w p Hp)
    as (log1 & log2 & w' & Hrun & Htr & Hl1 & Hl2 & Hprov).
  exists log1, log2, w'. repeat split; auto.
  intros now' fired'.
  assert (Hp' : session.provides w' !! session.provider manager = Some p)
    by (by rewrite Hprov).
  destruct (kill_loop_iter_fired manager ctx l logLev now' fired' w' p Hp')
    as (log1' & log2' & w'' & Hrun' & Htr' & _).
  exists w''. split.
  - cbn [session.run_loop session.loop_iter]. unfold session.bind at 1.
    rewrite Hrun. unfold session.bind at 1. rewrite Hrun'. reflexivity.
  - rewrite Htr'. rewrite !elem_of_app. right. right. left. apply list_elem_of_singleton.
    reflexivity.
Qed.

Lemma kill_loop_schedule_witness :
  session.kill_sleep_sec fixture.manager fixture.noon = 15 /\
  exists w',
    session.loop_iter (H := fixture.lib) fixture.manager
      (session.KillLoop 0%nat (Some 0%nat) session.LOG_LEVEL_DEBUG) fixture.noon
      (session.TimerFired (mkTime 63845238660 0))
      (fixture.world "redis" (fixture.redis_pder 0 0)) = Some (true, w').
Proof.
  destruct (@kill_loop_schedule fixture.lib _ fixture.manager 0%nat (Some 0%nat)
              session.LOG_LEVEL_DEBUG fixture.noon (mkTime 63845238660 0)
              (fixture.world "redis" (fixture.redis_pder 0 0)) (fixture.redis_pder 0 0))
    as (_ & _ & Hsleep & _ & _ & _ & log1 & log2 & w' & Hrun & _); [reflexivity |].
  split; [rewrite Hsleep; vm_compute; reflexivity |].
  exists w'. exact Hrun.
Defined.

(** ** The log *)

(** The one way in which session.go writes to the log: nothing without a
    sink, nothing when the guard level is above the threshold, otherwise one
    line in the format of [WriteToLog] that carries the name of the stated
    level. *)
Lemma log_if_spec `{GoLib} {P : Type} (now : Time) (l : option session.Writer)
  (logLev level : session.LogLevel) (s : string) (as_level : session.LogLevel)
  (name : string) (w : session.World P) :
  session.LogLevel_String as_level = Some name ->
  session.log_if now l logLev level s as_level w =
    Some (tt, session.mkWorld (session.provides w)
                (session.trace w ++
                   match l with
                   | Some wr => if level <=? logLev
                                then [session.EWrite wr (log_line now name s)]
                                else []
                   | None => []
                   end)
                (session.next_ctx w) (session.cancelled w) (session.goroutines w)).
Proof.
  intros Hname. unfold session.log_if, session.WriteToLog, log_line.
  destruct w as [pv tr nc cs gs].
  destruct l as [wr|]; [destruct (level <=? logLev) |]; rewrite ?Hname; unfold_M;
    rewrite ?app_nil_r; reflexivity.
Qed.

(** The names of the levels that session.go writes. *)
Lemma LogLevel_String_names :
  session.LogLevel_String session.LOG_LEVEL_ERROR = Some "ERROR"%string /\
  session.LogLevel_String session.LOG_LEVEL_WARN = Some "WARN"%string /\
  session.LogLevel_String session.LOG_LEVEL_DEBUG = Some "DEBUG"%string.
Proof. repeat split. Qed.

(** Without a sink [StartGC] and the two loops write nothing. *)
Lemma nil_sink_silent `{GoLib} {P Sess : Type} `{!session.Provider P Sess}
  (w : session.World P) (manager : session.Manager) (now fired : Time)
  (logLev : session.LogLevel) (g : session.Goroutine) (p : P) :
  session.provides w !! session.provider manager = Some p ->
  (match g with
   | session.KillLoop _ l _ => l
   | session.GCLoop _ _ l _ => l
   end) = None ->
  (exists manager' w' evs,
     session.StartGC manager now None logLev w = Some (manager', w') /\
     session.trace w' = session.trace w ++ evs /\
     Forall (fun e => ~ is_write e) evs) /\
  (exists w' evs,
     session.loop_iter manager g now (session.TimerFired fired) w = Some (true, w') /\
     session.trace w' = session.trace w ++ evs /\
     Forall (fun e => ~ is_write e) evs).
Proof.
  intros Hp Hl. split.
  - rewrite (StartGC_run w manager now None logLev p Hp).
    eexists _, _, _. split; [reflexivity |]. split; [reflexivity |].
    unfold written_by.
    destruct ((session.GetMaxLifeTime p =? 0) && (session.GetMaxIdleTime p =? 0));
      cbn; repeat constructor; intros (wr & line & Heq); discriminate.
  - destruct g as [ctx l lv | ctx sleep_sec l lv]; cbn in Hl; subst l;
      cbn [session.loop_iter].
    + unfold session.kill_loop_iter, session.log_if. unfold_M. cbn.
      rewrite Hp. cbn. eexists _, _. split; [reflexivity |]. cbn.
      rewrite <- !app_assoc. split; [reflexivity |].
      repeat constructor; intros (wr & line & Heq); discriminate.
    + unfold session.gc_loop_iter, session.log_if. unfold_M. cbn.
      rewrite Hp. cbn. eexists _, _. split; [reflexivity |]. cbn.
      rewrite <- !app_assoc. split; [reflexivity |].
      repeat constructor; intros (wr & line & Heq); discriminate.
Qed.

(** With a sink and the threshold [LOG_LEVEL_WARN], [StartGC] writes the
    line that it labels [DEBUG] whenever it starts the idle/lifetime loop. *)
Lemma StartGC_DEBUG_line_under_WARN `{GoLib} {P Sess : Type}
  `{!session.Provider P Sess} (w : session.World P) (manager : session.Manager)
  (now : Time) (wr : session.Writer) (p : P) :
  session.provides w !! session.provider manager = Some p ->
  ~ (session.GetMaxLifeTime p = 0 /\ session.GetMaxIdleTime p = 0) ->
  exists manager' w',
    session.StartGC manager now (Some wr) session.LOG_LEVEL_WARN w
      = Some (manager', w') /\
    session.EWrite wr
      (log_line now "DEBUG"
         ("running garbage collector every "
          +:+ fmt_d (session.gc_sleep_sec (session.GetMaxLifeTime p)
                       (session.GetMaxIdleTime p))
          +:+ " seconds")) ∈ session.trace w'.
Proof.
  intros Hp Hnz. rewrite (StartGC_run w manager now (Some wr) _ p Hp).
  eexists _, _. split; [reflexivity |]. cbn. unfold written_by.
  destruct (Z.eqb_spec (session.GetMaxLifeTime p) 0),
    (Z.eqb_spec (session.GetMaxIdleTime p) 0); cbn; try (exfalso; by apply Hnz);
    rewrite !elem_of_app; right; set_solver.
Qed.

(** C7, at the input on which it fails.  [StartGC] is called with a sink
    and the threshold [LOG_LEVEL_WARN] on a provider whose idle time is 3
    seconds: the line about the interval is written with the level name
    [DEBUG], a level above the threshold. *)
Theorem StartGC_writes_DEBUG_at_WARN :
  session.LOG_LEVEL_WARN < session.LOG_LEVEL_DEBUG /\
  exists manager' w',
    session.StartGC (H := fixture.lib) (Provider0 := fixture.redis_Provider)
      fixture.manager fixture.noon (Some 0%nat) session.LOG_LEVEL_WARN
      (fixture.world "redis" (fixture.redis_pder 0 3)) = Some (manager', w') /\
    session.trace w' =
      [session.ECall "redis" session.CallGetMaxLifeTime;
       session.ECall "redis" session.CallGetMaxIdleTime;
       session.EWrite 0%nat
         ("SessionManager" +:+ TAB +:+ "2024-03-05T12:30:45Z" +:+ TAB +:+ "DEBUG" +:+ TAB
            +:+ "running garbage collector every 3 seconds" +:+ NL)].
Proof.
  split; [reflexivity |].
  rewrite (@StartGC_run fixture.lib _ _ fixture.redis_Provider
             (fixture.world "redis" (fixture.redis_pder 0 3)) fixture.manager
             fixture.noon (Some 0%nat) session.LOG_LEVEL_WARN
             (fixture.redis_pder 0 3) eq_refl).
  eexists _, _. split; [reflexivity |]. vm_compute. reflexivity.
Qed.

(** ** Starting and stopping *)

Lemma started_by_ctx (kill : Time) (life_time idle_time : Z)
  (ctx : session.ctx_id) (l : option session.Writer) (logLev : session.LogLevel)
  (g : session.Goroutine) :
  g ∈ started_by kill life_time idle_time ctx l logLev -> session.goroutine_ctx g = ctx.
Proof.
  unfold started_by. intros [Hg | Hg]%elem_of_app.
  - destruct (bool_decide (kill <> zero_Time));
      [apply list_elem_of_singleton in Hg; by subst | by apply not_elem_of_nil in Hg].
  - destruct ((life_time =? 0) && (idle_time =? 0));
      [by apply not_elem_of_nil in Hg | apply list_elem_of_singleton in Hg; by subst].
Qed.

(** C8, as the code has it.  [StartGC] makes a fresh context, starts its
    loops under it and keeps its cancel function; it cancels nothing.
    [StopGC] cancels the context of the latest [StartGC], and with it every
    loop that this call started.  So after a second [StartGC] the loops of
    the first are still not cancelled, their [select] cannot receive from
    [ctx.Done()], and a later [StopGC] stops the loops of the second call
    only. *)
Theorem StartGC_StopGC_contexts `{GoLib} {P Sess : Type} `{!session.Provider P Sess}
  (w : session.World P) (manager : session.Manager) (now1 now2 : Time)
  (l1 l2 : option session.Writer) (logLev1 logLev2 : session.LogLevel) (p : P) :
  session.provides w !! session.provider manager = Some p ->
  contexts_fresh w ->
  exists (m1 : session.Manager) (w1 w1' : session.World P)
         (started1 : list session.Goroutine),
    session.StartGC manager now1 l1 logLev1 w = Some (m1, w1) /\
    session.goroutines w1 = session.goroutines w ++ started1 /\
    session.cancelled w1 = session.cancelled w /\
    (forall g, g ∈ started1 -> session.goroutine_ctx g ∉ session.cancelled w1) /\
    session.StopGC m1 w1 = Some (tt, w1') /\
    (forall g, g ∈ started1 -> session.goroutine_ctx g ∈ session.cancelled w1') /\
    exists (m2 : session.Manager) (w2 w3 : session.World P)
           (started2 : list session.Goroutine),
      session.StartGC m1 now2 l2 logLev2 w1 = Some (m2, w2) /\
      session.goroutines w2 = session.goroutines w1 ++ started2 /\
      session.cancelled w2 = session.cancelled w1 /\
      (forall g, g ∈ started1 ->
         (session.goroutine_ctx g ∉ session.cancelled w2) /\
         ~ session.select_enabled w2 (session.goroutine_ctx g) session.CtxDone) /\
      session.StopGC m2 w2 = Some (tt, w3) /\
      (forall g, g ∈ started2 -> session.goroutine_ctx g ∈ session.cancelled w3) /\
      (forall g, g ∈ started1 -> session.goroutine_ctx g ∉ session.cancelled w3).
Proof.
  intros Hp Hfresh.
  pose proof (StartGC_run w manager now1 l1 logLev1 p Hp) as H1.
  match type of H1 with
  | _ = Some (?m1, ?w1) =>
      pose proof (StartGC_run w1 m1 now2 l2 logLev2 p Hp) as H2
  end.
  cbn [session.provides session.trace session.next_ctx session.cancelled
       session.goroutines session.provider session.SessionsKillTime] in H2.
  assert (Hnew : session.next_ctx w ∉ session.cancelled w)
    by (intros Hin; apply Hfresh in Hin; lia).
  eexists _, _, _, _. split; [exact H1 |].
  cbn [session.goroutines session.cancelled].
  split; [reflexivity |]. split; [reflexivity |].
  split; [intros g Hg; rewrite (started_by_ctx _ _ _ _ _ _ g Hg); exact Hnew |].
  split; [reflexivity |]. cbn [session.cancelled].
  split; [intros g Hg; rewrite (started_by_ctx _ _ _ _ _ _ g Hg);
          apply elem_of_union_l, elem_of_singleton; reflexivity |].
  eexists _, _, _, _. split; [exact H2 |].
  cbn [session.goroutines session.cancelled].
  split; [reflexivity |]. split; [reflexivity |].
  split; [intros g Hg; rewrite (started_by_ctx _ _ _ _ _ _ g Hg); split; exact Hnew |].
  split; [reflexivity |]. cbn [session.cancelled].
  split; [intros g Hg; rewrite (started_by_ctx _ _ _ _ _ _ g Hg);
          apply elem_of_union_l, elem_of_singleton; reflexivity |].
  intros g Hg. rewrite (started_by_ctx _ _ _ _ _ _ g Hg).
  rewrite elem_of_union, elem_of_singleton. intros [Heq | Hin]; [lia | done].
Qed.

Lemma StartGC_StopGC_contexts_witness :
  exists m1 w1,
    session.StartGC (H := fixture.lib) (Provider0 := fixture.redis_Provider)
      fixture.manager fixture.noon None session.LOG_LEVEL_ERROR
      (fixture.world "redis" (fixture.redis_pder 0 3)) = Some (m1, w1) /\
    session.cancelled w1 = ∅.
Proof.
  destruct (@StartGC_StopGC_contexts fixture.lib _ _ fixture.redis_Provider
              (fixture.world "redis" (fixture.redis_pder 0 3)) fixture.manager
              fixture.noon fixture.noon None None session.LOG_LEVEL_ERROR
              session.LOG_LEVEL_ERROR (fixture.redis_pder 0 3))
    as (m1 & w1 & w1' & started1 & Hrun & _ & Hc & _);
    [reflexivity | intros c Hc; by apply not_elem_of_empty in Hc |].
  exists m1, w1. split; [exact Hrun | exact Hc].
Defined.

(** C8 as it is stated fails: after two calls of [StartGC] on a manager
    with a kill time and an idle time, the two loops of the first call run
    under context 0, which nothing has cancelled. *)
Lemma restart_keeps_earlier_loops :
  ~ restart_stops_earlier_loops (H := fixture.lib) (H0 := fixture.redis_Provider).
Proof.
  intros Hclaim.
  pose (w := fixture.world "redis" (fixture.redis_pder 0 3)).
  pose proof (@StartGC_run fixture.lib _ _ fixture.redis_Provider w fixture.manager
                fixture.noon None session.LOG_LEVEL_ERROR (fixture.redis_pder 0 3)
                eq_refl) as H1.
  match type of H1 with
  | _ = Some (?m1, ?w1) =>
      pose proof (@StartGC_run fixture.lib _ _ fixture.redis_Provider w1 m1
                    fixture.noon None session.LOG_LEVEL_ERROR (fixture.redis_pder 0 3)
                    eq_refl) as H2
  end.
  specialize (Hclaim _ _ _ _ _ _ _ _ _
                (session.GCLoop 0%nat 3 None session.LOG_LEVEL_ERROR)
                (fun c Hc => False_ind _ (not_elem_of_empty c Hc)) H1 H2).
  cbn in Hclaim.
  apply (not_elem_of_empty (C := gset session.ctx_id) 0%nat), Hclaim.
  - vm_compute. apply list_elem_of_In. right. left. reflexivity.
  - apply not_elem_of_nil.
Qed.

(** ** The session handles: [Set] *)

Lemma sqlite_Set_changed (st : sqlite.SessionStore) (now : Time) (key : string)
  (val : interface) :
  DeepEqual (sqlite.index (sqlite.value st) key) val = false ->
  sqlite.SessionStore_Set st now key val =
    (None, sqlite.mkSessionStore (sqlite.sid st) now (sqlite.timeCreated st)
             (<[key := val]> (sqlite.value st)) true).
Proof. intros Hd. unfold sqlite.SessionStore_Set. by rewrite Hd. Qed.

Lemma sqlite_Set_unchanged (st : sqlite.SessionStore) (now : Time) (key : string)
  (val : interface) :
  DeepEqual (sqlite.index (sqlite.value st) key) val = true ->
  sqlite.SessionStore_Set st now key val = (None, st).
Proof. intros Hd. unfold sqlite.SessionStore_Set. by rewrite Hd. Qed.

Lemma redis_setValue_sends `{Gob} (pder : redis.Provider) (c : redis.Client)
  (sid key : string) (val : interface) (b : bytes) :
  redis.client pder = Some c ->
  gob_Encode val = Ok b ->
  exists (err : option error) (c' : redis.Client),
    redis.setValue pder sid key val = Some (err, redis.with_client pder c') /\
    redis.cmds c' =
      redis.cmds c ++
        [redis.CmdSet (redis.getPrefixedKey pder sid key) b
           (seconds_to_Duration (redis.maxLifeTime pder))] /\
    (redis.online c = true ->
     err = None /\ redis.kv c' = <[redis.getPrefixedKey pder sid key := b]> (redis.kv c)).
Proof.
  intros Hc Hb. unfold redis.setValue, redis.client_Set. rewrite Hb, Hc.
  destruct (redis.online c); eexists _, _; (split; [reflexivity |]); cbn; split; auto.
  intros; discriminate.
Qed.

(** C3, as the code has it.  On the sqlite handle [Set] works on the handle
    alone (the provider and its database are not among its arguments, and
    [Put] is [Set] followed by [Flush]): when the new value is not deeply
    equal to what the key holds it is stored in the map, the session is
    marked dirty and the access time becomes the clock reading; when it is
    deeply equal the handle is left as it was.  On the redis handle [Set]
    stages nothing: a value that encodes is sent to the server at once, as
    one SET of the prefixed key with the provider's lifetime. *)
Theorem Set_effect `{Gob} :
  (forall (st : sqlite.SessionStore) (now : Time) (key : string) (val : interface),
     DeepEqual (sqlite.index (sqlite.value st) key) val = false ->
     sqlite.SessionStore_Set st now key val =
       (None, sqlite.mkSessionStore (sqlite.sid st) now (sqlite.timeCreated st)
                (<[key := val]> (sqlite.value st)) true)) /\
  (forall (st : sqlite.SessionStore) (now : Time) (key : string) (val : interface),
     DeepEqual (sqlite.index (sqlite.value st) key) val = true ->
     sqlite.SessionStore_Set st now key val = (None, st)) /\
  (forall (st : sqlite.SessionStore) (now : Time) (key : string) (val : interface)
          (pder : sqlite.Provider),
     sqlite.SessionStore_Put st now key val pder =
       sqlite.SessionStore_Flush (sqlite.SessionStore_Set st now key val).2 now pder) /\
  (forall (st : redis.SessionStore) (key : string) (val : interface)
          (pder : redis.Provider) (c : redis.Client) (b : bytes),
     redis.client pder = Some c ->
     gob_Encode val = Ok b ->
     exists (err : option error) (c' : redis.Client),
       redis.SessionStore_Set st key val pder = Some (err, redis.with_client pder c') /\
       redis.cmds c' =
         redis.cmds c ++
           [redis.CmdSet (redis.getPrefixedKey pder (redis.sid st) key) b
              (seconds_to_Duration (redis.maxLifeTime pder))] /\
       (redis.online c = true ->
        err = None /\
        redis.kv c' = <[redis.getPrefixedKey pder (redis.sid st) key := b]> (redis.kv c))).
Proof.
  split; [exact sqlite_Set_changed |]. split; [exact sqlite_Set_unchanged |].
  split.
  - intros st now key val pder. unfold sqlite.SessionStore_Put, sqlite.SessionStore_Set.
    destruct (negb _); reflexivity.
  - intros st key val pder c b Hc Hb.
    destruct (redis_setValue_sends pder c (redis.sid st) key val b Hc Hb)
      as (err & c' & Hset & Hcmds & Hon).
    exists err, c'. unfold redis.SessionStore_Set. rewrite Hset.
    split; [by destruct err |]. auto.
Qed.

Lemma Set_effect_witness :
  sqlite.SessionStore_Set fixture.sqlite_store fixture.later "k" (VInt64 2) =
    (None, sqlite.mkSessionStore "s1" fixture.later fixture.noon
             (<["k"%string := VInt64 2]> {[ "k"%string := VInt64 1 ]}) true) /\
  sqlite.SessionStore_Set fixture.sqlite_store fixture.later "k" (VInt64 1) =
    (None, fixture.sqlite_store).
Proof.
  destruct (@Set_effect fixture.gob) as (Hchanged & Hsame & _).
  split.
  - apply (Hchanged fixture.sqlite_store fixture.later "k"%string (VInt64 2)).
    reflexivity.
  - apply (Hsame fixture.sqlite_store fixture.later "k"%string (VInt64 1)).
    reflexivity.
Defined.

(** C3 as it is stated fails on both handles.  On sqlite, setting a key to
    the value it already holds leaves the session clean and its access time
    where it was.  On redis, [Set] writes to the server. *)
Lemma Set_not_staged_and_marked :
  (let st' := (sqlite.SessionStore_Set fixture.sqlite_store fixture.later "k"
                 (VInt64 1)).2 in
   sqlite.valueModified st' = false /\ sqlite.timeAccessed st' <> fixture.later) /\
  (exists pder',
     redis.SessionStore_Set (H := fixture.gob) fixture.redis_store "k" (VBool true)
       (fixture.redis_pder 0 0) = Some (None, pder') /\
     redis.cmds <$> redis.client pder' =
       Some [redis.CmdSet "sess:s1:k" [Byte.x03; Byte.x01] 0]).
Proof.
  split.
  - cbn. split; [reflexivity | discriminate].
  - eexists. split; reflexivity.
Qed.

(** ** The session handles: [Flush] *)

Lemma sqlite_Flush_clean `{Gob} (st : sqlite.SessionStore) (now : Time)
  (pder : sqlite.Provider) :
  sqlite.valueModified st = false ->
  sqlite.SessionStore_Flush st now pder = Some (None, st, pder).
Proof. intros Hm. unfold sqlite.SessionStore_Flush. by rewrite Hm. Qed.

Lemma sqlite_Flush_dirty `{Gob} (st : sqlite.SessionStore) (now : Time)
  (pder : sqlite.Provider) (db : sqlite.DB) (v : bytes) :
  sqlite.valueModified st = true ->
  sqlite.getForDb (sqlite.value st) = Ok v ->
  sqlite.dbConn pder = Some db ->
  sqlite.usable db = true ->
  sqlite.SessionStore_Flush st now pder =
    Some (None,
          sqlite.mkSessionStore (sqlite.sid st) (sqlite.timeAccessed st)
            (sqlite.timeCreated st) (sqlite.value st) false,
          sqlite.with_dbConn pder
            (sqlite.mkDB
               (sqlite.apply_Stmt now (sqlite.UpdateVal v (sqlite.sid st)) (sqlite.rows db))
               true
               (sqlite.executed db ++ [sqlite.UpdateVal v (sqlite.sid st)]))).
Proof.
  intros Hm Hv Hdb Hu.
  unfold sqlite.SessionStore_Flush, sqlite.ExecContext, sqlite.db_Exec.
  by rewrite Hm, Hv, Hdb, Hu.
Qed.

Lemma sqlite_Flush_failed `{Gob} (st : sqlite.SessionStore) (now : Time)
  (pder : sqlite.Provider) (db : sqlite.DB) :
  sqlite.valueModified st = true ->
  sqlite.dbConn pder = Some db ->
  is_Err (sqlite.getForDb (sqlite.value st)) = true \/ sqlite.usable db = false ->
  exists (err : error) (pder' : sqlite.Provider),
    sqlite.SessionStore_Flush st now pder = Some (Some err, st, pder').
Proof.
  intros Hm Hdb Hfail.
  unfold sqlite.SessionStore_Flush, sqlite.ExecContext, sqlite.db_Exec.
  rewrite Hm, Hdb.
  destruct (sqlite.getForDb (sqlite.value st)) as [v | e]; [| by eexists _, _].
  destruct Hfail as [Hfail | Hfail]; [done |]. rewrite Hfail. by eexists _, _.
Qed.

Lemma redis_Flush_sends `{Gob} (st : redis.SessionStore) (now : Time)
  (pder : redis.Provider) (c : redis.Client) (b : bytes) :
  redis.client pder = Some c ->
  gob_Encode (VTime now) = Ok b ->
  exists c' : redis.Client,
    redis.SessionStore_Flush st now pder = Some (None, redis.with_client pder c') /\
    redis.cmds c' =
      redis.cmds c ++
        [redis.CmdSet (redis.getPrefixedKey pder (redis.sid st) "time_accessed") b
           (seconds_to_Duration (redis.maxLifeTime pder))].
Proof.
  intros Hc Hb. unfold redis.SessionStore_Flush, redis.sessionAccessed.
  destruct (redis_setValue_sends pder c (redis.sid st) "time_accessed" (VTime now) b Hc Hb)
    as (err & c' & Hset & Hcmds & _).
  rewrite Hset. by exists c'.
Qed.

(** [Flush] as the code has it.  On the sqlite handle [Flush] looks at the
    dirty flag only.  With the flag clear it sends nothing and leaves the
    handle and the provider as they were.  With the flag set (as [Set]
    leaves it when it changes a value) it encodes the map and sends one
    UPDATE with it; when both succeed the flag is reset, the statement is
    the only one added and the session's row, if there is one, holds the
    encoded map; when one of them fails the error is returned and the flag
    stays set.  On the redis handle, which stages nothing, [Flush] always
    writes the access time to the server. *)
Theorem Flush_effect `{Gob} :
  (forall (st : sqlite.SessionStore) (now : Time) (pder : sqlite.Provider),
     sqlite.valueModified st = false ->
     sqlite.SessionStore_Flush st now pder = Some (None, st, pder)) /\
  (forall (st : sqlite.SessionStore) (now : Time) (key : string) (val : interface),
     DeepEqual (sqlite.index (sqlite.value st) key) val = false ->
     sqlite.valueModified (sqlite.SessionStore_Set st now key val).2 = true) /\
  (forall (st : sqlite.SessionStore) (now : Time) (pder : sqlite.Provider)
          (db : sqlite.DB) (v : bytes),
     sqlite.valueModified st = true ->
     sqlite.getForDb (sqlite.value st) = Ok v ->
     sqlite.dbConn pder = Some db ->
     sqlite.usable db = true ->
     exists (st' : sqlite.SessionStore) (db' : sqlite.DB),
       sqlite.SessionStore_Flush st now pder
         = Some (None, st', sqlite.with_dbConn pder db') /\
       sqlite.valueModified st' = false /\
       sqlite.value st' = sqlite.value st /\
       sqlite.executed db' = sqlite.executed db ++ [sqlite.UpdateVal v (sqlite.sid st)] /\
       (forall r, sqlite.rows db !! sqlite.sid st = Some r ->
          sqlite.rows db' !! sqlite.sid st
            = Some (sqlite.mkRow now (sqlite.create_time r) v))) /\
  (forall (st : sqlite.SessionStore) (now : Time) (pder : sqlite.Provider)
          (db : sqlite.DB),
     sqlite.valueModified st = true ->
     sqlite.dbConn pder = Some db ->
     is_Err (sqlite.getForDb (sqlite.value st)) = true \/ sqlite.usable db = false ->
     exists (err : error) (pder' : sqlite.Provider),
       sqlite.SessionStore_Flush st now pder = Some (Some err, st, pder')) /\
  (forall (st : redis.SessionStore) (now : Time) (pder : redis.Provider)
          (c : redis.Client) (b : bytes),
     redis.client pder = Some c ->
     gob_Encode (VTime now) = Ok b ->
     exists c' : redis.Client,
       redis.SessionStore_Flush st now pder = Some (None, redis.with_client pder c') /\
       redis.cmds c' =
         redis.cmds c ++
           [redis.CmdSet (redis.getPrefixedKey pder (redis.sid st) "time_accessed") b
              (seconds_to_Duration (redis.maxLifeTime pder))]).
Proof.
  split; [exact sqlite_Flush_clean |].
  split; [intros st now key val Hd; by rewrite (sqlite_Set_changed st now key val Hd) |].
  split; [| split; [exact sqlite_Flush_failed | exact redis_Flush_sends]].
  intros st now pder db v Hm Hv Hdb Hu.
  rewrite (sqlite_Flush_dirty st now pder db v Hm Hv Hdb Hu).
  eexists _, _. split; [reflexivity |]. cbn.
  repeat split. intros r Hr. rewrite Hr. apply lookup_insert_eq.
Qed.

Lemma Flush_effect_witness :
  sqlite.SessionStore_Flush (H := fixture.gob) fixture.sqlite_store fixture.later
    (fixture.sqlite_pder 0 0) = Some (None, fixture.sqlite_store, fixture.sqlite_pder 0 0) /\
  exists st' db',
    sqlite.SessionStore_Flush (H := fixture.gob)
      (sqlite.SessionStore_Set fixture.sqlite_store fixture.later "k" (VInt64 2)).2
      fixture.later (fixture.sqlite_pder 0 0)
    = Some (None, st', sqlite.with_dbConn (fixture.sqlite_pder 0 0) db') /\
    sqlite.valueModified st' = false /\
    sqlite.executed db' = [sqlite.UpdateVal [Byte.x01; Byte.x00] "s1"].
Proof.
  destruct (@Flush_effect fixture.gob) as (Hclean & _ & Hdirty & _).
  split.
  - apply Hclean. reflexivity.
  - destruct (Hdirty
                (sqlite.SessionStore_Set fixture.sqlite_store fixture.later "k" (VInt64 2)).2
                fixture.later (fixture.sqlite_pder 0 0) (sqlite.mkDB ∅ true [])
                [Byte.x01; Byte.x00])
      as (st' & db' & Hrun & Hm & _ & Hex & _); try reflexivity.
    exists st', db'. split; [exact Hrun |]. split; [exact Hm | exact Hex].
Defined.

(** On the redis handle, which stages nothing, [Flush] is an access-time
    touch: on a handle on which nothing has been set, put or deleted it
    sends a SET to the server. *)
Lemma Flush_not_dirty_tracked :
  exists pder',
    redis.SessionStore_Flush (H := fixture.gob) fixture.redis_store fixture.noon
      (fixture.redis_pder 0 0) = Some (None, pder') /\
    redis.cmds <$> redis.client pder' =
      Some [redis.CmdSet "sess:s1:time_accessed"
              [Byte.x0a; fixture.byte_of_Z (sec fixture.noon)] 0].
Proof. eexists. split; reflexivity. Qed.

(** On the sqlite handle [Delete] takes the key out of the map without
    setting the dirty flag, so a [Flush] that follows sends nothing: the
    provider is as it was and the removal stays in memory. *)
Lemma Flush_after_Delete_sends_nothing `{Gob} (st : sqlite.SessionStore)
  (now now' : Time) (key : string) (pder : sqlite.Provider) :
  sqlite.valueModified st = false ->
  let st' := (sqlite.SessionStore_Delete st now key).2 in
  sqlite.value st' !! key = None /\
  sqlite.SessionStore_Flush st' now' pder = Some (None, st', pder).
Proof.
  intros Hm. unfold sqlite.SessionStore_Delete.
  destruct (sqlite.value st !! key) eqn:Hk; cbn.
  - split; [apply lookup_delete_eq | by apply sqlite_Flush_clean].
  - split; [exact Hk | by apply sqlite_Flush_clean].
Qed.

(** C4.  On the sqlite handle a [Delete] is a mutation that [Flush] does
    not persist.  [Set] of a new value marks the session dirty and the
    [Flush] that follows sends the UPDATE with the map and resets the flag.
    [Delete] then takes the key out of the map but, unlike [Set], does not
    set the flag, so the next [Flush] returns nil and sends nothing: the
    provider is as it was, its database has seen the one UPDATE only, and
    the row still holds the map with the key. *)
Theorem Flush_after_Delete_persists_nothing :
  exists (st2 : sqlite.SessionStore) (pder2 : sqlite.Provider) (db2 : sqlite.DB),
    sqlite.SessionStore_Flush (H := fixture.gob)
      (sqlite.SessionStore_Set fixture.sqlite_store fixture.later "k" (VInt64 2)).2
      fixture.later (fixture.sqlite_pder_s1 []) = Some (None, st2, pder2) /\
    sqlite.valueModified st2 = false /\
    sqlite.value st2 !! "k"%string = Some (VInt64 2) /\
    sqlite.value (sqlite.SessionStore_Delete st2 fixture.later "k").2 !! "k"%string
      = None /\
    sqlite.valueModified (sqlite.SessionStore_Delete st2 fixture.later "k").2 = false /\
    sqlite.SessionStore_Flush (H := fixture.gob)
      (sqlite.SessionStore_Delete st2 fixture.later "k").2 fixture.later pder2
      = Some (None, (sqlite.SessionStore_Delete st2 fixture.later "k").2, pder2) /\
    sqlite.dbConn pder2 = Some db2 /\
    sqlite.executed db2 = [sqlite.UpdateVal [Byte.x01; Byte.x00] "s1"] /\
    sqlite.rows db2 !! "s1"%string
      = Some (sqlite.mkRow fixture.later fixture.noon [Byte.x01; Byte.x00]).
Proof.
  eexists _, _, _. split; [reflexivity |].
  split; [reflexivity |]. split; [reflexivity |]. split; [reflexivity |].
  split; [reflexivity |].
  split; [by apply sqlite_Flush_clean |].
  split; [reflexivity |]. split; reflexivity.
Qed.

(** ** The session handles: typed getters *)

Lemma redis_getValue_result `{Gob} (pder : redis.Provider) (c : redis.Client)
  (now : Time) (sid key : string) (t : gotype) :
  redis.client pder = Some c ->
  exists (r : result interface) (pder' : redis.Provider),
    redis.getValue pder now sid key t = Some (r, pder') /\
    (redis.kv c !! redis.getPrefixedKey pder sid key = None -> is_Err r = true) /\
    (forall raw, redis.kv c !! redis.getPrefixedKey pder sid key = Some raw ->
       is_Err (gob_Decode raw t) = true -> is_Err r = true).
Proof.
  intros Hc.
  unfold redis.getValue, redis.getValueForKey, redis.client_Get. rewrite Hc.
  destruct (redis.online c);
    [destruct (redis.kv c !! redis.getPrefixedKey pder sid key) as [raw|] eqn:Hkv |].
  - destruct (length raw =? 0)%nat; [eexists _, _; repeat split; auto |].
    destruct (gob_Decode raw t) as [v | e] eqn:Hdec.
    + unfold redis.sessionAccessed, redis.setValue, redis.client_Set.
      destruct (gob_Encode (VTime now)); cbn.
      * destruct (redis.online c); eexists _, _;
          (split; [reflexivity |]); (split; [done |]);
          intros raw' [= <-]; by rewrite Hdec.
      * eexists _, _. split; [reflexivity |]. split; [done |].
        intros raw' [= <-]; by rewrite Hdec.
    + eexists _, _; repeat split; auto.
  - eexists _, _; repeat split; auto.
  - eexists _, _; repeat split; auto.
Qed.

(** C5.  The typed getters return a value and nothing else, on every handle
    and key (on redis: once the provider has its client).  On the sqlite
    handle a missing key gives the zero value and leaves the handle as it
    was, and so does (but for the access time) a stored value that is of
    none of the types the getter asserts: [bool] for [GetBool], [string] or
    [[]byte] for [GetString], [int64] or [int] for [GetInt], [float64] or
    [float32] for [GetFloat].  On the redis handle the zero value comes back
    when the key is missing and when the stored bytes do not decode into
    the getter's type. *)
Theorem typed_getters_zero `{Gob} :
  (forall (st : sqlite.SessionStore) (now : Time) (key : string),
     sqlite.value st !! key = None ->
     sqlite.SessionStore_GetBool st now key = (false, st) /\
     sqlite.SessionStore_GetString st now key = (""%string, st) /\
     sqlite.SessionStore_GetInt st now key = (0, st) /\
     sqlite.SessionStore_GetFloat st now key = (0%float, st)) /\
  (forall (st : sqlite.SessionStore) (now : Time) (key : string) (v : interface),
     sqlite.value st !! key = Some v ->
     (TypeOf v <> TBool -> (sqlite.SessionStore_GetBool st now key).1 = false) /\
     (TypeOf v <> TString -> TypeOf v <> TBytes ->
      (sqlite.SessionStore_GetString st now key).1 = ""%string) /\
     (TypeOf v <> TInt64 -> TypeOf v <> TInt ->
      (sqlite.SessionStore_GetInt st now key).1 = 0) /\
     (TypeOf v <> TFloat64 -> TypeOf v <> TFloat32 ->
      (sqlite.SessionStore_GetFloat st now key).1 = 0%float)) /\
  (forall (st : redis.SessionStore) (now : Time) (key : string)
          (pder : redis.Provider) (c : redis.Client),
     redis.client pder = Some c ->
     exists (vb : bool) (vs : string) (vi : Z) (vf : float)
            (pb ps pi pf : redis.Provider),
       redis.SessionStore_GetBool st now key pder = Some (vb, pb) /\
       redis.SessionStore_GetString st now key pder = Some (vs, ps) /\
       redis.SessionStore_GetInt st now key pder = Some (vi, pi) /\
       redis.SessionStore_GetFloat st now key pder = Some (vf, pf) /\
       (redis.kv c !! redis.getPrefixedKey pder (redis.sid st) key = None ->
        vb = false /\ vs = ""%string /\ vi = 0 /\ vf = 0%float) /\
       (forall raw,
          redis.kv c !! redis.getPrefixedKey pder (redis.sid st) key = Some raw ->
          (is_Err (gob_Decode raw TBool) = true -> vb = false) /\
          (is_Err (gob_Decode raw TString) = true -> vs = ""%string) /\
          (is_Err (gob_Decode raw TInt64) = true -> vi = 0) /\
          (is_Err (gob_Decode raw TFloat64) = true -> vf = 0%float))).
Proof.
  split; [| split].
  - intros st now key Hk.
    unfold sqlite.SessionStore_GetBool, sqlite.SessionStore_GetString,
      sqlite.SessionStore_GetInt, sqlite.SessionStore_GetFloat.
    by rewrite Hk.
  - intros st now key v Hk.
    unfold sqlite.SessionStore_GetBool, sqlite.SessionStore_GetString,
      sqlite.SessionStore_GetInt, sqlite.SessionStore_GetFloat.
    rewrite Hk. destruct v; cbn; repeat split; intros; congruence.
  - intros st now key pder c Hc.
    unfold redis.SessionStore_GetBool, redis.SessionStore_GetString,
      redis.SessionStore_GetInt, redis.SessionStore_GetFloat.
    destruct (redis_getValue_result pder c now (redis.sid st) key TBool Hc)
      as (rb & pb & -> & Hb0 & Hb1).
    destruct (redis_getValue_result pder c now (redis.sid st) key TString Hc)
      as (rs & ps & -> & Hs0 & Hs1).
    destruct (redis_getValue_result pder c now (redis.sid st) key TInt64 Hc)
      as (ri & pi & -> & Hi0 & Hi1).
    destruct (redis_getValue_result pder c now (redis.sid st) key TFloat64 Hc)
      as (rf & pf & -> & Hf0 & Hf1).
    assert (Zb : is_Err rb = true ->
                 (match rb with Ok (VBool v) => v | _ => false end) = false)
      by (by destruct rb).
    assert (Zs : is_Err rs = true ->
                 (match rs with Ok (VString v) => v | _ => ""%string end) = ""%string)
      by (by destruct rs).
    assert (Zi : is_Err ri = true ->
                 (match ri with Ok (VInt64 v) => v | _ => 0 end) = 0)
      by (by destruct ri).
    assert (Zf : is_Err rf = true ->
                 (match rf with Ok (VFloat64 v) => v | _ => 0%float end) = 0%float)
      by (by destruct rf).
    exists (match rb with Ok (VBool v) => v | _ => false end),
      (match rs with Ok (VString v) => v | _ => ""%string end),
      (match ri with Ok (VInt64 v) => v | _ => 0 end),
      (match rf with Ok (VFloat64 v) => v | _ => 0%float end), pb, ps, pi, pf.
    split; [by destruct rb as [[]|] |]. split; [by destruct rs as [[]|] |].
    split; [by destruct ri as [[]|] |]. split; [by destruct rf as [[]|] |].
    split.
    + intros Hk. repeat split; [apply Zb | apply Zs | apply Zi | apply Zf]; auto.
    + intros raw Hk. specialize (Hb1 raw Hk). specialize (Hs1 raw Hk).
      specialize (Hi1 raw Hk). specialize (Hf1 raw Hk).
      repeat split; intros Hd; [apply Zb | apply Zs | apply Zi | apply Zf]; auto.
Qed.

Lemma typed_getters_zero_witness :
  sqlite.SessionStore_GetInt fixture.sqlite_store fixture.later "missing"
    = (0, fixture.sqlite_store) /\
  (sqlite.SessionStore_GetBool fixture.sqlite_store fixture.later "k").1 = false /\
  exists vb pb,
    redis.SessionStore_GetBool (H := fixture.gob) fixture.redis_store fixture.noon "k"
      (fixture.redis_pder 0 0) = Some (vb, pb) /\ vb = false.
Proof.
  destruct (@typed_getters_zero fixture.gob) as (Habsent & Hother & Hredis).
  split; [| split].
  - apply (Habsent fixture.sqlite_store fixture.later "missing"%string). reflexivity.
  - apply (Hother fixture.sqlite_store fixture.later "k"%string (VInt64 1));
      [reflexivity | discriminate].
  - destruct (Hredis fixture.redis_store fixture.noon "k"%string (fixture.redis_pder 0 0)
                (redis.mkClient ∅ true []) eq_refl)
      as (vb & vs & vi & vf & pb & ps & pi & pf & Hb & _ & _ & _ & Hnone & _).
    exists vb, pb. split; [exact Hb |]. apply Hnone. reflexivity.
Defined.

(* ================================================================== *)
(** * Further properties *)
(* ================================================================== *)

(** ** The registry and the constructor *)

(** X1.  [Register] panics when the provider is nil or the name is taken,
    and only then; otherwise the name leads to the provider from then on,
    every other name leads where it led before, nothing is written or
    called, and registering the name a second time panics. *)
Theorem Register_once {P : Type} (w : session.World P) (name : string) (p q : P) :
  session.Register name None w = None /\
  (forall p0, session.provides w !! name = Some p0 ->
     session.Register name (Some p) w = None) /\
  (session.provides w !! name = None ->
   exists w' : session.World P,
     session.Register name (Some p) w = Some (tt, w') /\
     session.provides w' !! name = Some p /\
     (forall other, other <> name ->
        session.provides w' !! other = session.provides w !! other) /\
     session.trace w' = session.trace w /\
     session.goroutines w' = session.goroutines w /\
     session.cancelled w' = session.cancelled w /\
     session.Register name (Some q) w' = None).
Proof.
  split; [reflexivity |]. split.
  - intros p0 Hp. unfold session.Register. by rewrite Hp.
  - intros Hfree. unfold session.Register, session.put_provider. rewrite Hfree.
    eexists. split; [reflexivity |]. cbn. rewrite lookup_insert_eq.
    repeat split. intros other Hne. by rewrite lookup_insert_ne.
Qed.

Lemma Register_once_witness :
  exists w',
    session.Register "redis" (Some (fixture.redis_pder 0 0))
      (session.mkWorld (P := redis.Provider) ∅ [] 0%nat ∅ []) = Some (tt, w') /\
    session.provides w' !! "redis"%string = Some (fixture.redis_pder 0 0).
Proof.
  destruct (@Register_once redis.Provider
              (session.mkWorld (P := redis.Provider) ∅ [] 0%nat ∅ []) "redis"
              (fixture.redis_pder 0 0) (fixture.redis_pder 0 0))
    as (_ & _ & Hfresh).
  destruct (Hfresh eq_refl) as (w' & Hrun & Hp & _).
  exists w'. split; [exact Hrun | exact Hp].
Defined.

(** What [NewManager] does on a registered provider. *)
Lemma NewManager_registered `{GoLib} {P Sess : Type} `{!session.Provider P Sess}
  (w : session.World P) (providerName : string) (maxLifeTime maxIdleTime : Z)
  (sessionsKillTime : string) (provParams : list interface) (p : P) :
  session.provides w !! providerName = Some p ->
  let p1 := session.SetMaxIdleTime maxIdleTime (session.SetMaxLifeTime maxLifeTime p) in
  let setters :=
    [session.ECall providerName (session.CallSetMaxLifeTime maxLifeTime);
     session.ECall providerName (session.CallSetMaxIdleTime maxIdleTime)] in
  session.NewManager providerName maxLifeTime maxIdleTime sessionsKillTime provParams w =
  match (if String.eqb sessionsKillTime "" then Ok zero_Time
         else session.parseTime sessionsKillTime) with
  | Err e =>
      Some (Err e,
            session.mkWorld (<[providerName := p1]> (session.provides w))
              (session.trace w ++ setters) (session.next_ctx w) (session.cancelled w)
              (session.goroutines w))
  | Ok t =>
      Some (match (session.InitProvider provParams p1).1 with
            | Some e => Err e
            | None => Ok (session.mkManager providerName t None)
            end,
            session.mkWorld
              (<[providerName := (session.InitProvider provParams p1).2]>
                 (session.provides w))
              (session.trace w ++ setters ++
                 [session.ECall providerName (session.CallInitProvider provParams)])
              (session.next_ctx w) (session.cancelled w) (session.goroutines w))
  end.
Proof.
  intros Hp p1 setters. subst p1 setters.
  unfold session.NewManager. rewrite Hp. unfold_M.
  rewrite Hp. cbn. rewrite lookup_insert_eq. cbn. rewrite !insert_insert_eq.
  unfold session.SetSessionsKillTime.
  destruct (String.eqb sessionsKillTime "");
    [| destruct (session.parseTime sessionsKillTime) as [t | e]]; cbn;
    rewrite ?lookup_insert_eq; cbn;
    try (destruct (session.InitProvider provParams
                     (session.SetMaxIdleTime maxIdleTime
                        (session.SetMaxLifeTime maxLifeTime p))) as [[e'|] p2]; cbn);
    rewrite ?insert_insert_eq, <- ?app_assoc; reflexivity.
Qed.

(** X2.  [NewManager] on an unregistered name fails with the
    unknown-provider error and touches nothing.  On a registered provider
    whose kill time is empty or parses, it calls [SetMaxLifeTime],
    [SetMaxIdleTime] and [InitProvider] in this order, [InitProvider] sees
    the provider with both policies stored, and a manager is returned
    exactly when [InitProvider] returns no error: it points at the provider,
    holds the parsed kill time (the zero time for an empty string) and has
    no cancel function. *)
Theorem NewManager_outcome `{GoLib} {P Sess : Type} `{!session.Provider P Sess}
  (w : session.World P) (providerName : string) (maxLifeTime maxIdleTime : Z)
  (sessionsKillTime : string) (provParams : list interface) :
  (session.provides w !! providerName = None ->
   session.NewManager providerName maxLifeTime maxIdleTime sessionsKillTime provParams w
     = Some (Err (EUnknownProvider providerName), w)) /\
  (forall (p : P) (t : Time),
     session.provides w !! providerName = Some p ->
     (sessionsKillTime = ""%string /\ t = zero_Time) \/
     (sessionsKillTime <> ""%string /\ session.parseTime sessionsKillTime = Ok t) ->
     let p1 := session.SetMaxIdleTime maxIdleTime
                 (session.SetMaxLifeTime maxLifeTime p) in
     exists (r : result session.Manager) (w' : session.World P),
       session.NewManager providerName maxLifeTime maxIdleTime sessionsKillTime
         provParams w = Some (r, w') /\
       session.trace w' =
         session.trace w ++
           [session.ECall providerName (session.CallSetMaxLifeTime maxLifeTime);
            session.ECall providerName (session.CallSetMaxIdleTime maxIdleTime);
            session.ECall providerName (session.CallInitProvider provParams)] /\
       session.provides w' !! providerName
         = Some (session.InitProvider provParams p1).2 /\
       ((session.InitProvider provParams p1).1 = None ->
        r = Ok (session.mkManager providerName t None)) /\
       (forall e, (session.InitProvider provParams p1).1 = Some e -> r = Err e)).
Proof.
  split.
  - intros Hp. unfold session.NewManager. by rewrite Hp.
  - intros p t Hp Hkill p1.
    rewrite (NewManager_registered w providerName maxLifeTime maxIdleTime
               sessionsKillTime provParams p Hp).
    assert (Hk : (if String.eqb sessionsKillTime "" then Ok zero_Time
                  else session.parseTime sessionsKillTime) = Ok t).
    { destruct Hkill as [[-> ->] | [Hne Hparse]]; [reflexivity |].
      by rewrite (eqb_empty_false _ Hne). }
    rewrite Hk. eexists _, _. split; [reflexivity |]. cbn.
    split; [reflexivity |]. split; [apply lookup_insert_eq |].
    fold p1. split; [by intros -> | by intros e ->].
Qed.

Lemma NewManager_outcome_witness :
  exists w',
    session.NewManager (H := fixture.lib) (Provider0 := fixture.redis_Provider)
      "redis" 600 60 "03:00" [VString "redis://localhost:6379/0"; VString "sess"]
      (fixture.world "redis" (redis.mkProvider None "" 0 0))
    = Some (Ok (session.mkManager "redis" (mkTime (3 * 3600 - 366 * 86400) 0) None), w').
Proof.
  destruct (@NewManager_outcome fixture.lib _ _ fixture.redis_Provider
              (fixture.world "redis" (redis.mkProvider None "" 0 0)) "redis" 600 60
              "03:00" [VString "redis://localhost:6379/0"; VString "sess"])
    as [_ Hreg].
  destruct (Hreg (redis.mkProvider None "" 0 0) (mkTime (3 * 3600 - 366 * 86400) 0)
              eq_refl)
    as (r & w' & Hrun & _ & _ & Hok & _);
    [right; split; [discriminate | reflexivity] |].
  exists w'. rewrite Hrun, (Hok eq_refl). reflexivity.
Defined.

Lemma redis_InitProvider_policies `{redis.RedisLib} (provParams : list interface)
  (pder : redis.Provider) :
  redis.maxLifeTime (redis.Provider_InitProvider provParams pder).2
    = redis.maxLifeTime pder /\
  redis.maxIdleTime (redis.Provider_InitProvider provParams pder).2
    = redis.maxIdleTime pder.
Proof.
  unfold redis.Provider_InitProvider.
  destruct provParams as [|p0 [|p1 rest]]; [done | done |].
  destruct p0; try done. destruct p1; try done.
  destruct (redis.redis_ParseURL s); [| done].
  destruct (redis.online (redis.redis_NewClient a)); done.
Qed.

Lemma sqlite_InitProvider_policies `{sqlite.SqlLib} (provParams : list interface)
  (pder : sqlite.Provider) :
  sqlite.maxLifeTime (sqlite.Provider_InitProvider provParams pder).2
    = sqlite.maxLifeTime pder /\
  sqlite.maxIdleTime (sqlite.Provider_InitProvider provParams pder).2
    = sqlite.maxIdleTime pder.
Proof.
  unfold sqlite.Provider_InitProvider.
  destruct provParams as [|p0 rest]; [done |].
  destruct p0; try done.
  destruct (sqlite.sql_Open sqlite.PROVIDER s); done.
Qed.

(** X3.  On the redis and the sqlite provider the two policies given to
    [NewManager] are stored in the registered provider whenever the
    provider is found, also when [NewManager] then fails on the kill time or
    in [InitProvider]. *)
Theorem NewManager_stores_policies `{GoLib} `{Gob} `{redis.RedisLib} `{sqlite.SqlLib}
  (providerName : string) (maxLifeTime maxIdleTime : Z) (sessionsKillTime : string)
  (provParams : list interface) :
  (forall (w : session.World redis.Provider) (p : redis.Provider),
     session.provides w !! providerName = Some p ->
     exists r w' p',
       session.NewManager (Provider0 := redis.redis_Provider) providerName maxLifeTime
         maxIdleTime sessionsKillTime provParams w = Some (r, w') /\
       session.provides w' !! providerName = Some p' /\
       redis.maxLifeTime p' = maxLifeTime /\ redis.maxIdleTime p' = maxIdleTime) /\
  (forall (w : session.World sqlite.Provider) (p : sqlite.Provider),
     session.provides w !! providerName = Some p ->
     exists r w' p',
       session.NewManager (Provider0 := sqlite.sqlite_Provider) providerName maxLifeTime
         maxIdleTime sessionsKillTime provParams w = Some (r, w') /\
       session.provides w' !! providerName = Some p' /\
       sqlite.maxLifeTime p' = maxLifeTime /\ sqlite.maxIdleTime p' = maxIdleTime).
Proof.
  split; intros w p Hp;
    rewrite (NewManager_registered w providerName maxLifeTime maxIdleTime
               sessionsKillTime provParams p Hp);
    destruct (if String.eqb sessionsKillTime "" then Ok zero_Time
              else session.parseTime sessionsKillTime) as [t | e];
    eexists _, _, _; (split; [reflexivity |]); cbn;
    (split; [apply lookup_insert_eq |]); try (split; reflexivity).
  - apply (redis_InitProvider_policies provParams
             (redis.Provider_SetMaxIdleTime maxIdleTime
                (redis.Provider_SetMaxLifeTime maxLifeTime p))).
  - apply (sqlite_InitProvider_policies provParams
             (sqlite.Provider_SetMaxIdleTime maxIdleTime
                (sqlite.Provider_SetMaxLifeTime maxLifeTime p))).
Qed.

Lemma NewManager_stores_policies_witness :
  exists r w' p',
    session.NewManager (H := fixture.lib) (Provider0 := fixture.redis_Provider)
      "redis" 600 60 "3 o'clock" []
      (fixture.world "redis" (redis.mkProvider None "" 0 0)) = Some (r, w') /\
    session.provides w' !! "redis"%string = Some p' /\
    redis.maxLifeTime p' = 600 /\ redis.maxIdleTime p' = 60.
Proof.
  destruct (@NewManager_stores_policies fixture.lib fixture.gob fixture.redis_lib
              fixture.sql_lib "redis" 600 60 "3 o'clock" []) as [Hredis _].
  exact (Hredis (fixture.world "redis" (redis.mkProvider None "" 0 0))
           (redis.mkProvider None "" 0 0) eq_refl).
Defined.

(** ** Kill time, stopping and the log *)

(** X4.  [SetSessionsKillTime] assigns the field whatever [parseTime]
    returns: a string that parses replaces the kill time, one that does not
    parse puts the zero time in its place and the error is returned.  After
    such a failure [StartGC] starts no kill-time loop, whatever kill time
    the manager had before. *)
Theorem SetSessionsKillTime_assigns `{GoLib} {P Sess : Type} `{!session.Provider P Sess}
  (manager : session.Manager) (sessionsKillTime : string) :
  (forall t, session.parseTime sessionsKillTime = Ok t ->
     session.SetSessionsKillTime manager sessionsKillTime =
       (session.mkManager (session.provider manager) t (session.gcCancel manager),
        None)) /\
  (forall e, session.parseTime sessionsKillTime = Err e ->
     session.SetSessionsKillTime manager sessionsKillTime =
       (session.mkManager (session.provider manager) zero_Time
          (session.gcCancel manager), Some e) /\
     forall (w : session.World P) (now : Time) (l : option session.Writer)
            (logLev : session.LogLevel) (p : P),
       session.provides w !! session.provider manager = Some p ->
       exists manager' w' started,
         session.StartGC (session.SetSessionsKillTime manager sessionsKillTime).1
           now l logLev w = Some (manager', w') /\
         session.goroutines w' = session.goroutines w ++ started /\
         forall ctx l' logLev', session.KillLoop ctx l' logLev' ∉ started).
Proof.
  split.
  - intros t Ht. unfold session.SetSessionsKillTime. by rewrite Ht.
  - intros e He. unfold session.SetSessionsKillTime. rewrite He.
    split; [reflexivity |]. intros w now l logLev p Hp. cbn [fst].
    rewrite (StartGC_run w
               (session.mkManager (session.provider manager) zero_Time
                  (session.gcCancel manager)) now l logLev p Hp).
    eexists _, _, _. split; [reflexivity |]. split; [reflexivity |].
    intros ctx l' logLev' Hin. cbn in Hin. unfold started_by in Hin.
    rewrite bool_decide_false in Hin by (intros Hne; by apply Hne).
    cbn in Hin.
    destruct ((session.GetMaxLifeTime p =? 0) && (session.GetMaxIdleTime p =? 0));
      [by apply not_elem_of_nil in Hin |].
    apply list_elem_of_singleton in Hin. discriminate.
Qed.

Lemma SetSessionsKillTime_assigns_witness :
  session.SetSessionsKillTime (H := fixture.lib) fixture.manager "3 o'clock" =
    (session.mkManager "redis" zero_Time None, Some (EMsg "parseTime: unknown layout")).
Proof.
  destruct (@SetSessionsKillTime_assigns fixture.lib _ _ fixture.redis_Provider
              fixture.manager "3 o'clock") as [_ Hfail].
  exact (proj1 (Hfail (EMsg "parseTime: unknown layout") eq_refl)).
Defined.

(** X5.  [StopGC] on a manager without a cancel function (one on which
    [StartGC] has not run) changes nothing.  In general it never panics,
    writes nothing, calls nothing and starts nothing, and calling it a
    second time changes nothing more. *)
Theorem StopGC_idempotent {P : Type} (w : session.World P) (manager : session.Manager) :
  (session.gcCancel manager = None -> session.StopGC manager w = Some (tt, w)) /\
  exists w1 : session.World P,
    session.StopGC manager w = Some (tt, w1) /\
    session.trace w1 = session.trace w /\
    session.provides w1 = session.provides w /\
    session.goroutines w1 = session.goroutines w /\
    session.cancelled w ⊆ session.cancelled w1 /\
    session.StopGC manager w1 = Some (tt, w1).
Proof.
  unfold session.StopGC. split; [by intros -> |].
  destruct (session.gcCancel manager) as [c|]; unfold_M.
  - eexists. split; [reflexivity |]. cbn. repeat split; [apply union_subseteq_r |].
    do 3 f_equal. by rewrite (assoc_L (∪)), union_idemp_L.
  - exists w. repeat split. by destruct w.
Qed.

Lemma StopGC_idempotent_witness :
  session.StopGC fixture.manager (fixture.world "redis" (fixture.redis_pder 0 0))
    = Some (tt, fixture.world "redis" (fixture.redis_pder 0 0)).
Proof.
  exact (proj1 (@StopGC_idempotent _ (fixture.world "redis" (fixture.redis_pder 0 0))
                  fixture.manager) eq_refl).
Defined.

(** An iteration that receives from [ctx.Done()] ends the loop: the only
    things done are the log line of the kill-time loop and the arming of
    the timer. *)
Lemma loop_iter_done `{GoLib} {P : Type} (manager : session.Manager)
  (g : session.Goroutine) (now : Time) (w : session.World P) :
  exists (w' : session.World P) (evs : list session.event),
    session.loop_iter manager g now session.CtxDone w = Some (false, w') /\
    session.trace w' = session.trace w ++ evs /\
    Forall (fun e => is_write e \/ exists ctx d, e = session.EAfter ctx d) evs.
Proof.
  destruct g as [ctx l logLev | ctx sleep_sec l logLev]; cbn [session.loop_iter].
  - unfold session.kill_loop_iter.
    unfold session.bind at 1.
    rewrite (log_if_spec now l logLev session.LOG_LEVEL_WARN _ session.LOG_LEVEL_WARN
               "WARN" w eq_refl).
    unfold_M. eexists _, _. split; [reflexivity |]. cbn. rewrite <- app_assoc.
    split; [reflexivity |].
    assert (Htimer : forall d,
              Forall (fun e => is_write e \/ exists ctx d, e = session.EAfter ctx d)
                [session.EAfter ctx d])
      by (intros d; apply Forall_cons; split; [right; eauto | constructor]).
    destruct l as [wr|]; [destruct (session.LOG_LEVEL_WARN <=? logLev) |]; cbn;
      try apply Htimer.
    apply Forall_cons. split; [left; by eexists _, _ | apply Htimer].
  - unfold session.gc_loop_iter. unfold_M.
    eexists _, _. split; [reflexivity |]. split; [reflexivity |].
    apply Forall_cons. split; [right; eauto | constructor].
Qed.

(** X6.  Once a loop receives from its cancelled context it is over: the
    rest of its inputs is not looked at, and in that last round it invokes
    neither [SessionGC] nor [DestroyAllSessions] and does not sleep.  For
    the idle/lifetime loop: [n] firings followed by the cancellation give
    exactly [n] invocations of [SessionGC]. *)
Theorem loops_end_on_cancel `{GoLib} {P : Type} (manager : session.Manager) :
  (forall (g : session.Goroutine) (now : Time)
          (rest : list (Time * session.select_result)) (w : session.World P),
     exists (w' : session.World P) (evs : list session.event),
       session.run_loop manager g ((now, session.CtxDone) :: rest) w
         = Some (false, w') /\
       session.trace w' = session.trace w ++ evs /\
       Forall (fun e => is_write e \/ exists ctx d, e = session.EAfter ctx d) evs) /\
  (forall (ctx : session.ctx_id) (sleep_sec : Z) (l : option session.Writer)
          (logLev : session.LogLevel)
          (fires rest : list (Time * session.select_result)) (now : Time)
          (w : session.World P) (p : P),
     Forall (fun i => i.2 <> session.CtxDone) fires ->
     session.provides w !! session.provider manager = Some p ->
     exists w' : session.World P,
       session.run_loop manager (session.GCLoop ctx sleep_sec l logLev)
         (fires ++ (now, session.CtxDone) :: rest) w = Some (false, w') /\
       count_SessionGC (session.trace w') =
         (count_SessionGC (session.trace w) + length fires)%nat).
Proof.
  split.
  - intros g now rest w.
    destruct (loop_iter_done manager g now w) as (w' & evs & Hrun & Htr & Hevs).
    exists w', evs. split; [| by split].
    cbn [session.run_loop]. unfold session.bind. by rewrite Hrun.
  - intros ctx sleep_sec l logLev fires rest now w p Hfires. revert w.
    induction Hfires as [|[now1 sel] fires Hsel _ IH]; intros w Hp.
    + destruct (loop_iter_done manager (session.GCLoop ctx sleep_sec l logLev) now w)
        as (w' & evs & Hrun & Htr & Hevs).
      exists w'. split.
      * cbn [app session.run_loop]. unfold session.bind. by rewrite Hrun.
      * rewrite Htr, count_SessionGC_app. cbn.
        assert (Hz : count_SessionGC evs = 0%nat); [| lia].
        clear -Hevs. induction Hevs as [|e evs [(wr & line & ->) | (c & d & ->)] _ IH];
          [done | exact IH | exact IH].
    + destruct sel as [|fired]; [done |].
      destruct (gc_loop_iter_fired manager ctx sleep_sec l logLev fired w p Hp)
        as (log & w1 & Hrun & Htr & Hlog & Hprov & _).
      assert (Hp1 : session.provides w1 !! session.provider manager = Some p)
        by (by rewrite Hprov).
      destruct (IH w1 Hp1) as (w' & Hrest & Hcount).
      exists w'. split.
      * cbn [app session.run_loop session.loop_iter]. unfold session.bind at 1.
        rewrite Hrun. exact Hrest.
      * rewrite Hcount, Htr, !count_SessionGC_app, (count_SessionGC_writes log Hlog).
        cbn. lia.
Qed.

Lemma loops_end_on_cancel_witness :
  exists w',
    session.run_loop (H := fixture.lib) fixture.manager
      (session.GCLoop 0%nat 60 None session.LOG_LEVEL_ERROR)
      ([(fixture.noon, session.TimerFired fixture.later)]
         ++ (fixture.later, session.CtxDone) :: [(fixture.later, session.TimerFired fixture.later)])
      (fixture.world "redis" (fixture.redis_pder 0 60)) = Some (false, w') /\
    count_SessionGC (session.trace w') = 1%nat.
Proof.
  destruct (@loops_end_on_cancel fixture.lib redis.Provider fixture.manager)
    as [_ Hgc].
  apply (Hgc 0%nat 60 None session.LOG_LEVEL_ERROR
           [(fixture.noon, session.TimerFired fixture.later)]
           [(fixture.later, session.TimerFired fixture.later)] fixture.later
           (fixture.world "redis" (fixture.redis_pder 0 60)) (fixture.redis_pder 0 60)).
  - repeat constructor. discriminate.
  - reflexivity.
Defined.

(** X7.  [WriteToLog] writes exactly one line, with the name of the level
    between the second and the third tab, for the three levels 0, 1 and 2;
    for every other level the lookup of the name is out of range and the
    call panics before anything is written. *)
Theorem WriteToLog_levels `{GoLib} {P : Type} (now : Time) (wr : session.Writer)
  (s : string) (logLevel : session.LogLevel) (w : session.World P) :
  (0 <= logLevel <= 2 ->
   exists name : string,
     name ∈ session.log_levels /\
     session.LogLevel_String logLevel = Some name /\
     session.WriteToLog now wr s logLevel w =
       Some (tt, session.mkWorld (session.provides w)
                   (session.trace w ++ [session.EWrite wr (log_line now name s)])
                   (session.next_ctx w) (session.cancelled w) (session.goroutines w))) /\
  (logLevel < 0 \/ 2 < logLevel -> session.WriteToLog now wr s logLevel w = None).
Proof.
  split.
  - intros Hlv.
    assert (Hcase : logLevel = 0 \/ logLevel = 1 \/ logLevel = 2) by lia.
    destruct Hcase as [-> | [-> | ->]];
      [exists "ERROR"%string | exists "WARN"%string | exists "DEBUG"%string];
      (split; [apply list_elem_of_In; cbn; tauto |]); split; reflexivity.
  - intros Hout. unfold session.WriteToLog, session.LogLevel_String.
    destruct (Z.ltb_spec logLevel 0); [reflexivity |].
    destruct Hout as [Hneg | Hbig]; [lia |].
    rewrite lookup_ge_None_2; [reflexivity |]. cbn. lia.
Qed.

Lemma WriteToLog_levels_witness :
  session.WriteToLog (H := fixture.lib) fixture.noon 0%nat "msg" 3
    (fixture.world "redis" (fixture.redis_pder 0 0)) = None.
Proof.
  apply (proj2 (@WriteToLog_levels fixture.lib _ fixture.noon 0%nat "msg" 3
                  (fixture.world "redis" (fixture.redis_pder 0 0)))).
  right. lia.
Defined.

(** X8.  The timers of the two loops and the one-second sleep get
    [time.Duration(n) * time.Second], an [int64] product: it is [n] seconds
    exactly for the intervals from -9223372036 to 9223372036 seconds (about
    292 years) and for no other, and the kill-time loop always stays within
    this range. *)
Theorem seconds_to_Duration_exact_iff (n : Z) :
  (seconds_to_Duration n = n * 1000000000 <-> -9223372036 <= n <= 9223372036) /\
  - 2 ^ 63 <= seconds_to_Duration n < 2 ^ 63 /\
  (forall (manager : session.Manager) (now : Time),
     seconds_to_Duration (session.kill_sleep_sec manager now)
       = session.kill_sleep_sec manager now * 1000000000).
Proof.
  split; [| split].
  - split; [| apply seconds_to_Duration_exact].
    intros Heq. pose proof (wrap64_range (n * time_Second)) as Hr.
    unfold seconds_to_Duration in Heq. rewrite Heq in Hr. unfold time_Second in Hr. lia.
  - apply wrap64_range.
  - intros manager now. apply seconds_to_Duration_exact.
    pose proof (kill_sleep_sec_mod manager now) as [_ Hr]. lia.
Qed.

(** X9.  The kill-time loop aims at the kill time of every day.  A round
    whose clock reading is [now] arms its timer for the instant at which
    the clock shows the kill time, less than a day ahead.  A round that
    began within that very second would sleep 0 seconds.  A next round
    that begins at least one whole second later (the loop sleeps a second
    after it fired) and at most a day later aims at the instant exactly
    86400 seconds after the one this round aimed at, however long
    [DestroyAllSessions] took. *)
Theorem kill_loop_daily (manager : session.Manager) (now next : Time) :
  sec now + session.kill_sleep_sec manager now + 1 <= sec next
    <= sec now + session.kill_sleep_sec manager now + 86400 ->
  0 <= session.kill_sleep_sec manager now < 86400 /\
  (forall ns,
     session.seconds_of_day (mkTime (sec now + session.kill_sleep_sec manager now) ns)
       = session.seconds_of_day (session.SessionsKillTime manager) /\
     session.kill_sleep_sec manager
       (mkTime (sec now + session.kill_sleep_sec manager now) ns) = 0) /\
  session.kill_sleep_sec manager next
    = 86400 - (sec next - (sec now + session.kill_sleep_sec manager now)) /\
  sec next + session.kill_sleep_sec manager next
    = sec now + session.kill_sleep_sec manager now + 86400.
Proof.
  intros Hnext.
  pose proof (kill_sleep_sec_mod manager now) as [Hs Hrange].
  pose proof (kill_sleep_sec_mod manager next) as [Hn _].
  pose proof (seconds_of_day_mod (session.SessionsKillTime manager)) as [_ Hk].
  pose proof (seconds_of_day_mod now) as [Hnow _].
  pose proof (seconds_of_day_mod next) as [Hnx _].
  set (k := session.seconds_of_day (session.SessionsKillTime manager)) in *.
  set (s := session.kill_sleep_sec manager now) in *.
  split; [exact Hrange |].
  assert (Hfire : forall ns, session.seconds_of_day (mkTime (sec now + s) ns) = k).
  { intros ns. pose proof (seconds_of_day_mod (mkTime (sec now + s) ns)) as [Hf _].
    rewrite Hf. cbn [sec]. rewrite Hs, Hnow. Z.div_mod_to_equations. lia. }
  split.
  { intros ns. split; [apply Hfire |].
    pose proof (kill_sleep_sec_mod manager (mkTime (sec now + s) ns)) as [Hf _].
    rewrite Hf, Hfire, Z.sub_diag. reflexivity. }
  assert (Hsleep : session.kill_sleep_sec manager next = 86400 - (sec next - (sec now + s))).
  { rewrite Hn, Hnx. pose proof (Hfire 0) as Hf0.
    pose proof (seconds_of_day_mod (mkTime (sec now + s) 0)) as [Hf _].
    rewrite Hf in Hf0. cbn [sec] in Hf0. Z.div_mod_to_equations. lia. }
  split; [exact Hsleep |]. rewrite Hsleep. lia.
Qed.

Lemma kill_loop_daily_witness :
  session.kill_sleep_sec fixture.manager fixture.noon = 15 /\
  session.kill_sleep_sec fixture.manager (mkTime (sec fixture.noon + 17) 0) = 86398.
Proof.
  split; [reflexivity |].
  destruct (kill_loop_daily fixture.manager fixture.noon
              (mkTime (sec fixture.noon + 17) 0)) as (_ & _ & Hsleep & _).
  - vm_compute. split; discriminate.
  - rewrite Hsleep. reflexivity.
Defined.

(** ** Session ids *)

Lemma byte_of_hex_ldigit (c : Byte.byte) :
  byte_of_hex (ldigit (N.shiftr (Byte.to_N c) 4)) (ldigit (N.land (Byte.to_N c) 15))
    = Some c.
Proof. destruct c; reflexivity. Qed.

Lemma fmt_x_inj (b b' : bytes) : fmt_x b = fmt_x b' -> b = b'.
Proof.
  revert b'. induction b as [|c b IH]; intros [|c' b'] Heq; cbn in Heq;
    try discriminate; [reflexivity |].
  injection Heq as Hhigh Hlow Hrest.
  pose proof (byte_of_hex_ldigit c) as Hc.
  rewrite Hhigh, Hlow, byte_of_hex_ldigit in Hc.
  injection Hc as <-. f_equal. by apply IH.
Qed.

Lemma string_app_inj (a a' b b' : string) :
  String.length a = String.length a' -> a +:+ b = a' +:+ b' -> a = a' /\ b = b'.
Proof.
  revert a'. induction a as [|c a IH]; intros [|c' a'] Hlen Heq; cbn in *;
    try discriminate; [by split |].
  injection Heq as -> Heq. injection Hlen as Hlen.
  destruct (IH a' Hlen Heq) as [-> ->]. by split.
Qed.

Lemma slices_cover {A} (b : list A) :
  b = slice b 0 4 ++ slice b 4 6 ++ slice b 6 8 ++ slice b 8 10 ++ slice_from b 10.
Proof.
  unfold slice, slice_from.
  change (drop 0 b) with b.
  change (4 - 0)%nat with 4%nat. change (6 - 4)%nat with 2%nat.
  change (8 - 6)%nat with 2%nat. change (10 - 8)%nat with 2%nat.
  assert (H8 : drop 8 b = take 2 (drop 8 b) ++ drop 10 b).
  { by rewrite <- (take_drop 2 (drop 8 b)) at 1; rewrite drop_drop. }
  assert (H6 : drop 6 b = take 2 (drop 6 b) ++ drop 8 b).
  { by rewrite <- (take_drop 2 (drop 6 b)) at 1; rewrite drop_drop. }
  assert (H4 : drop 4 b = take 2 (drop 4 b) ++ drop 6 b).
  { by rewrite <- (take_drop 2 (drop 4 b)) at 1; rewrite drop_drop. }
  rewrite <- H8, <- H6, <- H4. symmetry. apply take_drop.
Qed.

(** X10.  The id keeps all of the 128 random bits: two slices of 16 bytes
    that give the same id are the same, byte for byte, and [%x] on a byte
    slice can be read back digit pair by digit pair. *)
Theorem Sprintf_id_injective (b b' : bytes) :
  length b = 16%nat -> length b' = 16%nat ->
  session.Sprintf_id b = session.Sprintf_id b' -> b = b'.
Proof.
  intros Hb Hb' Heq. unfold session.Sprintf_id in Heq.
  assert (Hlen : forall (x : bytes) lo hi, length x = 16%nat ->
            (lo <= hi)%nat -> (hi <= 16)%nat ->
            String.length (fmt_x (slice x lo hi)) = (2 * (hi - lo))%nat).
  { intros x lo hi Hx Hlo Hhi. rewrite fmt_x_length, slice_length; lia. }
  apply string_app_inj in Heq as [H1 Heq];
    [| rewrite !Hlen by lia; reflexivity].
  apply (string_app_inj "-" "-") in Heq as [_ Heq]; [| reflexivity].
  apply string_app_inj in Heq as [H2 Heq];
    [| rewrite !Hlen by lia; reflexivity].
  apply (string_app_inj "-" "-") in Heq as [_ Heq]; [| reflexivity].
  apply string_app_inj in Heq as [H3 Heq];
    [| rewrite !Hlen by lia; reflexivity].
  apply (string_app_inj "-" "-") in Heq as [_ Heq]; [| reflexivity].
  apply string_app_inj in Heq as [H4 Heq];
    [| rewrite !Hlen by lia; reflexivity].
  apply (string_app_inj "-" "-") in Heq as [_ H5]; [| reflexivity].
  apply fmt_x_inj in H1, H2, H3, H4, H5.
  rewrite (slices_cover b), (slices_cover b'). by rewrite H1, H2, H3, H4, H5.
Qed.

Lemma Sprintf_id_injective_witness :
  session.Sprintf_id (fixture.stream 7 16) <> session.Sprintf_id (fixture.stream 8 16).
Proof.
  intros Heq.
  apply (Sprintf_id_injective (fixture.stream 7 16) (fixture.stream 8 16) eq_refl eq_refl)
    in Heq.
  vm_compute in Heq. discriminate.
Defined.

(** ** The sqlite provider: what a session keeps *)

Lemma sqlite_SessionRead_row `{Gob} (pder : sqlite.Provider) (db : sqlite.DB)
  (r : sqlite.Row) (now : Time) (sid : string) (m : sqlite.storeValue) :
  sqlite.dbConn pder = Some db ->
  sqlite.usable db = true ->
  sqlite.rows db !! sid = Some r ->
  sqlite.val r <> [] ->
  gob_DecodeMap (sqlite.val r) = Ok m ->
  sqlite.Provider_SessionRead pder now sid =
    Some (Ok (sqlite.mkSessionStore sid now (sqlite.create_time r) m false),
          sqlite.with_dbConn pder
            (sqlite.mkDB
               (<[sid := sqlite.mkRow now (sqlite.create_time r) (sqlite.val r)]>
                  (sqlite.rows db))
               true (sqlite.executed db ++ [sqlite.TouchReturning sid]))).
Proof.
  intros Hdb Hu Hr Hne Hdec.
  unfold sqlite.Provider_SessionRead, sqlite.db_Exec, sqlite.setFromDb.
  rewrite Hdb, Hu, Hr. cbn. rewrite Hr.
  destruct (sqlite.val r) as [|x l] eqn:Hval; [done |]. cbn.
  by rewrite Hdec.
Qed.

(** X11.  What [Put] writes, [SessionRead] reads back.  On a usable
    database that has the session's row, [Put] of a value that differs from
    the stored one returns nil, and a [SessionRead] of the id that follows
    returns a clean handle with the same map, the row's creation time and
    the time of the read as access time, provided the codec decodes what it
    encoded (and encodes to a column that is not empty). *)
Theorem sqlite_Put_SessionRead `{Gob} (st : sqlite.SessionStore)
  (pder : sqlite.Provider) (db : sqlite.DB) (r : sqlite.Row) (now now' : Time)
  (key : string) (val : interface) (b : bytes) :
  sqlite.dbConn pder = Some db ->
  sqlite.usable db = true ->
  sqlite.rows db !! sqlite.sid st = Some r ->
  DeepEqual (sqlite.index (sqlite.value st) key) val = false ->
  gob_EncodeMap (<[key := val]> (sqlite.value st)) = Ok b ->
  b <> [] ->
  gob_DecodeMap b = Ok (<[key := val]> (sqlite.value st)) ->
  exists (st' : sqlite.SessionStore) (pder' pder'' : sqlite.Provider),
    sqlite.SessionStore_Put st now key val pder = Some (None, st', pder') /\
    sqlite.value st' = <[key := val]> (sqlite.value st) /\
    sqlite.valueModified st' = false /\
    sqlite.Provider_SessionRead pder' now' (sqlite.sid st) =
      Some (Ok (sqlite.mkSessionStore (sqlite.sid st) now' (sqlite.create_time r)
                  (<[key := val]> (sqlite.value st)) false),
            pder'').
Proof.
  intros Hdb Hu Hr Hd Henc Hne Hdec.
  unfold sqlite.SessionStore_Put. rewrite (sqlite_Set_changed st now key val Hd).
  erewrite sqlite_Flush_dirty;
    [| reflexivity | unfold sqlite.getForDb; cbn; by rewrite Henc | exact Hdb | exact Hu].
  eexists _, _, _. split; [reflexivity |]. split; [reflexivity |].
  split; [reflexivity |]. cbn [sqlite.sid].
  erewrite (sqlite_SessionRead_row _ _ (sqlite.mkRow now (sqlite.create_time r) b)
              now' (sqlite.sid st) (<[key := val]> (sqlite.value st)));
    [reflexivity | reflexivity | reflexivity
     | cbn; rewrite Hr; apply lookup_insert_eq | cbn; exact Hne | cbn; exact Hdec].
Qed.

Lemma sqlite_Put_SessionRead_witness :
  exists (st' : sqlite.SessionStore) (pder' pder'' : sqlite.Provider),
    sqlite.SessionStore_Put (H := fixture.flag_gob)
      (sqlite.NewSessionStore fixture.noon "s1") fixture.noon "k" (VBool true)
      (fixture.sqlite_pder_s1 []) = Some (None, st', pder') /\
    sqlite.value st' = {[ "k"%string := VBool true ]} /\
    sqlite.valueModified st' = false /\
    sqlite.Provider_SessionRead (H := fixture.flag_gob) pder' fixture.later "s1" =
      Some (Ok (sqlite.mkSessionStore "s1" fixture.later fixture.noon
                  {[ "k"%string := VBool true ]} false),
            pder'').
Proof.
  apply (sqlite_Put_SessionRead (H := fixture.flag_gob)
           (sqlite.NewSessionStore fixture.noon "s1") (fixture.sqlite_pder_s1 [])
           (sqlite.mkDB {[ "s1"%string := sqlite.mkRow fixture.noon fixture.noon [] ]}
              true [])
           (sqlite.mkRow fixture.noon fixture.noon []) fixture.noon fixture.later
           "k" (VBool true) [Byte.x01; Byte.x01]);
    try reflexivity.
  discriminate.
Defined.

(** X12.  A [Delete] is not persisted.  On a clean handle whose map is the
    one the session's row holds, [Delete] of a stored key takes the key out
    of the map in memory, the [Flush] that follows returns nil without
    touching the database, and a later [SessionRead] of the id returns a
    handle that holds the key with its old value again. *)
Theorem sqlite_Delete_not_persisted `{Gob} (st : sqlite.SessionStore)
  (pder : sqlite.Provider) (db : sqlite.DB) (r : sqlite.Row) (now now' now'' : Time)
  (key : string) (v : interface) :
  sqlite.dbConn pder = Some db ->
  sqlite.usable db = true ->
  sqlite.rows db !! sqlite.sid st = Some r ->
  sqlite.val r <> [] ->
  gob_DecodeMap (sqlite.val r) = Ok (sqlite.value st) ->
  sqlite.valueModified st = false ->
  sqlite.value st !! key = Some v ->
  let st1 := (sqlite.SessionStore_Delete st now key).2 in
  sqlite.value st1 !! key = None /\
  sqlite.SessionStore_Flush st1 now' pder = Some (None, st1, pder) /\
  exists (st2 : sqlite.SessionStore) (pder2 : sqlite.Provider),
    sqlite.Provider_SessionRead pder now'' (sqlite.sid st) = Some (Ok st2, pder2) /\
    sqlite.value st2 !! key = Some v.
Proof.
  intros Hdb Hu Hr Hne Hdec Hm Hk st1.
  destruct (Flush_after_Delete_sends_nothing st now now' key pder Hm) as [Hgone Hflush].
  split; [exact Hgone |]. split; [exact Hflush |].
  rewrite (sqlite_SessionRead_row pder db r now'' (sqlite.sid st) (sqlite.value st)
             Hdb Hu Hr Hne Hdec).
  eexists _, _. split; [reflexivity | exact Hk].
Qed.

Lemma sqlite_Delete_not_persisted_witness :
  let st := sqlite.mkSessionStore "s1" fixture.noon fixture.noon
              {[ "k"%string := VBool true ]} false in
  let st1 := (sqlite.SessionStore_Delete st fixture.later "k").2 in
  sqlite.value st1 !! "k"%string = None /\
  sqlite.SessionStore_Flush (H := fixture.flag_gob) st1 fixture.later
    (fixture.sqlite_pder_s1 [Byte.x01; Byte.x01])
    = Some (None, st1, fixture.sqlite_pder_s1 [Byte.x01; Byte.x01]) /\
  exists (st2 : sqlite.SessionStore) (pder2 : sqlite.Provider),
    sqlite.Provider_SessionRead (H := fixture.flag_gob)
      (fixture.sqlite_pder_s1 [Byte.x01; Byte.x01]) fixture.later "s1"
      = Some (Ok st2, pder2) /\
    sqlite.value st2 !! "k"%string = Some (VBool true).
Proof.
  apply (sqlite_Delete_not_persisted (H := fixture.flag_gob)
           (sqlite.mkSessionStore "s1" fixture.noon fixture.noon
              {[ "k"%string := VBool true ]} false)
           (fixture.sqlite_pder_s1 [Byte.x01; Byte.x01])
           (sqlite.mkDB {[ "s1"%string := fixture.flag_row ]} true [])
           fixture.flag_row fixture.later fixture.later fixture.later "k" (VBool true));
    try reflexivity.
  discriminate.
Defined.

(** X13.  What the operations of a sqlite handle leave alone.  None of
    them changes the id or the creation time.  The typed getters change
    neither the map nor the dirty flag.  [Set] and [Delete] leave every
    other key as it was, and [Delete] leaves the dirty flag as it was.
    [Flush], whatever it returns, keeps the map and the access time. *)
Theorem sqlite_handle_frame `{Gob} (st : sqlite.SessionStore) (now : Time)
  (key : string) (val : interface) (pder : sqlite.Provider) :
  (same_session st (sqlite.SessionStore_GetBool st now key).2 /\
   same_content st (sqlite.SessionStore_GetBool st now key).2) /\
  (same_session st (sqlite.SessionStore_GetString st now key).2 /\
   same_content st (sqlite.SessionStore_GetString st now key).2) /\
  (same_session st (sqlite.SessionStore_GetInt st now key).2 /\
   same_content st (sqlite.SessionStore_GetInt st now key).2) /\
  (same_session st (sqlite.SessionStore_GetFloat st now key).2 /\
   same_content st (sqlite.SessionStore_GetFloat st now key).2) /\
  (same_session st (sqlite_rest.SessionStore_GetDate st now key).2 /\
   same_content st (sqlite_rest.SessionStore_GetDate st now key).2) /\
  (same_session st (sqlite.SessionStore_Set st now key val).2 /\
   forall key', key' <> key ->
     sqlite.value (sqlite.SessionStore_Set st now key val).2 !! key'
       = sqlite.value st !! key') /\
  (same_session st (sqlite.SessionStore_Delete st now key).2 /\
   sqlite.valueModified (sqlite.SessionStore_Delete st now key).2
     = sqlite.valueModified st /\
   forall key', key' <> key ->
     sqlite.value (sqlite.SessionStore_Delete st now key).2 !! key'
       = sqlite.value st !! key') /\
  (forall err st' pder',
     sqlite.SessionStore_Flush st now pder = Some (err, st', pder') ->
     same_session st st' /\ sqlite.value st' = sqlite.value st /\
     sqlite.timeAccessed st' = sqlite.timeAccessed st).
Proof.
  unfold same_session, same_content.
  repeat match goal with |- _ /\ _ => split end;
    try (unfold sqlite.SessionStore_GetBool, sqlite.SessionStore_GetString,
           sqlite.SessionStore_GetInt, sqlite.SessionStore_GetFloat,
           sqlite_rest.SessionStore_GetDate;
         by destruct (sqlite.value st !! key) as [[]|]).
  - unfold sqlite.SessionStore_Set. by destruct (negb _).
  - unfold sqlite.SessionStore_Set. by destruct (negb _).
  - intros key' Hne. unfold sqlite.SessionStore_Set.
    destruct (negb _); cbn; [by apply lookup_insert_ne | done].
  - unfold sqlite.SessionStore_Delete. by destruct (sqlite.value st !! key).
  - unfold sqlite.SessionStore_Delete. by destruct (sqlite.value st !! key).
  - unfold sqlite.SessionStore_Delete. by destruct (sqlite.value st !! key).
  - intros key' Hne. unfold sqlite.SessionStore_Delete.
    destruct (sqlite.value st !! key); cbn; [by apply lookup_delete_ne | done].
  - intros err st' pder'. unfold sqlite.SessionStore_Flush.
    destruct (sqlite.valueModified st); [| by intros [= <- <- <-]].
    destruct (sqlite.getForDb (sqlite.value st)); [| by intros [= <- <- <-]].
    destruct (sqlite.ExecContext pder now _) as [[[e|] p]|];
      [by intros [= <- <- <-] | by intros [= <- <- <-] | discriminate].
Qed.

Lemma sqlite_handle_frame_witness :
  exists (st' : sqlite.SessionStore) (pder' : sqlite.Provider),
    sqlite.SessionStore_Flush (H := fixture.gob)
      (sqlite.SessionStore_Set fixture.sqlite_store fixture.later "k" (VInt64 2)).2
      fixture.later (fixture.sqlite_pder 0 0) = Some (None, st', pder') /\
    sqlite.sid st' = "s1"%string /\ sqlite.timeCreated st' = fixture.noon /\
    sqlite.timeAccessed st' = fixture.later.
Proof.
  eexists _, _. split; [reflexivity |].
  pose proof (sqlite_handle_frame (H := fixture.gob)
                (sqlite.SessionStore_Set fixture.sqlite_store fixture.later "k"
                   (VInt64 2)).2
                fixture.later "k" (VInt64 2) (fixture.sqlite_pder 0 0))
    as (_ & _ & _ & _ & _ & _ & _ & Hflush).
  destruct (Hflush _ _ _ eq_refl) as ((Hsid & Hcreated) & _ & Haccessed).
  split; [exact Hsid |]. split; [exact Hcreated | exact Haccessed].
Defined.

Lemma DeepEqual_plain (x v : interface) :
  plain_value v = true -> DeepEqual x v = true -> x = v.
Proof.
  intros Hp Hd.
  destruct v as [|b|s|bs|n|n|n|f|f|t|ty fs]; try discriminate;
    destruct x as [|b'|s'|bs'|n'|n'|n'|f'|f'|t'|ty' fs']; cbn in Hd;
    try discriminate; try (by destruct bs' as [?|]).
  - by apply Bool.eqb_prop in Hd as ->.
  - by apply String.eqb_eq in Hd as ->.
  - destruct bs' as [a|], bs as [a'|]; try discriminate; [| done].
    unfold bytes_eqb in Hd. by apply bool_decide_eq_true in Hd as ->.
  - by apply Z.eqb_eq in Hd as ->.
  - by apply Z.eqb_eq in Hd as ->.
  - by apply Z.eqb_eq in Hd as ->.
  - by apply bool_decide_eq_true in Hd as ->.
Qed.

Lemma sqlite_Set_stored (st : sqlite.SessionStore) (now : Time) (key : string)
  (val : interface) :
  plain_value val = true ->
  sqlite.value (sqlite.SessionStore_Set st now key val).2 !! key = Some val.
Proof.
  intros Hp. unfold sqlite.SessionStore_Set.
  destruct (DeepEqual (sqlite.index (sqlite.value st) key) val) eqn:Hd; cbn.
  - apply (DeepEqual_plain _ _ Hp) in Hd. unfold sqlite.index in Hd.
    destruct (sqlite.value st !! key); subst; [done | discriminate].
  - apply lookup_insert_eq.
Qed.

(** X14.  On a sqlite handle a getter reads back what [Set] was given, for
    every state of the handle before: a [bool] through [GetBool], a
    [string] or [[]byte] through [GetString], an [int64] or [int] through
    [GetInt], a [time.Time] through [GetDate], and each of them through
    [Get] with a pointer to its type or to an [interface{}].  Floats are
    the exception: [Set] of a float that [==] the stored one is skipped, so
    the stored one is read (the zero of the other sign, say). *)
Theorem sqlite_Set_then_get (st : sqlite.SessionStore) (now now' : Time) (key : string) :
  (forall b,
     (sqlite.SessionStore_GetBool (sqlite.SessionStore_Set st now key (VBool b)).2
        now' key).1 = b) /\
  (forall s,
     (sqlite.SessionStore_GetString (sqlite.SessionStore_Set st now key (VString s)).2
        now' key).1 = s) /\
  (forall bs,
     (sqlite.SessionStore_GetString (sqlite.SessionStore_Set st now key (VBytes bs)).2
        now' key).1 = sqlite.string_of_bytes bs) /\
  (forall n,
     (sqlite.SessionStore_GetInt (sqlite.SessionStore_Set st now key (VInt64 n)).2
        now' key).1 = n) /\
  (forall n,
     (sqlite.SessionStore_GetInt (sqlite.SessionStore_Set st now key (VInt n)).2
        now' key).1 = n) /\
  (forall t,
     (sqlite_rest.SessionStore_GetDate (sqlite.SessionStore_Set st now key (VTime t)).2
        now' key).1 = t) /\
  (forall val, plain_value val = true ->
     sqlite_rest.SessionStore_Get (sqlite.SessionStore_Set st now key val).2 key
       (sqlite_rest.TargetPtr (TypeOf val)) = Some (Ok val) /\
     sqlite_rest.SessionStore_Get (sqlite.SessionStore_Set st now key val).2 key
       sqlite_rest.TargetPtrAny = Some (Ok val)) /\
  (forall f f', sqlite.value st !! key = Some (VFloat64 f') ->
     PrimFloat.eqb f' f = true ->
     (sqlite.SessionStore_GetFloat (sqlite.SessionStore_Set st now key (VFloat64 f)).2
        now' key).1 = f').
Proof.
  repeat match goal with |- _ /\ _ => split end.
  - intros b. unfold sqlite.SessionStore_GetBool.
    by rewrite (sqlite_Set_stored st now key (VBool b)).
  - intros s. unfold sqlite.SessionStore_GetString.
    by rewrite (sqlite_Set_stored st now key (VString s)).
  - intros bs. unfold sqlite.SessionStore_GetString.
    by rewrite (sqlite_Set_stored st now key (VBytes bs)).
  - intros n. unfold sqlite.SessionStore_GetInt.
    by rewrite (sqlite_Set_stored st now key (VInt64 n)).
  - intros n. unfold sqlite.SessionStore_GetInt.
    by rewrite (sqlite_Set_stored st now key (VInt n)).
  - intros t. unfold sqlite_rest.SessionStore_GetDate.
    by rewrite (sqlite_Set_stored st now key (VTime t)).
  - intros val Hp. unfold sqlite_rest.SessionStore_Get.
    rewrite (sqlite_Set_stored st now key val Hp).
    destruct val; try discriminate; cbn; by rewrite ?bool_decide_eq_true_2.
  - intros f f' Hk Heq. unfold sqlite.SessionStore_Set, sqlite.index.
    rewrite Hk. cbn. rewrite Heq. cbn. unfold sqlite.SessionStore_GetFloat.
    by rewrite Hk.
Qed.

Lemma sqlite_Set_then_get_witness :
  let st := sqlite.mkSessionStore "s1" fixture.noon fixture.noon
              {[ "k"%string := VFloat64 (-0)%float ]} false in
  sqlite_rest.SessionStore_Get (sqlite.SessionStore_Set st fixture.later "k" (VInt64 7)).2
    "k" (sqlite_rest.TargetPtr TInt64) = Some (Ok (VInt64 7)) /\
  (sqlite.SessionStore_GetFloat (sqlite.SessionStore_Set st fixture.later "k"
                                   (VFloat64 0%float)).2 fixture.later "k").1
    = (-0)%float.
Proof.
  intros st.
  pose proof (sqlite_Set_then_get st fixture.later fixture.later "k")
    as (_ & _ & _ & _ & _ & _ & Hget & Hfloat).
  split.
  - exact (proj1 (Hget (VInt64 7) eq_refl)).
  - exact (Hfloat 0%float (-0)%float eq_refl eq_refl).
Defined.

Lemma DeepEqual_nil (v : interface) :
  v <> VNil -> DeepEqual v VNil = false /\ DeepEqual VNil v = false.
Proof. intros Hnn. by destruct v as [| | |[?|]| | | | | | |]. Qed.



(** ** The sqlite provider: how a session comes to be *)

(** X16.  [SessionStart] with an id that the client supplies and that has
    no row creates the session under that very id.  On a usable sqlite
    database the manager makes one [SessionRead] call; the provider sends
    the access-time UPDATE, finds no row and falls through to
    [SessionInit]: an id of at most 36 bytes gets a row and a fresh handle,
    a longer one is refused with the id-length error and no INSERT is
    sent. *)
Theorem sqlite_SessionStart_unknown_id `{GoLib} `{Gob} `{sqlite.SqlLib}
  (w : session.World sqlite.Provider) (manager : session.Manager) (now : Time)
  (sid : string) (pder : sqlite.Provider) (db : sqlite.DB) :
  sid <> ""%string ->
  session.provides w !! session.provider manager = Some pder ->
  sqlite.dbConn pder = Some db ->
  sqlite.usable db = true ->
  sqlite.rows db !! sid = None ->
  let too_long := sqlite.SESS_ID_LEN <? Z.of_nat (String.length sid) in
  exists (w' : session.World sqlite.Provider) (pder' : sqlite.Provider) (db' : sqlite.DB),
    session.SessionStart (Provider0 := sqlite.sqlite_Provider) manager now sid w =
      Some (if too_long then Err id_length_error
            else Ok (sqlite.NewSessionStore now sid), w') /\
    session.trace w' =
      session.trace w ++
        [session.ECall (session.provider manager) (session.CallSessionRead sid)] /\
    session.provides w' !! session.provider manager = Some pder' /\
    sqlite.dbConn pder' = Some db' /\
    sqlite.rows db' =
      (if too_long then sqlite.rows db
       else <[sid := sqlite.mkRow now now []]> (sqlite.rows db)) /\
    sqlite.executed db' =
      sqlite.executed db ++
        sqlite.TouchReturning sid ::
        (if too_long then [] else [sqlite.InsertOrIgnore sid]).
Proof.
  intros Hsid Hp Hdb Hu Hrow too_long.
  unfold session.SessionStart. rewrite (eqb_empty_false sid Hsid).
  unfold_M. rewrite Hp. cbn.
  unfold sqlite.Provider_SessionRead, sqlite.db_Exec. rewrite Hdb, Hu, Hrow. cbn.
  rewrite Hrow. unfold sqlite.Provider_SessionInit, sqlite.db_Exec. cbn.
  fold too_long. destruct too_long; cbn.
  - eexists _, _, _. split; [reflexivity |]. split; [reflexivity |]. cbn.
    rewrite lookup_insert_eq. by repeat split.
  - rewrite Hrow. eexists _, _, _. split; [reflexivity |]. split; [reflexivity |].
    cbn. rewrite lookup_insert_eq. repeat split. by rewrite <- app_assoc.
Qed.

Lemma sqlite_SessionStart_unknown_id_witness :
  exists (w' : session.World sqlite.Provider) (pder' : sqlite.Provider) (db' : sqlite.DB),
    session.SessionStart (H := fixture.lib) (Provider0 := fixture.sqlite_Provider)
      fixture.sqlite_manager fixture.noon "chosen-by-the-client"
      (fixture.world "sqlite3" (fixture.sqlite_pder 0 0)) =
      Some (Ok (sqlite.NewSessionStore fixture.noon "chosen-by-the-client"), w') /\
    session.provides w' !! "sqlite3"%string = Some pder' /\
    sqlite.dbConn pder' = Some db' /\
    sqlite.rows db' !! "chosen-by-the-client"%string =
      Some (sqlite.mkRow fixture.noon fixture.noon []) /\
    sqlite.executed db' =
      [sqlite.TouchReturning "chosen-by-the-client";
       sqlite.InsertOrIgnore "chosen-by-the-client"].
Proof.
  destruct (sqlite_SessionStart_unknown_id (H := fixture.lib) (H0 := fixture.gob)
              (H1 := fixture.sql_lib)
              (fixture.world "sqlite3" (fixture.sqlite_pder 0 0)) fixture.sqlite_manager
              fixture.noon "chosen-by-the-client" (fixture.sqlite_pder 0 0)
              (sqlite.mkDB ∅ true []))
    as (w' & pder' & db' & Hrun & _ & Hp & Hdb & Hrows & Hex);
    [discriminate | reflexivity | reflexivity | reflexivity | reflexivity |].
  exists w', pder', db'. split; [exact Hrun |]. split; [exact Hp |].
  split; [exact Hdb |]. split; [| exact Hex].
  rewrite Hrows. reflexivity.
Defined.

(** X17.  [SessionInit] does not load what is stored.  For an id that has
    a row, the INSERT OR IGNORE leaves the table as it is, and the handle
    returned is empty, with the clock reading as creation time.  The first
    [Put] on that handle replaces the stored map by the map of the one key
    put; the row keeps its creation time. *)
Theorem sqlite_SessionInit_existing `{Gob} (pder : sqlite.Provider) (db : sqlite.DB)
  (r : sqlite.Row) (now now' : Time) (sid key : string) (val : interface) (b : bytes) :
  sqlite.dbConn pder = Some db ->
  sqlite.usable db = true ->
  sqlite.rows db !! sid = Some r ->
  Z.of_nat (String.length sid) <= sqlite.SESS_ID_LEN ->
  val <> VNil ->
  gob_EncodeMap {[ key := val ]} = Ok b ->
  exists (pder1 pder2 : sqlite.Provider) (db1 db2 : sqlite.DB) (st2 : sqlite.SessionStore),
    sqlite.Provider_SessionInit pder now sid = (Ok (sqlite.NewSessionStore now sid), pder1) /\
    sqlite.dbConn pder1 = Some db1 /\
    sqlite.rows db1 = sqlite.rows db /\
    sqlite.SessionStore_Put (sqlite.NewSessionStore now sid) now' key val pder1
      = Some (None, st2, pder2) /\
    sqlite.dbConn pder2 = Some db2 /\
    sqlite.rows db2 !! sid = Some (sqlite.mkRow now' (sqlite.create_time r) b).
Proof.
  intros Hdb Hu Hrow Hlen Hnn Henc.
  unfold sqlite.Provider_SessionInit, sqlite.db_Exec. rewrite Hdb, Hu.
  destruct (Z.ltb_spec sqlite.SESS_ID_LEN (Z.of_nat (String.length sid))); [lia |].
  cbn. rewrite Hrow.
  eexists _, _, _, _, _. split; [reflexivity |]. split; [reflexivity |].
  split; [reflexivity |].
  unfold sqlite.SessionStore_Put.
  rewrite sqlite_Set_changed
    by (unfold sqlite.index; cbn; rewrite lookup_empty; by apply DeepEqual_nil).
  erewrite sqlite_Flush_dirty;
    [| reflexivity
     | unfold sqlite.getForDb, sqlite.NewSessionStore; cbn [sqlite.value];
       by rewrite insert_empty, Henc
     | reflexivity | reflexivity].
  split; [reflexivity |]. split; [reflexivity |].
  cbn. rewrite Hrow. apply lookup_insert_eq.
Qed.

Lemma sqlite_SessionInit_existing_witness :
  exists (pder1 pder2 : sqlite.Provider) (db1 db2 : sqlite.DB) (st2 : sqlite.SessionStore),
    sqlite.Provider_SessionInit (fixture.sqlite_pder_s1 [Byte.x01; Byte.x01])
      fixture.later "s1" = (Ok (sqlite.NewSessionStore fixture.later "s1"), pder1) /\
    sqlite.dbConn pder1 = Some db1 /\
    sqlite.rows db1 = {[ "s1"%string := fixture.flag_row ]} /\
    sqlite.SessionStore_Put (H := fixture.flag_gob)
      (sqlite.NewSessionStore fixture.later "s1") fixture.later "other" (VBool true) pder1
      = Some (None, st2, pder2) /\
    sqlite.dbConn pder2 = Some db2 /\
    sqlite.rows db2 !! "s1"%string =
      Some (sqlite.mkRow fixture.later fixture.noon [Byte.x00]).
Proof.
  destruct (sqlite_SessionInit_existing (H := fixture.flag_gob)
              (fixture.sqlite_pder_s1 [Byte.x01; Byte.x01])
              (sqlite.mkDB {[ "s1"%string := fixture.flag_row ]} true [])
              fixture.flag_row fixture.later fixture.later "s1" "other" (VBool true)
              [Byte.x00])
    as (pder1 & pder2 & db1 & db2 & st2 & Hinit & Hdb1 & Hrows1 & Hput & Hdb2 & Hrows2);
    [reflexivity | reflexivity | reflexivity | unfold sqlite.SESS_ID_LEN; cbn; lia
     | discriminate | reflexivity |].
  exists pder1, pder2, db1, db2, st2.
  split; [exact Hinit |]. split; [exact Hdb1 |]. split; [exact Hrows1 |].
  split; [exact Hput |]. split; [exact Hdb2 | exact Hrows2].
Defined.

(** ** The redis provider: keys and values *)

Lemma string_app_inv_head (a b b' : string) : a +:+ b = a +:+ b' -> b = b'.
Proof. intros Heq. by apply string_app_inj in Heq as [_ ?]. Qed.

Lemma getPrefixedKey_inj_key (pder : redis.Provider) (sid key key' : string) :
  redis.getPrefixedKey pder sid key = redis.getPrefixedKey pder sid key' -> key = key'.
Proof.
  unfold redis.getPrefixedKey. intros Heq.
  by do 4 apply string_app_inv_head in Heq.
Qed.

Lemma colon_split (a a' k k' : string) :
  colon_free a = true -> colon_free a' = true ->
  a +:+ ":" +:+ k = a' +:+ ":" +:+ k' -> a = a' /\ k = k'.
Proof.
  change (":" +:+ k) with (String ":" k). change (":" +:+ k') with (String ":" k').
  revert a'. induction a as [|c a IH]; intros [|c' a'] Ha Ha' Heq; simpl in *.
  - by injection Heq as ->.
  - injection Heq as <- _. discriminate.
  - injection Heq as -> _. discriminate.
  - injection Heq as -> Heq.
    apply andb_true_iff in Ha as [_ Ha]. apply andb_true_iff in Ha' as [_ Ha'].
    by destruct (IH a' Ha Ha' Heq) as [-> ->].
Qed.

Lemma colon_free_app (a b : string) :
  colon_free a = true -> colon_free b = true -> colon_free (a +:+ b) = true.
Proof.
  intros Ha Hb. induction a as [|c a IH]; simpl in *; [done |].
  apply andb_true_iff in Ha as [Hc Ha]. apply andb_true_iff.
  split; [exact Hc | by apply IH].
Qed.

Lemma fmt_x_colon_free (b : bytes) : colon_free (fmt_x b) = true.
Proof. induction b as [|c b IH]; [done |]. destruct c; exact IH. Qed.

Lemma Sprintf_id_colon_free (b : bytes) : colon_free (session.Sprintf_id b) = true.
Proof.
  unfold session.Sprintf_id.
  repeat (apply colon_free_app; [first [apply fmt_x_colon_free | reflexivity] |]).
  apply fmt_x_colon_free.
Qed.

Lemma with_client_id (pder : redis.Provider) (c : redis.Client) :
  redis.client pder = Some c -> redis.with_client pder c = pder.
Proof. destruct pder; cbn; by intros ->. Qed.

Lemma redis_setValue_online `{Gob} (pder : redis.Provider) (c : redis.Client)
  (sid key : string) (val : interface) (b : bytes) :
  redis.client pder = Some c ->
  redis.online c = true ->
  gob_Encode val = Ok b ->
  redis.setValue pder sid key val =
    Some (None,
          redis.with_client pder
            (redis.mkClient (<[redis.getPrefixedKey pder sid key := b]> (redis.kv c)) true
               (redis.cmds c ++
                  [redis.CmdSet (redis.getPrefixedKey pder sid key) b
                     (seconds_to_Duration (redis.maxLifeTime pder))]))).
Proof.
  intros Hc Hon Hb. unfold redis.setValue, redis.client_Set. by rewrite Hb, Hc, Hon.
Qed.

(** The access-time update on a server that answers: the keys other than
    the session's [time_accessed] stay, and that one holds the encoded
    clock reading when the reading encodes. *)
Lemma redis_sessionAccessed_online `{Gob} (pder : redis.Provider) (c : redis.Client)
  (now : Time) (sid : string) :
  redis.client pder = Some c ->
  redis.online c = true ->
  exists (err : option error) (c' : redis.Client),
    redis.sessionAccessed pder now sid = Some (err, redis.with_client pder c') /\
    redis.online c' = true /\
    redis.kv c' =
      match gob_Encode (VTime now) with
      | Ok b => <[redis.getPrefixedKey pder sid "time_accessed" := b]> (redis.kv c)
      | Err _ => redis.kv c
      end.
Proof.
  intros Hc Hon. unfold redis.sessionAccessed.
  destruct (gob_Encode (VTime now)) as [b|e] eqn:Hb.
  - rewrite (redis_setValue_online pder c sid "time_accessed" (VTime now) b Hc Hon Hb).
    by eexists _, _.
  - unfold redis.setValue. rewrite Hb. exists (Some e), c.
    by rewrite (with_client_id pder c Hc).
Qed.

Lemma redis_getValue_stored `{Gob} (pder : redis.Provider) (c : redis.Client)
  (now : Time) (sid key : string) (t : gotype) (raw : bytes) (v : interface) :
  redis.client pder = Some c ->
  redis.online c = true ->
  redis.kv c !! redis.getPrefixedKey pder sid key = Some raw ->
  raw <> [] ->
  gob_Decode raw t = Ok v ->
  exists c' : redis.Client,
    redis.getValue pder now sid key t = Some (Ok v, redis.with_client pder c') /\
    redis.online c' = true /\
    redis.kv c' =
      match gob_Encode (VTime now) with
      | Ok b => <[redis.getPrefixedKey pder sid "time_accessed" := b]> (redis.kv c)
      | Err _ => redis.kv c
      end.
Proof.
  intros Hc Hon Hkv Hne Hdec.
  unfold redis.getValue, redis.getValueForKey, redis.client_Get.
  rewrite Hc, Hon, Hkv. destruct raw as [|x raw]; [done |]. cbn [length Nat.eqb].
  rewrite Hdec.
  destruct (redis_sessionAccessed_online
              (redis.with_client pder
                 (redis.mkClient (redis.kv c) true
                    (redis.cmds c ++ [redis.CmdGet (redis.getPrefixedKey pder sid key)])))
              _ now sid eq_refl eq_refl)
    as (err & c' & Hacc & Hon' & Hkv').
  rewrite Hacc. by exists c'.
Qed.

Lemma redis_getValue_missing `{Gob} (pder : redis.Provider) (c : redis.Client)
  (now : Time) (sid key : string) (t : gotype) :
  redis.client pder = Some c ->
  redis.online c = true ->
  redis.kv c !! redis.getPrefixedKey pder sid key = None ->
  redis.getValue pder now sid key t =
    Some (Err (EExternal "redis: nil"),
          redis.with_client pder
            (redis.mkClient (redis.kv c) true
               (redis.cmds c ++ [redis.CmdGet (redis.getPrefixedKey pder sid key)]))).
Proof.
  intros Hc Hon Hkv.
  unfold redis.getValue, redis.getValueForKey, redis.client_Get.
  by rewrite Hc, Hon, Hkv.
Qed.

(** X18.  On the redis handle a value that [Set] wrote is what the getters
    read.  With a server that answers and a codec that decodes what it
    encoded (to a value of at least one byte), [Set] returns nil, [Get]
    into a variable of the value's type then returns the value, and each
    typed getter for that type returns it. *)
Theorem redis_Set_then_Get `{Gob} (st : redis.SessionStore) (pder : redis.Provider)
  (c : redis.Client) (now : Time) (key : string) (val : interface) (b : bytes)
  (t : gotype) :
  redis.client pder = Some c ->
  redis.online c = true ->
  gob_Encode val = Ok b ->
  b <> [] ->
  gob_Decode b t = Ok val ->
  exists pder1 pder2 : redis.Provider,
    redis.SessionStore_Set st key val pder = Some (None, pder1) /\
    redis.SessionStore_Get st now key t pder1 = Some (Ok val, pder2) /\
    (forall x, val = VBool x -> t = TBool ->
       redis.SessionStore_GetBool st now key pder1 = Some (x, pder2)) /\
    (forall x, val = VString x -> t = TString ->
       redis.SessionStore_GetString st now key pder1 = Some (x, pder2)) /\
    (forall x, val = VInt64 x -> t = TInt64 ->
       redis.SessionStore_GetInt st now key pder1 = Some (x, pder2)) /\
    (forall x, val = VFloat64 x -> t = TFloat64 ->
       redis.SessionStore_GetFloat st now key pder1 = Some (x, pder2)) /\
    (forall x, val = VTime x -> t = TTime ->
       redis_rest.SessionStore_GetDate st now key pder1 = Some (x, pder2)).
Proof.
  intros Hc Hon Hb Hne Hdec.
  unfold redis.SessionStore_Set.
  rewrite (redis_setValue_online pder c (redis.sid st) key val b Hc Hon Hb).
  destruct (redis_getValue_stored
              (redis.with_client pder
                 (redis.mkClient
                    (<[redis.getPrefixedKey pder (redis.sid st) key := b]> (redis.kv c))
                    true
                    (redis.cmds c ++
                       [redis.CmdSet (redis.getPrefixedKey pder (redis.sid st) key) b
                          (seconds_to_Duration (redis.maxLifeTime pder))])))
              _ now (redis.sid st) key t b val eq_refl eq_refl
              (lookup_insert_eq _ _ _) Hne Hdec)
    as (c' & Hget & _).
  eexists _, _. split; [reflexivity |].
  unfold redis.SessionStore_Get, redis.SessionStore_GetBool,
    redis.SessionStore_GetString, redis.SessionStore_GetInt,
    redis.SessionStore_GetFloat, redis_rest.SessionStore_GetDate.
  split; [by rewrite Hget |].
  repeat split; intros x -> ->; by rewrite Hget.
Qed.

Lemma redis_Set_then_Get_witness :
  exists pder1 pder2 : redis.Provider,
    redis.SessionStore_Set (H := fixture.gob) fixture.redis_store "k" (VBool true)
      (fixture.redis_pder 0 0) = Some (None, pder1) /\
    redis.SessionStore_GetBool (H := fixture.gob) fixture.redis_store fixture.later "k"
      pder1 = Some (true, pder2).
Proof.
  destruct (redis_Set_then_Get (H := fixture.gob) fixture.redis_store
              (fixture.redis_pder 0 0) (redis.mkClient ∅ true []) fixture.later "k"
              (VBool true) [Byte.x03; Byte.x01] TBool)
    as (pder1 & pder2 & Hset & _ & Hbool & _);
    [reflexivity | reflexivity | reflexivity | discriminate | reflexivity |].
  exists pder1, pder2. split; [exact Hset |]. exact (Hbool true eq_refl eq_refl).
Defined.

(** X19.  [Delete] on the redis handle returns nil whatever the server
    does.  When the server answers, a key other than [time_accessed] is
    gone afterwards: [Get] returns the error of a missing key.  When the
    server does not answer, the keys are as they were and nil is returned
    all the same. *)
Theorem redis_Delete_then_Get `{Gob} (st : redis.SessionStore) (pder : redis.Provider)
  (c : redis.Client) (now : Time) (key : string) :
  redis.client pder = Some c ->
  exists (pder1 : redis.Provider) (c1 : redis.Client),
    redis.SessionStore_Delete st now key pder = Some (None, pder1) /\
    redis.client pder1 = Some c1 /\
    (redis.online c = true -> key <> "time_accessed"%string ->
     forall now' t, exists pder2 : redis.Provider,
       redis.SessionStore_Get st now' key t pder1
         = Some (Err (EExternal "redis: nil"), pder2)) /\
    (redis.online c = false -> redis.kv c1 = redis.kv c).
Proof.
  intros Hc. unfold redis.SessionStore_Delete, redis.client_Del. rewrite Hc.
  destruct (redis.online c) eqn:Hon.
  - destruct (redis_sessionAccessed_online
                (redis.with_client pder
                   (redis.mkClient
                      (delete (redis.getPrefixedKey pder (redis.sid st) key) (redis.kv c))
                      true
                      (redis.cmds c ++
                         [redis.CmdDel (redis.getPrefixedKey pder (redis.sid st) key)])))
                _ now (redis.sid st) eq_refl eq_refl)
      as (err & c1 & Hacc & Hon1 & Hkv1).
    rewrite Hacc. exists (redis.with_client pder c1), c1.
    split; [reflexivity |]. split; [reflexivity |].
    split; [| discriminate]. intros _ Hkey now' t.
    eexists. unfold redis.SessionStore_Get.
    rewrite (redis_getValue_missing (redis.with_client pder c1) c1 now' (redis.sid st)
               key t eq_refl Hon1);
      [reflexivity |].
    rewrite Hkv1. cbn [redis.kv].
    change (redis.getPrefixedKey (redis.with_client pder ?x)) with (redis.getPrefixedKey pder).
    destruct (gob_Encode (VTime now)).
    + rewrite lookup_insert_ne; [apply lookup_delete_eq |].
      intros Heq. by apply getPrefixedKey_inj_key in Heq.
    + apply lookup_delete_eq.
  - unfold redis.sessionAccessed, redis.setValue, redis.client_Set.
    destruct (gob_Encode (VTime now)); cbn; rewrite ?Hon;
      eexists _, _; (split; [reflexivity |]); (split; [reflexivity |]);
      (split; [discriminate | done]).
Qed.

Lemma redis_Delete_then_Get_witness :
  exists pder0 pder1 pder2 : redis.Provider,
    redis.SessionStore_Set (H := fixture.gob) fixture.redis_store "k" (VBool true)
      (fixture.redis_pder 0 0) = Some (None, pder0) /\
    redis.SessionStore_Delete (H := fixture.gob) fixture.redis_store fixture.noon "k" pder0
      = Some (None, pder1) /\
    redis.SessionStore_Get (H := fixture.gob) fixture.redis_store fixture.later "k" TBool
      pder1 = Some (Err (EExternal "redis: nil"), pder2).
Proof.
  eexists _. 
  destruct (redis_Delete_then_Get (H := fixture.gob) fixture.redis_store
              (redis.with_client (fixture.redis_pder 0 0)
                 (redis.mkClient {[ "sess:s1:k"%string := [Byte.x03; Byte.x01] ]} true
                    [redis.CmdSet "sess:s1:k" [Byte.x03; Byte.x01] 0]))
              (redis.mkClient {[ "sess:s1:k"%string := [Byte.x03; Byte.x01] ]} true
                 [redis.CmdSet "sess:s1:k" [Byte.x03; Byte.x01] 0])
              fixture.noon "k" eq_refl)
    as (pder1 & c1 & Hdel & _ & Hget & _).
  destruct (Hget eq_refl ltac:(discriminate) fixture.later TBool) as (pder2 & Hget2).
  exists pder1, pder2. split; [reflexivity |]. split; [exact Hdel | exact Hget2].
Defined.

(** X20.  The times of a redis session.  Reading the access time is itself
    an access: after a [Flush] at one clock reading, [TimeAccessed] at a
    second one returns the first and records the second, which the next
    [TimeAccessed] returns.  No function of the provider writes the key
    [time_created]: unless the server holds it, [TimeCreated] returns the
    zero time.  (The codec is taken to decode the clock readings it
    encoded, and the server to answer.) *)
Theorem redis_access_times `{Gob} (st : redis.SessionStore) (pder : redis.Provider)
  (c : redis.Client) (now1 now2 now3 : Time) (b1 b2 : bytes) :
  redis.client pder = Some c ->
  redis.online c = true ->
  redis.kv c !! redis.getPrefixedKey pder (redis.sid st) "time_created" = None ->
  gob_Encode (VTime now1) = Ok b1 -> b1 <> [] -> gob_Decode b1 TTime = Ok (VTime now1) ->
  gob_Encode (VTime now2) = Ok b2 -> b2 <> [] -> gob_Decode b2 TTime = Ok (VTime now2) ->
  exists pder1 pder2 pder3 pder4 : redis.Provider,
    redis.SessionStore_Flush st now1 pder = Some (None, pder1) /\
    redis_rest.SessionStore_TimeAccessed st now2 pder1 = Some (now1, pder2) /\
    redis_rest.SessionStore_TimeCreated st now3 pder2 = Some (zero_Time, pder3) /\
    redis_rest.SessionStore_TimeAccessed st now3 pder3 = Some (now2, pder4).
Proof.
  intros Hc Hon Hcreated Hb1 Hne1 Hdec1 Hb2 Hne2 Hdec2.
  unfold redis.SessionStore_Flush, redis.sessionAccessed.
  rewrite (redis_setValue_online pder c (redis.sid st) "time_accessed" (VTime now1) b1
             Hc Hon Hb1).
  set (ta := redis.getPrefixedKey pder (redis.sid st) "time_accessed").
  set (c1 := redis.mkClient (<[ta := b1]> (redis.kv c)) true _).
  unfold redis_rest.SessionStore_TimeAccessed, redis_rest.SessionStore_TimeCreated,
    redis_rest.SessionStore_GetDate.
  destruct (redis_getValue_stored (redis.with_client pder c1) c1 now2 (redis.sid st)
              "time_accessed" TTime b1 (VTime now1) eq_refl eq_refl
              (lookup_insert_eq _ _ _) Hne1 Hdec1)
    as (c2 & Hget2 & Hon2 & Hkv2).
  rewrite Hb2 in Hkv2.
  change (redis.getPrefixedKey (redis.with_client pder c1)) with (redis.getPrefixedKey pder)
    in Hkv2.
  fold ta in Hkv2. cbn [redis.kv c1] in Hkv2.
  assert (Hne : ta <> redis.getPrefixedKey pder (redis.sid st) "time_created").
  { intros Heq. by apply getPrefixedKey_inj_key in Heq. }
  assert (Hmiss : redis.kv c2 !! redis.getPrefixedKey pder (redis.sid st) "time_created"
                  = None).
  { rewrite Hkv2. subst c1. cbn [redis.kv]. by rewrite !lookup_insert_ne. }
  pose proof (redis_getValue_missing (redis.with_client pder c2) c2 now3 (redis.sid st)
                "time_created" TTime eq_refl Hon2 Hmiss) as Hget3.
  set (c3 := redis.mkClient (redis.kv c2) true _) in Hget3.
  assert (Hta : redis.kv c3 !! ta = Some b2).
  { subst c3. cbn [redis.kv]. rewrite Hkv2. apply lookup_insert_eq. }
  destruct (redis_getValue_stored (redis.with_client pder c3) c3 now3 (redis.sid st)
              "time_accessed" TTime b2 (VTime now2) eq_refl eq_refl Hta Hne2 Hdec2)
    as (c4 & Hget4 & _).
  exists (redis.with_client pder c1), (redis.with_client pder c2),
    (redis.with_client pder c3), (redis.with_client pder c4).
  split; [reflexivity |].
  split; [by rewrite Hget2 |].
  split; [by rewrite Hget3 |].
  by rewrite Hget4.
Qed.

Lemma redis_access_times_witness :
  exists pder1 pder2 pder3 pder4 : redis.Provider,
    redis.SessionStore_Flush (H := fixture.flag_gob) fixture.redis_store fixture.noon
      (fixture.redis_pder 0 0) = Some (None, pder1) /\
    redis_rest.SessionStore_TimeAccessed (H := fixture.flag_gob) fixture.redis_store
      fixture.later pder1 = Some (fixture.noon, pder2) /\
    redis_rest.SessionStore_TimeCreated (H := fixture.flag_gob) fixture.redis_store
      fixture.later pder2 = Some (zero_Time, pder3) /\
    redis_rest.SessionStore_TimeAccessed (H := fixture.flag_gob) fixture.redis_store
      fixture.later pder3 = Some (fixture.later, pder4).
Proof.
  apply (redis_access_times (H := fixture.flag_gob) fixture.redis_store
           (fixture.redis_pder 0 0) (redis.mkClient ∅ true []) fixture.noon fixture.later
           fixture.later
           (Byte.x0a :: fixture.bytes_of_sec (sec fixture.noon))
           (Byte.x0a :: fixture.bytes_of_sec (sec fixture.later)));
    try reflexivity; discriminate.
Defined.

(** X21.  The redis keys of different sessions are apart as long as the
    ids hold no colon, which the generated ids never do: the prefixed key
    then determines the id and the key, and [Set] on one session leaves
    every key of another session on the server as it was.  With a colon in
    an id the keys of two sessions can coincide. *)
Theorem redis_sessions_apart `{GoLib} `{Gob} (pder : redis.Provider) :
  (forall sid sid' key key', colon_free sid = true -> colon_free sid' = true ->
     redis.getPrefixedKey pder sid key = redis.getPrefixedKey pder sid' key' ->
     sid = sid' /\ key = key') /\
  (forall now, colon_free (session.genSessionID now) = true) /\
  (forall (st st' : redis.SessionStore) (c : redis.Client) key val b key',
     redis.client pder = Some c -> redis.online c = true -> gob_Encode val = Ok b ->
     colon_free (redis.sid st) = true -> colon_free (redis.sid st') = true ->
     redis.sid st <> redis.sid st' ->
     exists c1 : redis.Client,
       redis.SessionStore_Set st key val pder = Some (None, redis.with_client pder c1) /\
       redis.kv c1 !! redis.getPrefixedKey pder (redis.sid st') key'
         = redis.kv c !! redis.getPrefixedKey pder (redis.sid st') key') /\
  redis.getPrefixedKey pder "a:b" "c" = redis.getPrefixedKey pder "a" "b:c".
Proof.
  assert (Hinj : forall sid sid' key key', colon_free sid = true -> colon_free sid' = true ->
            redis.getPrefixedKey pder sid key = redis.getPrefixedKey pder sid' key' ->
            sid = sid' /\ key = key').
  { intros sid sid' key key' Hs Hs'. unfold redis.getPrefixedKey. intros Heq.
    do 2 apply string_app_inv_head in Heq. by apply colon_split. }
  split; [exact Hinj |]. split; [| split].
  - intros now. rewrite genSessionID_Sprintf. apply Sprintf_id_colon_free.
  - intros st st' c key val b key' Hc Hon Hb Hs Hs' Hne.
    unfold redis.SessionStore_Set.
    rewrite (redis_setValue_online pder c (redis.sid st) key val b Hc Hon Hb).
    eexists. split; [reflexivity |]. cbn [redis.kv].
    apply lookup_insert_ne. intros Heq. by destruct (Hinj _ _ _ _ Hs Hs' Heq).
  - unfold redis.getPrefixedKey.
    induction (redis.namespace pder) as [|x ns IH]; [reflexivity |].
    cbn. by f_equal.
Qed.

Lemma redis_sessions_apart_witness :
  exists c1 : redis.Client,
    redis.SessionStore_Set (H := fixture.gob) (redis.mkSessionStore "s2") "k" (VBool false)
      (redis.with_client (fixture.redis_pder 0 0)
         (redis.mkClient {[ "sess:s1:k"%string := [Byte.x03; Byte.x01] ]} true []))
      = Some (None, redis.with_client (fixture.redis_pder 0 0) c1) /\
    redis.kv c1 !! "sess:s1:k"%string = Some [Byte.x03; Byte.x01].
Proof.
  pose proof (redis_sessions_apart (H := fixture.lib) (H0 := fixture.gob)
                (redis.with_client (fixture.redis_pder 0 0)
                   (redis.mkClient {[ "sess:s1:k"%string := [Byte.x03; Byte.x01] ]}
                      true [])))
    as (_ & _ & Hset & _).
  destruct (Hset (redis.mkSessionStore "s2") fixture.redis_store
              (redis.mkClient {[ "sess:s1:k"%string := [Byte.x03; Byte.x01] ]} true [])
              "k"%string (VBool false) [Byte.x03; Byte.x00] "k"%string)
    as (c1 & Hrun & Hkv); try reflexivity; [discriminate |].
  exists c1. split; [exact Hrun | exact Hkv].
Defined.

(** ** Opening, initialising and ending *)

(** X22.  On redis [SessionStart] with an id that is not empty accepts the
    id as it is: the manager makes one [SessionRead] call, which returns a
    handle with that id and leaves the provider untouched (no command is
    sent), whatever the length of the id and whether or not the provider
    has a client, while [SessionInit] of an initialised provider refuses
    the ids of more than 36 bytes. *)
Theorem redis_SessionStart_given_id `{GoLib} `{Gob} `{redis.RedisLib}
  (w : session.World redis.Provider) (manager : session.Manager) (now : Time)
  (sid : string) (pder : redis.Provider) :
  sid <> ""%string ->
  session.provides w !! session.provider manager = Some pder ->
  (exists w' : session.World redis.Provider,
     session.SessionStart (Provider0 := redis.redis_Provider) manager now sid w
       = Some (Ok (redis.mkSessionStore sid), w') /\
     session.provides w' = session.provides w /\
     session.trace w' =
       session.trace w ++
         [session.ECall (session.provider manager) (session.CallSessionRead sid)]) /\
  (forall c, redis.client pder = Some c ->
     redis.SESS_ID_LEN < Z.of_nat (String.length sid) ->
     redis.Provider_SessionInit pder sid = (Err id_length_error, pder)).
Proof.
  intros Hsid Hp. split.
  - unfold session.SessionStart. rewrite (eqb_empty_false sid Hsid).
    unfold_M. rewrite Hp. cbn. eexists. split; [reflexivity |]. cbn.
    split; [by apply insert_id | reflexivity].
  - intros c Hc Hlen. unfold redis.Provider_SessionInit. rewrite Hc.
    by destruct (Z.ltb_spec redis.SESS_ID_LEN (Z.of_nat (String.length sid))); [| lia].
Qed.

Lemma redis_SessionStart_given_id_witness :
  let sid := "an-id-of-more-than-thirty-six-bytes-chosen-by-the-client"%string in
  (exists w' : session.World redis.Provider,
     session.SessionStart (H := fixture.lib) (Provider0 := fixture.redis_Provider)
       fixture.manager fixture.noon sid (fixture.world "redis" (fixture.redis_pder 0 0))
       = Some (Ok (redis.mkSessionStore sid), w') /\
     session.provides w' = {[ "redis"%string := fixture.redis_pder 0 0 ]}) /\
  redis.Provider_SessionInit (fixture.redis_pder 0 0) sid
    = (Err id_length_error, fixture.redis_pder 0 0).
Proof.
  intros sid.
  destruct (redis_SessionStart_given_id (H := fixture.lib) (H0 := fixture.gob)
              (H1 := fixture.redis_lib)
              (fixture.world "redis" (fixture.redis_pder 0 0)) fixture.manager
              fixture.noon sid (fixture.redis_pder 0 0))
    as ((w' & Hrun & Hprov & _) & Hinit); [discriminate | reflexivity |].
  split.
  - exists w'. split; [exact Hrun | exact Hprov].
  - apply (Hinit (redis.mkClient ∅ true [])); [reflexivity |].
    unfold redis.SESS_ID_LEN. cbn. lia.
Defined.

(** X23.  When [InitProvider] returns nil.  On redis: exactly when there
    are two parameters or more, the first two are strings, the URL parses
    and the new client's PING is answered.  The namespace is assigned
    before the URL is parsed and is the empty string when parameter 1 is
    not a string; the client is assigned before the PING, so a provider
    whose [InitProvider] failed on the PING holds a client.  On sqlite:
    exactly when the first parameter is a string and [sql.Open] succeeds,
    and then the provider holds the connection. *)
Theorem InitProvider_succeeds_iff `{redis.RedisLib} `{sqlite.SqlLib} :
  (forall provParams (pder : redis.Provider),
     (redis.Provider_InitProvider provParams pder).1 = None <->
     exists url ns rest opts,
       provParams = VString url :: VString ns :: rest /\
       redis.redis_ParseURL url = Ok opts /\
       redis.online (redis.redis_NewClient opts) = true) /\
  (forall url p1 rest (pder : redis.Provider),
     redis.namespace (redis.Provider_InitProvider (VString url :: p1 :: rest) pder).2
       = match p1 with VString ns => ns | _ => ""%string end) /\
  (forall url ns rest opts (pder : redis.Provider),
     redis.redis_ParseURL url = Ok opts ->
     redis.client (redis.Provider_InitProvider (VString url :: VString ns :: rest) pder).2
       = Some (redis.mkClient (redis.kv (redis.redis_NewClient opts))
                 (redis.online (redis.redis_NewClient opts))
                 (redis.cmds (redis.redis_NewClient opts) ++ [redis.CmdPing]))) /\
  (forall provParams (pder : sqlite.Provider),
     (sqlite.Provider_InitProvider provParams pder).1 = None <->
     exists dbFileName rest conn,
       provParams = VString dbFileName :: rest /\
       sqlite.sql_Open sqlite.PROVIDER dbFileName = Ok conn) /\
  (forall dbFileName rest conn (pder : sqlite.Provider),
     sqlite.sql_Open sqlite.PROVIDER dbFileName = Ok conn ->
     sqlite.dbConn (sqlite.Provider_InitProvider (VString dbFileName :: rest) pder).2
       = Some conn).
Proof.
  repeat match goal with |- _ /\ _ => split end.
  - intros provParams pder. unfold redis.Provider_InitProvider. split.
    + destruct provParams as [|[] [|[] rest]]; try discriminate.
      destruct (redis.redis_ParseURL s) as [opts|e] eqn:Hurl; [| discriminate].
      destruct (redis.online (redis.redis_NewClient opts)) eqn:Hon; [| discriminate].
      intros _. by exists s, s0, rest, opts.
    + intros (url & ns & rest & opts & -> & Hurl & Hon). by rewrite Hurl, Hon.
  - intros url p1 rest pder. unfold redis.Provider_InitProvider.
    destruct p1; try reflexivity.
    destruct (redis.redis_ParseURL url) as [opts|e]; [| reflexivity].
    by destruct (redis.online (redis.redis_NewClient opts)).
  - intros url ns rest opts pder Hurl. unfold redis.Provider_InitProvider.
    rewrite Hurl. by destruct (redis.online (redis.redis_NewClient opts)).
  - intros provParams pder. unfold sqlite.Provider_InitProvider. split.
    + destruct provParams as [|[] rest]; try discriminate.
      destruct (sqlite.sql_Open sqlite.PROVIDER s) as [conn|e] eqn:Hopen; [| discriminate].
      intros _. by exists s, rest, conn.
    + intros (f & rest & conn & -> & Hopen). by rewrite Hopen.
  - intros f rest conn pder Hopen. unfold sqlite.Provider_InitProvider.
    by rewrite Hopen.
Qed.

Lemma InitProvider_succeeds_iff_witness :
  (redis.Provider_InitProvider (H0 := fixture.redis_lib)
     [VString "redis://localhost:6379/0"; VString "sess"]
     (redis.mkProvider None "" 0 0)).1 = None /\
  redis.client
    (redis.Provider_InitProvider (H0 := fixture.redis_lib)
       [VString "redis://localhost:6379/0"; VString "sess"]
       (redis.mkProvider None "" 0 0)).2
    = Some (redis.mkClient ∅ true [redis.CmdPing]).
Proof.
  pose proof (InitProvider_succeeds_iff (H := fixture.redis_lib) (H0 := fixture.sql_lib))
    as (Hiff & _ & Hclient & _).
  split.
  - apply Hiff. by exists "redis://localhost:6379/0"%string, "sess"%string, [],
      "redis://localhost:6379/0"%string.
  - apply (Hclient _ _ _ "redis://localhost:6379/0"%string). reflexivity.
Defined.

(** X24.  [SessionClose] and [SessionDestroy] of the manager do nothing
    for the empty id: they return nil and leave the process as it was, also
    when the manager's provider is not there (no panic).  For any other id
    they make exactly one call, [SessionClose] resp. [SessionDestroy] of
    the provider, with that id, and return what it returns. *)
Theorem Manager_end_session {P : Type} `{!session_rest.ProviderEnd P}
  (w : session.World P) (manager : session.Manager) :
  session_rest.Manager_SessionClose manager "" w = Some (None, w) /\
  session_rest.Manager_SessionDestroy manager "" w = Some (None, w) /\
  (forall sid p, sid <> ""%string ->
     session.provides w !! session.provider manager = Some p ->
     exists w' w'',
       session_rest.Manager_SessionClose manager sid w
         = Some ((session_rest.SessionClose sid p).1, w') /\
       session.trace w' =
         session.trace w ++
           [session.ECall (session.provider manager) (session.CallSessionClose sid)] /\
       session.provides w' !! session.provider manager
         = Some (session_rest.SessionClose sid p).2 /\
       session_rest.Manager_SessionDestroy manager sid w
         = Some ((session_rest.SessionDestroy sid p).1, w'') /\
       session.trace w'' =
         session.trace w ++
           [session.ECall (session.provider manager) (session.CallSessionDestroy sid)] /\
       session.provides w'' !! session.provider manager
         = Some (session_rest.SessionDestroy sid p).2).
Proof.
  split; [reflexivity |]. split; [reflexivity |].
  intros sid p Hsid Hp.
  unfold session_rest.Manager_SessionClose, session_rest.Manager_SessionDestroy,
    session_rest.provider_SessionClose, session_rest.provider_SessionDestroy.
  rewrite (eqb_empty_false sid Hsid). cbn [negb]. unfold_M. rewrite !Hp. cbn.
  destruct (session_rest.SessionClose sid p) as [e1 p1].
  destruct (session_rest.SessionDestroy sid p) as [e2 p2]. cbn.
  eexists _, _. repeat split; cbn; apply lookup_insert_eq.
Qed.

Lemma Manager_end_session_witness :
  exists w' w'' : session.World nat,
    session_rest.Manager_SessionClose (ProviderEnd0 := fixture.counter_end)
      fixture.manager "s1" (fixture.world "redis" 3%nat) = Some (None, w') /\
    session.provides w' !! "redis"%string = Some 3%nat /\
    session_rest.Manager_SessionDestroy (ProviderEnd0 := fixture.counter_end)
      fixture.manager "s1" (fixture.world "redis" 3%nat) = Some (None, w'') /\
    session.provides w'' !! "redis"%string = Some 2%nat.
Proof.
  destruct (Manager_end_session (H := fixture.counter_end)
              (fixture.world "redis" 3%nat) fixture.manager)
    as (_ & _ & Hcall).
  destruct (Hcall "s1"%string 3%nat) as (w' & w'' & H1 & _ & H2 & H3 & _ & H4);
    [discriminate | reflexivity |].
  exists w', w''. split; [exact H1 |]. split; [exact H2 |]. split; [exact H3 | exact H4].
Defined.
